(** * budget-reminder: the ingestion and derived-statistics core

    A shallow embedding of [helpers.py], [primitives.py] and the budget
    sorting step of [send_budget_reminder.py], with the properties of the
    specification proved (or refuted) on it.

    Conventions of the embedding.

    - A Python [float] is an IEEE 754 binary64 value, modelled by
      [spec_float] with precision 53 and maximal exponent 1024
      (module [F64]).  The Python [int] literal [0] that the code mixes
      with floats ([max(0, x)], [else 0], the start value of [sum]) is
      modelled by [+0.0]: it compares equal to it and behaves the same
      under [+], [-], [/] and the comparisons used here.
    - A Python [str] is a [string]; the model covers ASCII text.  The
      classes of characters ([isspace], [\d], the cased letters) are
      those of ASCII, which Python extends to other characters: a
      statement that depends on what [strip], [upper], [lower] or the
      digit class do to a text carries the hypothesis that the text is
      ASCII ([PyStr.isascii]).
    - A raised exception is the [Err] case of [res]; the exception class
      is kept ([IndexError], [ValueError], [Exception]).
    - [rows] (the value of a spreadsheet range) is a list of rows, a row
      is a list of cells, a cell is a [string]. *)

From Stdlib Require Import ZArith NArith String Ascii Bool Lia List.
From Stdlib Require Import Permutation Sorted.
From Stdlib Require Import SpecFloat.
Import ListNotations.

Open Scope string_scope.

(* ------------------------------------------------------------------ *)
(** ** Exceptions as an error monad *)

Inductive exn : Type :=
  | IndexError   (* list index out of range *)
  | ValueError   (* could not convert string to float / bad date *)
  | Exception_.  (* raise Exception(...) *)

Inductive res (A : Type) : Type :=
  | Ok  (a : A)
  | Err (e : exn).
Arguments Ok {A} a.
Arguments Err {A} e.

Definition bind {A B : Type} (m : res A) (k : A -> res B) : res B :=
  match m with
  | Ok a => k a
  | Err e => Err e
  end.

Notation "x <- m ;; k" := (bind m (fun x => k))
  (at level 61, m at next level, right associativity).

Definition res_map {A B : Type} (f : A -> B) (m : res A) : res B :=
  match m with
  | Ok a => Ok (f a)
  | Err e => Err e
  end.

(** [xs[i]] on a Python list, for [i >= 0]. *)
Definition index {A : Type} (xs : list A) (i : nat) : res A :=
  match nth_error xs i with
  | Some x => Ok x
  | None => Err IndexError
  end.

(** [[f(x) for x in xs]] where [f] may raise: the first exception, in
    list order, ends the comprehension. *)
Fixpoint traverse {A B : Type} (f : A -> res B) (xs : list A) : res (list B) :=
  match xs with
  | [] => Ok []
  | x :: xs' =>
      y <- f x ;;
      ys <- traverse f xs' ;;
      Ok (y :: ys)
  end.

(** [[r for x in xs for r in [f(x)] if r is not None]] where [f] may
    raise: the items for which [f] gives [None] leave no trace. *)
Fixpoint collect {A B : Type} (f : A -> res (option B)) (xs : list A)
    : res (list B) :=
  match xs with
  | [] => Ok []
  | x :: xs' =>
      r <- f x ;;
      rs <- collect f xs' ;;
      Ok (match r with
          | Some y => y :: rs
          | None => rs
          end)
  end.

(* ------------------------------------------------------------------ *)
(** ** binary64 *)

Module F64.

Definition prec : Z := 53.
Definition emax : Z := 1024.

Definition float : Type := spec_float.

Definition zero : float := S754_zero false.

Definition add : float -> float -> float := SFadd prec emax.
Definition sub : float -> float -> float := SFsub prec emax.
Definition mul : float -> float -> float := SFmul prec emax.
(** [x / y] for a divisor the caller knows to be nonzero (Python raises
    [ZeroDivisionError] on a zero divisor; the one division of the
    program is guarded by [overflow_available > 0]). *)
Definition div : float -> float -> float := SFdiv prec emax.

(** [x < y], [x > y], [x == y]: false as soon as one side is a NaN. *)
Definition ltb (x y : float) : bool := SFltb x y.
Definition gtb (x y : float) : bool := SFltb y x.
Definition eqb (x y : float) : bool := SFeqb x y.

Definition is_nan (x : float) : bool :=
  match x with S754_nan => true | _ => false end.

Fixpoint pow10 (k : nat) : positive :=
  match k with
  | O => 1
  | S k' => 10 * pow10 k'
  end%positive.

(** The float nearest to [(-1)^neg * m / 10^k], ties to even; overflow
    gives an infinity.  This is the value of a decimal numeral with
    digits [m] and [k] digits after the point.  The quotient is formed
    with at least 53 significant bits and rounded once. *)
Definition of_decimal (neg : bool) (m : N) (k : nat) : float :=
  match m with
  | N0 => S754_zero neg
  | Npos p =>
      SFdiv prec emax (S754_finite neg p 0) (S754_finite false (pow10 k) 0)
  end.

(** The float of an integer (how Python compares a float with an [int]
    literal such as [500]). *)
Definition of_Z (z : Z) : float := binary_normalize prec emax z 0 false.

Definition abs : float -> float := SFabs.

Definition is_finite (x : float) : bool :=
  match x with
  | S754_zero _ | S754_finite _ _ _ => true
  | _ => false
  end.

(** [max(a, b)] of Python on two numbers: [b] is taken only when
    [b > a]; in particular [max(a, nan)] is [a]. *)
Definition max (a b : float) : float := if gtb b a then b else a.

(** The builtin [sum] adds the items to the start value [0] from left
    to right ([py_sum] below).  CPython from 3.12 on adds floats with
    Neumaier's compensated summation instead: [f] is the running sum
    and [c] the running compensation, added at the end when it is
    nonzero and finite. *)
Fixpoint sum_compensated_loop (xs : list float) (f c : float) : float :=
  match xs with
  | [] => if negb (eqb c zero) && is_finite c then add f c else f
  | x :: xs' =>
      let t := add f x in
      let c' := if SFleb (abs x) (abs f)
                then add c (add (sub f t) x)
                else add c (add (sub x t) f) in
      sum_compensated_loop xs' t c'
  end.

Definition sum_compensated (xs : list float) : float :=
  match xs with
  | [] => zero
  | x :: xs' => sum_compensated_loop xs' (add zero x) zero
  end.

End F64.


(* ------------------------------------------------------------------ *)
(** ** The [str] methods the program uses *)

Module PyStr.

Definition code (c : ascii) : nat := nat_of_ascii c.

(** [c.isspace()] on an ASCII character: tab, line feed, vertical tab,
    form feed, carriage return, the four separators 28..31 and the
    space.  (Python takes further characters, such as U+00A0, for
    white space: they are outside the model.) *)
Definition is_space (c : ascii) : bool :=
  ((9 <=? code c) && (code c <=? 13) || (28 <=? code c) && (code c <=? 32))%nat.

(** [\d] of [re] on an ASCII character.  (On a [str] pattern [\d]
    also matches the decimal digits of other scripts, which [float]
    reads as well: they are outside the model.) *)
Definition is_digit (c : ascii) : bool :=
  ((48 <=? code c) && (code c <=? 57))%nat.

Definition is_upper (c : ascii) : bool :=
  ((65 <=? code c) && (code c <=? 90))%nat.

Definition is_lower (c : ascii) : bool :=
  ((97 <=? code c) && (code c <=? 122))%nat.

Definition lower_char (c : ascii) : ascii :=
  if is_upper c then ascii_of_nat (code c + 32) else c.

Definition upper_char (c : ascii) : ascii :=
  if is_lower c then ascii_of_nat (code c - 32) else c.

Fixpoint map (f : ascii -> ascii) (s : string) : string :=
  match s with
  | EmptyString => EmptyString
  | String c s' => String (f c) (map f s')
  end.

Fixpoint filter (f : ascii -> bool) (s : string) : string :=
  match s with
  | EmptyString => EmptyString
  | String c s' => if f c then String c (filter f s') else filter f s'
  end.

Definition lower : string -> string := map lower_char.
Definition upper : string -> string := map upper_char.

Fixpoint lstrip (s : string) : string :=
  match s with
  | EmptyString => EmptyString
  | String c s' => if is_space c then lstrip s' else s
  end.

Fixpoint rstrip (s : string) : string :=
  match s with
  | EmptyString => EmptyString
  | String c s' =>
      match rstrip s' with
      | EmptyString => if is_space c then EmptyString else String c EmptyString
      | t => String c t
      end
  end.

Definition strip (s : string) : string := rstrip (lstrip s).

(** [bool(s)]: a string is true when it is not empty. *)
Definition truthy (s : string) : bool :=
  match s with
  | EmptyString => false
  | String _ _ => true
  end.

(** [needle in hay]. *)
Fixpoint contains (needle hay : string) : bool :=
  prefix needle hay ||
  match hay with
  | EmptyString => false
  | String _ hay' => contains needle hay'
  end.

(** [s.isascii()]. *)
Fixpoint isascii (s : string) : bool :=
  match s with
  | EmptyString => true
  | String c s' => (code c <? 128)%nat && isascii s'
  end.

End PyStr.

(* ------------------------------------------------------------------ *)
(** ** helpers.py *)

Module Helpers.

(** The character class [[^\d\.-]] negated: what [re.sub] keeps. *)
Definition keeps (c : ascii) : bool :=
  PyStr.is_digit c || Ascii.eqb c "." || Ascii.eqb c "-".

(** [re.sub(r"[^\d\.-]", "", value)]. *)
Definition residue (value : string) : string := PyStr.filter keeps value.

Definition digit_value (c : ascii) : N := N.of_nat (PyStr.code c - 48).

(** Reads the longest run of digits at the head of [s], continuing the
    numeral [acc]; returns its value, the number of digits read and
    what follows. *)
Fixpoint take_digits (s : string) (acc : N) (n : nat) : N * nat * string :=
  match s with
  | String c s' =>
      if PyStr.is_digit c
      then take_digits s' (10 * acc + digit_value c)%N (S n)
      else (acc, n, s)
  | EmptyString => (acc, n, s)
  end.

(** [float(s)] for a string [s] over the alphabet that [residue]
    leaves (digits, [.] and [-]).  On these strings the grammar of
    [float] is: an optional [-], then digits with an optional point
    and more digits, or a point and digits; at least one digit.
    Anything else raises [ValueError].  [float_of_body] reads what
    follows the sign. *)
Definition float_of_body (neg : bool) (body : string) : res F64.float :=
  let '(ip, ni, rest) := take_digits body 0%N 0 in
  match rest with
  | EmptyString =>
      if (ni =? 0)%nat then Err ValueError else Ok (F64.of_decimal neg ip 0)
  | String c t =>
      if Ascii.eqb c "." then
        let '(m, nf, rest') := take_digits t ip 0 in
        match rest' with
        | EmptyString =>
            if (ni + nf =? 0)%nat then Err ValueError
            else Ok (F64.of_decimal neg m nf)
        | String _ _ => Err ValueError
        end
      else Err ValueError
  end.

Definition float_of_residue (s : string) : res F64.float :=
  match s with
  | String c t =>
      if Ascii.eqb c "-" then float_of_body true t
      else float_of_body false s
  | EmptyString => float_of_body false s
  end.

(** [parse_money(value)].  [None] is Python's [None]. *)
Definition parse_money (value : option string) : res F64.float :=
  match value with
  | None => Ok F64.zero
  | Some v =>
      if negb (PyStr.truthy v) then Ok F64.zero
      else float_of_residue (residue v)
  end.

End Helpers.

(* ------------------------------------------------------------------ *)
(** ** primitives.py *)

(** The numbers [Bss] adds up.  The program adds binary64 floats; the
    accessors are written once for any carrier so that they can also be
    read over an exact one. *)
Class Number (num : Type) : Type := {
  num_zero : num;
  num_add : num -> num -> num
}.

#[export] Instance Number_float : Number F64.float := {|
  num_zero := F64.zero;
  num_add := F64.add
|}.

(** Amounts counted exactly, in cents. *)
Definition Number_cents : Number Z := {|
  num_zero := 0%Z;
  num_add := Z.add
|}.

(** [sum(...)] with the start value [0], left to right. *)
Definition py_sum {num : Type} `{Number num} (xs : list num) : num :=
  fold_left num_add xs num_zero.

Definition rows_t : Type := list (list string).

(** [row[i]] and [rows[i][0]]. *)
Definition cell (row : list string) (i : nat) : res string := index row i.

Definition cell0 (rows : rows_t) (i : nat) : res string :=
  row <- index rows i ;;
  index row 0.

Inductive ExpenseType : Type :=
  | Expendable
  | Saving
  | RequiredPayment.

Inductive BssCategory : Type :=
  | Spending
  | Bills
  | Savings.

Definition BssCategory_eqb (a b : BssCategory) : bool :=
  match a, b with
  | Spending, Spending | Bills, Bills | Savings, Savings => true
  | _, _ => false
  end.

Module BssSpent.

Record t (num : Type) : Type := mk {
  category : BssCategory;
  amount : num
}.
Arguments mk {num} category amount.
Arguments category {num} _.
Arguments amount {num} _.

(** [not rows[i] or not rows[i][0].strip()]. *)
Definition blank (row : list string) : bool :=
  match row with
  | [] => true
  | c :: _ => negb (PyStr.truthy (PyStr.strip c))
  end.

(** The [if]/[elif]/[else] on [category_str]. *)
Definition classify (category_str : string) : BssCategory :=
  if PyStr.contains "bill" category_str then Bills
  else if PyStr.contains "sav" category_str then Savings
  else Spending.

(** The body of the [while] loop of [from_rows], iterated at most
    [fuel] times from index [i] with the entities appended so far in
    [result].  [None]: the loop has not ended within [fuel]
    iterations. *)
Fixpoint from_rows_loop (fuel : nat) (rows : rows_t) (i : nat)
    (result : list (t F64.float)) : option (res (list (t F64.float))) :=
  match fuel with
  | O => None
  | S fuel' =>
      if (i <? length rows)%nat then
        match index rows i with
        | Err e => Some (Err e)
        | Ok row =>
            if blank row then from_rows_loop fuel' rows (i + 1) result
            else
              match
                (c <- index row 0 ;;
                 let category_str := PyStr.lower (PyStr.strip c) in
                 let category := classify category_str in
                 amount <-
                   (if (i + 1 <? length rows)%nat
                    then c1 <- cell0 rows (i + 1) ;;
                         Helpers.parse_money (Some c1)
                    else Ok F64.zero) ;;
                 Ok (mk category amount))
              with
              | Err e => Some (Err e)
              | Ok entity =>
                  from_rows_loop fuel' rows (i + 2) (result ++ [entity])
              end
        end
      else Some (Ok result)
  end.

(** Every iteration advances [i] by at least one, so [len(rows) + 1]
    iterations are enough (lemma [from_rows_loop_pairs]). *)
Definition from_rows (rows : rows_t) : option (res (list (t F64.float))) :=
  from_rows_loop (S (length rows)) rows 0 [].

(** What the loop does, read off the rows still ahead of [i]: a blank
    row is passed over, any other row is a label and the row after
    it, whatever it holds, is its amount. *)
Fixpoint pairs (rows : rows_t) : res (list (t F64.float)) :=
  match rows with
  | [] => Ok []
  | row :: rest =>
      if blank row then pairs rest
      else
        c <- index row 0 ;;
        let category := classify (PyStr.lower (PyStr.strip c)) in
        match rest with
        | [] => Ok [mk category F64.zero]
        | amount_row :: rest' =>
            c1 <- index amount_row 0 ;;
            amount <- Helpers.parse_money (Some c1) ;;
            tl <- pairs rest' ;;
            Ok (mk category amount :: tl)
        end
  end.

End BssSpent.

Module Bss.

(** The dataclass has the one field [elements]. *)
Definition t (num : Type) : Type := list (BssSpent.t num).

Definition from_rows (rows : rows_t) : option (res (t F64.float)) :=
  BssSpent.from_rows rows.

Section Accessors.
Context {num : Type} `{Number num}.

Definition in_category (c : BssCategory) (bss : BssSpent.t num) : bool :=
  BssCategory_eqb (BssSpent.category bss) c.

Definition spending (elements : t num) : num :=
  py_sum (map BssSpent.amount (filter (in_category Spending) elements)).

Definition bills (elements : t num) : num :=
  py_sum (map BssSpent.amount (filter (in_category Bills) elements)).

Definition savings (elements : t num) : num :=
  py_sum (map BssSpent.amount (filter (in_category Savings) elements)).

Definition total (elements : t num) : num :=
  py_sum (map BssSpent.amount elements).
End Accessors.

End Bss.

Module PaymentsOverview.

Record t : Type := mk {
  category : string;
  amount : F64.float
}.

Definition from_row (row : list string) : res (option t) :=
  c1 <- cell row 1 ;;
  amount <- Helpers.parse_money (Some c1) ;;
  if F64.eqb amount F64.zero then Ok None
  else
    c0 <- cell row 0 ;;
    Ok (Some (mk c0 amount)).

Definition from_range (rows : rows_t) : res (list t) :=
  collect from_row rows.

End PaymentsOverview.

Module SavingsOverview.

Record t : Type := mk {
  category : string;
  amount : F64.float
}.

Definition from_row (row : list string) : res (option t) :=
  c2 <- cell row 2 ;;
  amount <- Helpers.parse_money (Some c2) ;;
  if F64.eqb amount F64.zero then Ok None
  else
    c0 <- cell row 0 ;;
    Ok (Some (mk c0 amount)).

Definition from_range (rows : rows_t) : res (list t) :=
  collect from_row rows.

End SavingsOverview.

Module SpendableOverview.

Record t : Type := mk {
  category : string;
  spendable_amount : F64.float;
  future_daily : F64.float;
  left_today : F64.float
}.

Definition from_row (row : list string) : res t :=
  c1 <- cell row 1 ;;
  spendable_amount <- Helpers.parse_money (Some c1) ;;
  c2 <- cell row 2 ;;
  future_daily <- Helpers.parse_money (Some c2) ;;
  c3 <- cell row 3 ;;
  left_today <- Helpers.parse_money (Some c3) ;;
  c0 <- cell row 0 ;;
  Ok (mk c0 spendable_amount future_daily left_today).

Definition from_range (rows : rows_t) : res (list t) :=
  traverse from_row rows.

End SpendableOverview.

Module TransferOverview.

Record t : Type := mk {
  from_account : string;
  to_account : string;
  amount : F64.float
}.

Definition from_row (row : list string) : res (option t) :=
  c2 <- cell row 2 ;;
  amount <- Helpers.parse_money (Some c2) ;;
  if F64.eqb amount F64.zero then Ok None
  else
    c0 <- cell row 0 ;;
    c1 <- cell row 1 ;;
    Ok (Some (mk c0 c1 amount)).

Definition from_range (rows : rows_t) : res (list t) :=
  collect from_row rows.

End TransferOverview.

(** A [datetime.date] is identified by its proleptic Gregorian ordinal
    ([date.toordinal()]): dates compare as their ordinals do, and
    [date.min], the first of January of year 1, has ordinal 1. *)
Definition date : Type := positive.

Definition date_min : date := 1%positive.

Module Budget.

Record t : Type := mk {
  category : string;
  subcategory : option string;
  amount : F64.float;
  timeframe : F64.float;
  description : string;
  expense_type : ExpenseType;
  paid_from : option string;
  next_approx_payment : option date
}.

Definition from_manual_budget_row (period_size : F64.float)
    (row : list string) : res t :=
  c0 <- cell row 0 ;;
  let category := PyStr.strip c0 in
  c2 <- cell row 2 ;;
  let detailed_description := PyStr.strip c2 in
  let description :=
    if PyStr.truthy detailed_description
    then category ++ " / " ++ detailed_description
    else category in
  c3 <- cell row 3 ;;
  let expense_type :=
    if String.eqb c3 "FALSE" then RequiredPayment else Expendable in
  c1 <- cell row 1 ;;
  amount <- Helpers.parse_money (Some c1) ;;
  Ok (mk category None amount period_size description expense_type
         None None).

Definition from_manual_budget_range (period_size : F64.float)
    (rows : rows_t) : res (list t) :=
  traverse (from_manual_budget_row period_size) rows.

(** [cat2subcat] is a [dict]: its keys in iteration order, each with
    the value stored under it (the keys of a [dict] are distinct, so
    [cat2subcat[cat]] is the list paired with [cat]).  The loop stops
    at the first key whose list has the subcategory. *)
Fixpoint find_category (cat2subcat : list (string * list string))
    (subcategory : string) : option string :=
  match cat2subcat with
  | [] => None
  | (cat, subs) :: rest =>
      if existsb (String.eqb subcategory) subs then Some cat
      else find_category rest subcategory
  end.

Section Recurring.
(** Two functions of Python's library, taken as they are:
    [float(s)] on an arbitrary string and
    [datetime.strptime(s, "%m/%d/%Y").date()]. *)
Variable py_float : string -> res F64.float.
Variable strptime_mdY : string -> res date.

Definition from_recurring_budget_row
    (cat2subcat : list (string * list string)) (row : list string)
    : res t :=
  c0 <- cell row 0 ;;
  let subcategory := PyStr.strip c0 in
  c1 <- cell row 1 ;;
  let description := PyStr.strip c1 in
  c2 <- cell row 2 ;;
  amount <- Helpers.parse_money (Some c2) ;;
  c3 <- cell row 3 ;;
  timeframe <- py_float c3 ;;
  c4 <- cell row 4 ;;
  let expense_type :=
    if String.eqb c4 "FALSE" then RequiredPayment else Saving in
  c5 <- cell row 5 ;;
  let paid_from := PyStr.strip c5 in
  c7 <- cell row 7 ;;
  next_approx_payment <- strptime_mdY (PyStr.strip c7) ;;
  match find_category cat2subcat subcategory with
  | None => Err Exception_
  | Some category =>
      if negb (PyStr.truthy category) then Err Exception_
      else
        Ok (mk category (Some subcategory) amount timeframe description
               expense_type (Some paid_from) (Some next_approx_payment))
  end.

Definition from_recurring_budget_range
    (cat2subcat : list (string * list string)) (rows : rows_t)
    : res (list t) :=
  traverse (from_recurring_budget_row cat2subcat) rows.
End Recurring.

End Budget.

Module AccountBalance.

Record t : Type := mk {
  name : string;
  amount_manual : F64.float;
  amount_calc : F64.float;
  amount_diff : F64.float
}.

(** The body of the [for] loop of [from_rows]. *)
Definition from_row (row : list string) : res t :=
  c0 <- cell row 0 ;;
  let name := PyStr.strip c0 in
  c2 <- cell row 2 ;;
  amount_calc <- Helpers.parse_money (Some c2) ;;
  c3 <- cell row 3 ;;
  amount_manual <- Helpers.parse_money (Some c3) ;;
  let amount_diff := F64.sub amount_manual amount_calc in
  Ok (mk name amount_manual amount_calc amount_diff).

Definition from_rows (rows : rows_t) : res (list t) :=
  traverse from_row rows.

End AccountBalance.

Module BudgetStats.

Record t : Type := mk {
  income_account : string;
  total_budget : F64.float;
  income_at_period_start : F64.float;
  checking_amount_period_start : F64.float;
  total_withheld_required_payments : F64.float;
  total_withheld_savings : F64.float;
  balance_after_withheld : F64.float;
  budget_after_withheld : F64.float;
  allocated_spending_budget : F64.float;
  balance_after_withheld_and_spending : F64.float;
  budget_after_withheld_and_spending : F64.float;
  budget_after_withheld_and_spent : F64.float;
  overspent_soft : bool;
  overspent_hard : bool;
  checking_floor : F64.float;
  free_to_spend : F64.float
}.

(** [parse_money(rows[i][0])]. *)
Definition money_at (rows : rows_t) (i : nat) : res F64.float :=
  c <- cell0 rows i ;;
  Helpers.parse_money (Some c).

(** [rows[i][0].strip().upper() == "TRUE"]. *)
Definition flag_at (rows : rows_t) (i : nat) : res bool :=
  c <- cell0 rows i ;;
  Ok (String.eqb (PyStr.upper (PyStr.strip c)) "TRUE").

(** The keyword arguments are evaluated in the order written. *)
Definition from_rows (rows : rows_t) : res t :=
  c <- cell0 rows 0 ;;
  let income_account := PyStr.strip c in
  total_budget <- money_at rows 3 ;;
  income_at_period_start <- money_at rows 5 ;;
  checking_amount_period_start <- money_at rows 7 ;;
  total_withheld_required_payments <- money_at rows 9 ;;
  total_withheld_savings <- money_at rows 11 ;;
  balance_after_withheld <- money_at rows 13 ;;
  budget_after_withheld <- money_at rows 15 ;;
  allocated_spending_budget <- money_at rows 17 ;;
  balance_after_withheld_and_spending <- money_at rows 19 ;;
  budget_after_withheld_and_spending <- money_at rows 21 ;;
  budget_after_withheld_and_spent <- money_at rows 23 ;;
  overspent_soft <- flag_at rows 25 ;;
  overspent_hard <- flag_at rows 27 ;;
  checking_floor <- money_at rows 29 ;;
  free_to_spend <- money_at rows 31 ;;
  Ok (mk income_account total_budget income_at_period_start
         checking_amount_period_start total_withheld_required_payments
         total_withheld_savings balance_after_withheld
         budget_after_withheld allocated_spending_budget
         balance_after_withheld_and_spending
         budget_after_withheld_and_spending
         budget_after_withheld_and_spent overspent_soft overspent_hard
         checking_floor free_to_spend).

End BudgetStats.

Module Summary.

Record BudgetMetadata : Type := mk_meta {
  meta_name : string;
  spreadsheet_url : string
}.

Record t : Type := mk {
  meta : BudgetMetadata;
  start_date : date;
  end_date : date;
  period_size : F64.float;
  spent_categorized : Bss.t F64.float;
  account_balances : list AccountBalance.t;
  transfer_overviews : list TransferOverview.t;
  spendable_overviews : list SpendableOverview.t;
  payments_overviews : list PaymentsOverview.t;
  savings_overviews : list SavingsOverview.t;
  budgets : list Budget.t;
  budget_stats : BudgetStats.t;
  time : string;
  horoscope : option string;
  horoscope_url : option string;
  custom_alert : option string
}.

(** The values the overflow block of [to_email_html] computes, under
    the names of its local variables. *)
Record overflow_t : Type := mk_overflow {
  bills_this_period : F64.float;
  savings_this_period : F64.float;
  spending_this_period : F64.float;
  bills_overspent : F64.float;
  savings_overspent : F64.float;
  spending_overspent : F64.float;
  overflow_consumed : F64.float;
  overflow_available : F64.float;
  overflow_pct : F64.float
}.

Definition hundred : F64.float := F64.of_Z 100.

Definition to_email_html_overflow (self : t) : overflow_t :=
  let bills_this_period := Bss.bills (spent_categorized self) in
  let savings_this_period := Bss.savings (spent_categorized self) in
  let spending_this_period := Bss.spending (spent_categorized self) in
  let bills_overspent :=
    F64.max F64.zero
      (F64.sub bills_this_period
         (BudgetStats.total_withheld_required_payments (budget_stats self))) in
  let savings_overspent :=
    F64.max F64.zero
      (F64.sub savings_this_period
         (BudgetStats.total_withheld_savings (budget_stats self))) in
  let spending_overspent :=
    F64.max F64.zero
      (F64.sub spending_this_period
         (BudgetStats.allocated_spending_budget (budget_stats self))) in
  let overflow_consumed :=
    F64.add (F64.add bills_overspent savings_overspent) spending_overspent in
  let overflow_available :=
    BudgetStats.budget_after_withheld_and_spending (budget_stats self) in
  let overflow_pct :=
    if F64.gtb overflow_available F64.zero
    then F64.mul (F64.div overflow_consumed overflow_available) hundred
    else F64.zero in
  let overflow_pct := F64.max overflow_pct F64.zero in
  mk_overflow bills_this_period savings_this_period spending_this_period
    bills_overspent savings_overspent spending_overspent
    overflow_consumed overflow_available overflow_pct.

End Summary.

(* ------------------------------------------------------------------ *)
(** ** send_budget_reminder.py: the budget list of [main] *)

Module Main.

(** [list.sort(key=...)] is stable: it gives the one arrangement of
    the list that is ascending in the key and keeps items of equal key
    in their input order.  Stable insertion computes it. *)
Section Sort.
Context {A : Type}.
Variable key : A -> date.

Fixpoint insert (x : A) (l : list A) : list A :=
  match l with
  | [] => [x]
  | y :: l' =>
      if (key y <? key x)%positive then y :: insert x l' else x :: l
  end.

Definition sort (l : list A) : list A := fold_right insert [] l.
End Sort.

(** [lambda b: b.next_approx_payment or date.min] (a [date] is always
    true). *)
Definition sort_key (b : Budget.t) : date :=
  match Budget.next_approx_payment b with
  | Some d => d
  | None => date_min
  end.

Section Budgets.
Variable py_float : string -> res F64.float.
Variable strptime_mdY : string -> res date.

(** [budgets] as [main] builds it from the two ranges. *)
Definition budgets (period_size : F64.float)
    (cat2subcat : list (string * list string))
    (manual_rows recurring_rows : rows_t) : res (list Budget.t) :=
  manual <- Budget.from_manual_budget_range period_size manual_rows ;;
  recurring <-
    Budget.from_recurring_budget_range py_float strptime_mdY
      cat2subcat recurring_rows ;;
  Ok (sort sort_key (manual ++ recurring)).
End Budgets.

End Main.

(* ------------------------------------------------------------------ *)
(** ** Predicates used in the statements *)

(** The number of occurrences of [c] in [s]. *)
Fixpoint count_char (c : ascii) (s : string) : nat :=
  match s with
  | EmptyString => 0
  | String c' s' => (if Ascii.eqb c' c then 1 else 0) + count_char c s'
  end.

Fixpoint all_digits (s : string) : bool :=
  match s with
  | EmptyString => true
  | String c s' => PyStr.is_digit c && all_digits s'
  end.

(** [result] extended by the entities still to come, unless reading
    them raises. *)
Definition prepend {A : Type} (result : list A) (r : res (list A))
    : res (list A) :=
  match r with
  | Ok l => Ok (result ++ l)%list
  | Err e => Err e
  end.

(** The cells of a row, and of some rows, are ASCII texts. *)
Definition ascii_row (row : list string) : bool := forallb PyStr.isascii row.

Definition ascii_rows (rows : rows_t) : bool := forallb ascii_row rows.

(** After [rows], the categorized-spend loop stands at a label position:
    the rows pair up, no label at the end is still waiting for its
    amount. *)
Fixpoint at_label (rows : rows_t) : bool :=
  match rows with
  | [] => true
  | row :: rest =>
      if BssSpent.blank row then at_label rest
      else
        match rest with
        | [] => false
        | _ :: rest' => at_label rest'
        end
  end.

(** What is asked of a mapper that filters on the amount in column
    [col]: a row whose amount parses to zero gives no entity, a row
    whose amount parses to anything else gives one with that amount, a
    parse error is raised, and the range is the list of the entities of
    its rows, in order. *)
Definition filtering_mapper {A : Type}
    (from_row : list string -> res (option A))
    (from_range : rows_t -> res (list A))
    (col : nat) (amount : A -> F64.float) : Prop :=
  (forall row c a,
     cell row col = Ok c -> Helpers.parse_money (Some c) = Ok a ->
     F64.eqb a F64.zero = true ->
     from_row row = Ok None)
  /\ (forall row c a,
        cell row col = Ok c -> Helpers.parse_money (Some c) = Ok a ->
        F64.eqb a F64.zero = false ->
        exists x, from_row row = Ok (Some x) /\ amount x = a)
  /\ (forall row c e,
        cell row col = Ok c -> Helpers.parse_money (Some c) = Err e ->
        from_row row = Err e)
  /\ (forall rows out,
        from_range rows = Ok out ->
        out = flat_map (fun row => match from_row row with
                                   | Ok (Some x) => [x]
                                   | _ => []
                                   end) rows)
  /\ (forall rows,
        (forall row, In row rows -> exists r, from_row row = Ok r) ->
        exists out, from_range rows = Ok out)
  /\ (forall rows row e,
        In row rows -> from_row row = Err e ->
        exists e', from_range rows = Err e').

(** Ascending in the key of the budget sort. *)
Definition key_le (a b : Budget.t) : Prop :=
  (Main.sort_key a <= Main.sort_key b)%positive.

Definition undated (b : Budget.t) : Prop := Budget.next_approx_payment b = None.

Definition dated (b : Budget.t) : Prop := Budget.next_approx_payment b <> None.

(** The rows of the statistics block that are read as money, and those
    read as text (the account name and the two flags). *)
Definition money_rows : list nat := [3; 5; 7; 9; 11; 13; 15; 17; 19; 21; 23; 29; 31].

Definition text_rows : list nat := [0; 25; 27].

(** [c] is the letter [u], in either case. *)
Definition letter (u : ascii) (c : ascii) : Prop :=
  c = u \/ c = PyStr.lower_char u.

(** The text of a sign. *)
Definition sign_text (neg : bool) : string := if neg then "-" else "".

(** The value of the decimal numeral [s], continuing the numeral read so
    far, of value [acc]. *)
Fixpoint numeral (s : string) (acc : N) : N :=
  match s with
  | EmptyString => acc
  | String c s' => numeral s' (10 * acc + Helpers.digit_value c)%N
  end.

(** [x] is not below zero: a zero of either sign, a positive number,
    plus infinity, or a NaN (for which [x < 0] is false as well). *)
Definition not_negative (x : F64.float) : Prop := F64.ltb x F64.zero = false.

(* ------------------------------------------------------------------ *)
(** ** Sample data *)

Module Sample.

Definition money (cents : N) : F64.float := F64.of_decimal false cents 2.

Definition stats : BudgetStats.t :=
  BudgetStats.mk "Checking" (money 300000) (money 300000) (money 350000)
    (money 50000) (money 20000) (money 280000) (money 230000)
    (money 100000) (money 180000) (money 4000) (money 90000)
    false false (money 100000) (money 0).

(** Bills of 600 against 500 withheld, nothing else overspent, and a
    buffer of 40. *)
Definition summary : Summary.t :=
  Summary.mk (Summary.mk_meta "Sam" "https://docs.google.com/spreadsheets/d/x")
    738000%positive 738013%positive (F64.of_Z 14)
    [BssSpent.mk Bills (money 60000); BssSpent.mk Spending (money 1000)]
    [] [] [] [] [] [] stats "8:00 AM" None None None.

(** The scenario of the specification. *)
Definition spend_rows : rows_t :=
  [["Bills"; ""]; ["$500"]; ["Savings"; ""]; ["$200"];
   ["Groceries"; ""]; ["$150"]].

Definition spend : Bss.t F64.float :=
  [BssSpent.mk Bills (F64.of_Z 500); BssSpent.mk Savings (F64.of_Z 200);
   BssSpent.mk Spending (F64.of_Z 150)].

(** Thirty, twenty and ten cents. *)
Definition dime_rows : rows_t :=
  [["Savings"]; ["$0.30"]; ["Bills"]; ["$0.20"]; ["Groceries"]; ["$0.10"]].

Definition dimes : Bss.t F64.float :=
  [BssSpent.mk Savings (F64.of_decimal false 30 2);
   BssSpent.mk Bills (F64.of_decimal false 20 2);
   BssSpent.mk Spending (F64.of_decimal false 10 2)].

Definition dimes_in_cents : Bss.t Z :=
  [BssSpent.mk Savings 30%Z; BssSpent.mk Bills 20%Z;
   BssSpent.mk Spending 10%Z].

(** Stand-ins for the two library functions, enough to run the
    recurring path on a sample row: days given as digits, and dates
    given as their ordinal in digits. *)
Definition float_of_digits (s : string) : res F64.float :=
  if all_digits s && PyStr.truthy s
  then Ok (F64.of_decimal false (numeral s 0) 0)
  else Err ValueError.

Definition date_of_digits (s : string) : res date :=
  match numeral s 0 with
  | Npos p => if all_digits s then Ok p else Err ValueError
  | N0 => Err ValueError
  end.

Definition cat2subcat : list (string * list string) :=
  [("Home", ["Rent"; "Power"]); ("Fun", ["Trips"])].

(** A statistics block: labels on the rows that are not read. *)
Definition stats_rows : rows_t :=
  [[" Checking "]; ["Total budget"]; []; ["$3,000.00"]; []; ["$3,000.00"];
   []; ["$3,500.00"]; []; ["$500.00"]; []; ["$200.00"]; []; ["$2,800.00"];
   []; ["$2,300.00"]; []; ["$1,000.00"]; []; ["$1,800.00"]; []; ["$40.00"];
   []; ["$900.00"]; []; ["false"]; []; [" True "]; []; ["$1,000.00"]; [];
   ["$0.00"]].

(** Budget items in an arbitrary arrangement, two of them without a
    date. *)
Definition item (name : string) (day : option date) : Budget.t :=
  Budget.mk name None (F64.of_Z 10) (F64.of_Z 14) name Expendable None day.

Definition items : list Budget.t :=
  [item "rent" (Some 738010%positive); item "food" None;
   item "trip" (Some 738003%positive); item "phone" None].

Definition manual_rows : rows_t :=
  [["Food"; "$300"; "weekly shop"; "TRUE"]; ["Phone"; "$40"; ""; "FALSE"]].

Definition recurring_rows : rows_t :=
  [["Rent"; "flat"; "$900"; "30"; "FALSE"; "Checking"; ""; "738010"];
   ["Trips"; "summer"; "$100"; "30"; "TRUE"; "Savings"; ""; "738003"]].

End Sample.

(* ------------------------------------------------------------------ *)
(** ** More [str] methods *)

Module PyText.

(** [s.startswith(p)]. *)
Definition startswith (s p : string) : bool := prefix p s.

(** [sep.join(parts)]. *)
Fixpoint join (sep : string) (parts : list string) : string :=
  match parts with
  | [] => ""
  | [x] => x
  | x :: parts' => x ++ sep ++ join sep parts'
  end.

(** [s.split(sep)] for a separator that is not empty: the occurrences
    of [sep] are taken from left to right without overlap.  While
    [skip] is not zero the scan is inside an occurrence it has matched;
    [cur] is the part read since the last occurrence. *)
Fixpoint split_go (sep s : string) (skip : nat) (cur : string) : list string :=
  match s with
  | EmptyString => [cur]
  | String c s' =>
      match skip with
      | S k => split_go sep s' k cur
      | O =>
          if prefix sep s
          then cur :: split_go sep s' (String.length sep - 1) ""
          else split_go sep s' 0 (cur ++ String c "")
      end
  end.

Definition split (sep s : string) : list string := split_go sep s 0 "".

(** [s.replace(old, new)] for an [old] that is not empty. *)
Fixpoint replace_go (old new s : string) (skip : nat) : string :=
  match s with
  | EmptyString => ""
  | String c s' =>
      match skip with
      | S k => replace_go old new s' k
      | O =>
          if prefix old s
          then new ++ replace_go old new s' (String.length old - 1)
          else String c (replace_go old new s' 0)
      end
  end.

Definition replace (old new s : string) : string := replace_go old new s 0.

(** [s[:1].upper() + s[1:] if s else s] on an ASCII text.  (For some
    other first characters [upper] gives several characters, or a
    letter that is not their capital: they are outside the model.) *)
Definition upper_first (s : string) : string :=
  match s with
  | EmptyString => ""
  | String c s' => String (PyStr.upper_char c) s'
  end.

End PyText.

(* ------------------------------------------------------------------ *)
(** ** fetch_horoscope.py *)

Module FetchHoroscope.

Inductive ZodiacSign : Type :=
  | ARIES | TAURUS | GEMINI | CANCER | LEO | VIRGO
  | LIBRA | SCORPIO | SAGITTARIUS | CAPRICORN | AQUARIUS | PISCES.

(** [sign.value]. *)
Definition value (sign : ZodiacSign) : string :=
  match sign with
  | ARIES => "Aries"
  | TAURUS => "Taurus"
  | GEMINI => "Gemini"
  | CANCER => "Cancer"
  | LEO => "Leo"
  | VIRGO => "Virgo"
  | LIBRA => "Libra"
  | SCORPIO => "Scorpio"
  | SAGITTARIUS => "Sagittarius"
  | CAPRICORN => "Capricorn"
  | AQUARIUS => "Aquarius"
  | PISCES => "Pisces"
  end.

Definition days_in_month : list Z :=
  [31; 29; 31; 30; 31; 30; 31; 31; 30; 31; 30; 31]%Z.

(** [_birthday_to_zodiac_sign(day, month)], on Python's unbounded
    integers. *)
Definition _birthday_to_zodiac_sign (day month : Z) : res ZodiacSign :=
  if negb ((1 <=? month) && (month <=? 12))%Z then Err ValueError
  else
    last_day <- index days_in_month (Z.to_nat (month - 1)) ;;
    if negb ((1 <=? day) && (day <=? last_day))%Z then Err ValueError
    else if ((month =? 12) && (day >=? 22) || (month =? 1) && (day <=? 19))%Z
    then Ok CAPRICORN
    else if ((month =? 1) && (day >=? 20) || (month =? 2) && (day <=? 18))%Z
    then Ok AQUARIUS
    else if ((month =? 2) && (day >=? 19) || (month =? 3) && (day <=? 20))%Z
    then Ok PISCES
    else if ((month =? 3) && (day >=? 21) || (month =? 4) && (day <=? 19))%Z
    then Ok ARIES
    else if ((month =? 4) && (day >=? 20) || (month =? 5) && (day <=? 20))%Z
    then Ok TAURUS
    else if ((month =? 5) && (day >=? 21) || (month =? 6) && (day <=? 20))%Z
    then Ok GEMINI
    else if ((month =? 6) && (day >=? 21) || (month =? 7) && (day <=? 22))%Z
    then Ok CANCER
    else if ((month =? 7) && (day >=? 23) || (month =? 8) && (day <=? 22))%Z
    then Ok LEO
    else if ((month =? 8) && (day >=? 23) || (month =? 9) && (day <=? 22))%Z
    then Ok VIRGO
    else if ((month =? 9) && (day >=? 23) || (month =? 10) && (day <=? 22))%Z
    then Ok LIBRA
    else if ((month =? 10) && (day >=? 23) || (month =? 11) && (day <=? 21))%Z
    then Ok SCORPIO
    else if ((month =? 11) && (day >=? 22) || (month =? 12) && (day <=? 21))%Z
    then Ok SAGITTARIUS
    else Err ValueError.

(** The address [_horoscope_request] asks for. *)
Definition horoscope_url (sign : ZodiacSign) : string :=
  "https://www.astroyogi.com/horoscopes/daily/" ++ PyStr.lower (value sign)
  ++ "-free-horoscope.aspx".

(** What the code takes from the parsed page.  A child of a paragraph
    is a text node, with its text, or a tag, with what
    [get_text(strip=True)] gives for it; [content_div] is
    [soup.find("div", class_="content-page")] and its paragraphs are
    [content_div.find_all("p")], each with its [contents]. *)
Inductive child : Type :=
  | NavigableString (text : string)
  | Tag (stripped_text : string).

Record soup : Type := mk_soup {
  content_div : option (list (list child))
}.

(** The inner [for] loop: the first child with a text that is not
    empty once stripped. *)
Fixpoint first_child_text (contents : list child) : option string :=
  match contents with
  | [] => None
  | NavigableString text :: contents' =>
      let txt := PyStr.strip text in
      if PyStr.truthy txt then Some txt else first_child_text contents'
  | Tag txt :: contents' =>
      if PyStr.truthy txt then Some txt else first_child_text contents'
  end.

(** What is done to the paragraph that is found. *)
Definition polish (first_child_text : string) : string :=
  let first_child_text := PyText.replace "Astroyogi a" "a" first_child_text in
  let sentences := PyText.split ". " first_child_text in
  let sentences := map PyText.upper_first sentences in
  PyText.join ". " sentences.

(** The outer [for] loop. *)
Fixpoint find_horoscope (paragraphs : list (list child)) : option string :=
  match paragraphs with
  | [] => None
  | p :: paragraphs' =>
      match first_child_text p with
      | Some txt =>
          if PyText.startswith txt "Dear " then Some (polish txt)
          else find_horoscope paragraphs'
      | None => find_horoscope paragraphs'
      end
  end.

Section Request.
(** [_get_and_render(url, selector)] drives a browser; it is taken as
    it is.  Whatever it raises is caught in [_horoscope_request]. *)
Variable _get_and_render : string -> string -> res soup.

Definition _horoscope_request (sign : ZodiacSign) : option (string * string) :=
  let url := horoscope_url sign in
  match _get_and_render url "div.content-page" with
  | Err _ => None
  | Ok page =>
      match content_div page with
      | None => None
      | Some paragraphs =>
          match find_horoscope paragraphs with
          | Some text => Some (text, url)
          | None => None
          end
      end
  end.

(** [int(s)] on a [str] is taken as it is; [None] stands for the
    [ValueError] that is all it raises. *)
Variable py_int : string -> option Z.

Definition _string_to_birthday (birthday : string) : res (Z * Z) :=
  match PyText.split "-" birthday with
  | [_; month_str; day_str] | [month_str; day_str] =>
      match py_int day_str with
      | None => Err ValueError
      | Some day =>
          match py_int month_str with
          | None => Err ValueError
          | Some month => Ok (day, month)
          end
      end
  | _ => Err ValueError
  end.

Definition get_horoscope_for_birthday (birthday : string)
    : res (option (string * string)) :=
  match
    (dm <- _string_to_birthday birthday ;;
     _birthday_to_zodiac_sign (fst dm) (snd dm))
  with
  | Err ValueError => Ok None
  | Err e => Err e
  | Ok zodiac_sign => Ok (_horoscope_request zodiac_sign)
  end.
End Request.

End FetchHoroscope.

(* ------------------------------------------------------------------ *)
(** ** send_budget_reminder.py: the category table of [main] *)

Module Categories.

(** A [dict] from a category to its subcategories: the keys in
    insertion order, each once, with the value stored under it. *)
Definition dict : Type := list (string * list string).

(** [d[key] = []]: a key that is there keeps its place. *)
Fixpoint set_empty (d : dict) (key : string) : dict :=
  match d with
  | [] => [(key, [])]
  | (k, v) :: d' =>
      if String.eqb k key then (k, []) :: d' else (k, v) :: set_empty d' key
  end.

(** [d[key].append(value)].  On a key that is not there Python raises
    [KeyError]; the keys [main] uses are those of the dictionary
    itself (lemma [keys_of_add_row]), and a dictionary without the key
    is left as it is. *)
Fixpoint append (d : dict) (key value : string) : dict :=
  match d with
  | [] => []
  | (k, v) :: d' =>
      if String.eqb k key then (k, (v ++ [value])%list) :: d'
      else (k, v) :: append d' key value
  end.

(** [{key: [] for key in keys}]. *)
Definition init (keys : list string) : dict := fold_left set_empty keys [].

(** The inner loop, over [zip(keys, row)]. *)
Definition add_row (keys : list string) (d : dict) (row : list string) : dict :=
  fold_left
    (fun d kv =>
       if PyStr.truthy (snd kv) then append d (fst kv) (snd kv) else d)
    (combine keys row) d.

(** [cat2subcat] as [main] builds it from the range [Categories!C:Z]. *)
Definition cat2subcat (categories_sheet : rows_t) : res dict :=
  keys <- index categories_sheet 0 ;;
  Ok (fold_left (add_row keys) (tl categories_sheet) (init keys)).

End Categories.

(* ------------------------------------------------------------------ *)
(** ** Predicates used in the further statements *)

(** A day of a month, the 29th of February included. *)
Definition valid_birthday (day month : Z) : Prop :=
  (1 <= month <= 12)%Z
  /\ (1 <= day <= nth (Z.to_nat (month - 1)) FetchHoroscope.days_in_month 0)%Z.

(** The 366 birthdays, from the first of January on. *)
Definition all_birthdays : list (Z * Z) :=
  flat_map
    (fun month =>
       map (fun day => (Z.of_nat day, Z.of_nat month))
         (seq 1 (Z.to_nat (nth (month - 1) FetchHoroscope.days_in_month 0%Z))))
    (seq 1 12).

(** The day after, the year being a circle. *)
Definition next_day (dm : Z * Z) : Z * Z :=
  let '(day, month) := dm in
  if (day <? nth (Z.to_nat (month - 1)) FetchHoroscope.days_in_month 0)%Z
  then ((day + 1)%Z, month)
  else (1%Z, if (month =? 12)%Z then 1%Z else (month + 1)%Z).

(** The signs in the order of the year. *)
Definition next_sign (sign : FetchHoroscope.ZodiacSign)
    : FetchHoroscope.ZodiacSign :=
  match sign with
  | FetchHoroscope.CAPRICORN => FetchHoroscope.AQUARIUS
  | FetchHoroscope.AQUARIUS => FetchHoroscope.PISCES
  | FetchHoroscope.PISCES => FetchHoroscope.ARIES
  | FetchHoroscope.ARIES => FetchHoroscope.TAURUS
  | FetchHoroscope.TAURUS => FetchHoroscope.GEMINI
  | FetchHoroscope.GEMINI => FetchHoroscope.CANCER
  | FetchHoroscope.CANCER => FetchHoroscope.LEO
  | FetchHoroscope.LEO => FetchHoroscope.VIRGO
  | FetchHoroscope.VIRGO => FetchHoroscope.LIBRA
  | FetchHoroscope.LIBRA => FetchHoroscope.SCORPIO
  | FetchHoroscope.SCORPIO => FetchHoroscope.SAGITTARIUS
  | FetchHoroscope.SAGITTARIUS => FetchHoroscope.CAPRICORN
  end.

Definition ZodiacSign_eqb (a b : FetchHoroscope.ZodiacSign) : bool :=
  String.eqb (FetchHoroscope.value a) (FetchHoroscope.value b).

(** The sign of [dm] and of the day after are the same, or the second
    is the next sign. *)
Definition sign_steps (dm : Z * Z) : bool :=
  match FetchHoroscope._birthday_to_zodiac_sign (fst dm) (snd dm),
        FetchHoroscope._birthday_to_zodiac_sign (fst (next_day dm))
          (snd (next_day dm)) with
  | Ok s, Ok s' => ZodiacSign_eqb s' s || ZodiacSign_eqb s' (next_sign s)
  | _, _ => false
  end.

(** The sign changes on the day after [dm]. *)
Definition sign_changes (dm : Z * Z) : bool :=
  match FetchHoroscope._birthday_to_zodiac_sign (fst dm) (snd dm),
        FetchHoroscope._birthday_to_zodiac_sign (fst (next_day dm))
          (snd (next_day dm)) with
  | Ok s, Ok s' => negb (ZodiacSign_eqb s' s)
  | _, _ => false
  end.

(** [value] is stored under [key]. *)
Definition listed (d : Categories.dict) (key value : string) : Prop :=
  exists l, In (key, l) d /\ In value l.

(** The texts of a list, each kept where it comes first. *)
Definition first_occurrences (keys : list string) : list string :=
  fold_left
    (fun acc k => if existsb (String.eqb k) acc then acc else (acc ++ [k])%list)
    keys [].

(** The category sheet behind [Sample.cat2subcat], with a repeated
    header and an empty cell. *)
Definition sample_categories_sheet : rows_t :=
  [["Home"; "Fun"; "Home"]; ["Rent"; "Trips"; "Power"]; [""; "Cinema"]].

(** No letter of [s] is an upper-case one. *)
Definition no_upper (s : string) : bool :=
  forallb (fun c => negb (PyStr.is_upper c)) (list_ascii_of_string s).

Definition all_signs : list FetchHoroscope.ZodiacSign :=
  [FetchHoroscope.ARIES; FetchHoroscope.TAURUS; FetchHoroscope.GEMINI;
   FetchHoroscope.CANCER; FetchHoroscope.LEO; FetchHoroscope.VIRGO;
   FetchHoroscope.LIBRA; FetchHoroscope.SCORPIO; FetchHoroscope.SAGITTARIUS;
   FetchHoroscope.CAPRICORN; FetchHoroscope.AQUARIUS; FetchHoroscope.PISCES].

(** The texts of a page are ASCII. *)
Definition ascii_child (c : FetchHoroscope.child) : bool :=
  match c with
  | FetchHoroscope.NavigableString text => PyStr.isascii text
  | FetchHoroscope.Tag stripped_text => PyStr.isascii stripped_text
  end.

Definition ascii_soup (page : FetchHoroscope.soup) : bool :=
  match FetchHoroscope.content_div page with
  | Some paragraphs => forallb (forallb ascii_child) paragraphs
  | None => true
  end.

(** A page with a menu, an empty paragraph and the horoscope. *)
Definition sample_page : FetchHoroscope.soup :=
  FetchHoroscope.mk_soup
    (Some [[FetchHoroscope.Tag "Daily"];
           [FetchHoroscope.NavigableString "  "];
           [FetchHoroscope.NavigableString " ";
            FetchHoroscope.Tag "Dear Leo, Astroyogi astrologers say go. be kind";
            FetchHoroscope.NavigableString "more"]]).

(* ------------------------------------------------------------------ *)
(** ** debug_server.py: the listener of [debug_mode] *)

Module DebugServer.

(** What [input_thread] does to the state it shares with the watch
    loop: [restart_flag.set()], with the value [port] has at that
    moment, and [quit_flag.set()].  The thread is the only writer of
    [port] and of [quit_flag]. *)
Inductive event : Type :=
  | Restart (port : Z)
  | Quit.

Section Listener.
(** [int(s)] on a [str], as in [FetchHoroscope]. *)
Variable py_int : string -> option Z.

(** The answer to the port prompt. *)
Definition new_port (port : Z) (answer : string) : Z :=
  let new_port_input := PyStr.strip answer in
  if PyStr.truthy new_port_input then
    match py_int new_port_input with
    | Some new_port =>
        if ((1024 <=? new_port) && (new_port <=? 65535))%Z then new_port
        else port
    | None => port
    end
  else port.

(** [input_thread] on the lines that [input()] returns before it
    raises [EOFError].  Whatever [input()] raises ends the thread
    without a further write: the [try] around the port prompt catches
    [ValueError] alone.  The result is the last value of [port] and
    the writes in their order; what is printed is left out. *)
Fixpoint input_thread (port : Z) (lines : list string) : Z * list event :=
  match lines with
  | [] => (port, [])
  | user_input :: rest =>
      let cmd := PyStr.lower (PyStr.strip user_input) in
      if String.eqb cmd "q" then (port, [Quit])
      else if String.eqb cmd "r" then
        match rest with
        | [] => (port, [])
        | answer :: rest' =>
            let port' := new_port port answer in
            let '(last, events) := input_thread port' rest' in
            (last, Restart port' :: events)
        end
      else input_thread port rest
  end.

End Listener.

End DebugServer.

(** The ports the listener accepts. *)
Definition port_in_range (port : Z) : Prop := (1024 <= port <= 65535)%Z.

(** The ports of the restarts among some events. *)
Definition restart_ports (events : list DebugServer.event) : list Z :=
  flat_map
    (fun e => match e with DebugServer.Restart p => [p] | DebugServer.Quit => [] end)
    events.

Definition is_quit (e : DebugServer.event) : bool :=
  match e with DebugServer.Quit => true | DebugServer.Restart _ => false end.

(** What holds of a run of the listener, whatever the port it starts
    with. *)
Definition listener_run (py_int : string -> option Z) (port : Z)
    (lines : list string) : Prop :=
  let r := DebugServer.input_thread py_int port lines in
  fst r = last (restart_ports (snd r)) port
  /\ (forall p, In p (restart_ports (snd r)) -> p = port \/ port_in_range p)
  /\ (forall pre e post,
        snd r = (pre ++ e :: post)%list -> is_quit e = true -> post = [])
  /\ (In DebugServer.Quit (snd r) ->
      forall more,
        DebugServer.input_thread py_int port (lines ++ more)%list = r).

(** The sign of a float that is a number: [math.copysign(1, x) < 0]. *)
Definition sign_bit (x : F64.float) : bool :=
  match x with
  | S754_zero s | S754_infinity s | S754_finite s _ _ => s
  | S754_nan => false
  end.

(* ------------------------------------------------------------------ *)
(** ** primitives.py: what [to_email_html] computes around the overflow
    block *)

Module Render.

(** [sorted(l, key=..., reverse=True)] is stable too: it gives the
    arrangement that is descending in the key and keeps items of equal
    key in their input order.  The keys here are floats compared by
    [<]; on keys without a NaN that arrangement is unique, and stable
    insertion computes it. *)
Section Sorted.
Context {A : Type}.
Variable key : A -> F64.float.

Fixpoint insert (x : A) (l : list A) : list A :=
  match l with
  | [] => [x]
  | y :: l' =>
      if F64.ltb (key x) (key y) then y :: insert x l' else x :: l
  end.

Definition sorted_reverse (l : list A) : list A := fold_right insert [] l.
End Sorted.

(** [max((self.end_date - today).days, 0) + 1], with [today] the value
    of [date.today()]. *)
Definition days_left (self : Summary.t) (today : date) : Z :=
  Z.max (Zpos (Summary.end_date self) - Zpos today) 0 + 1.

Definition spendable_overviews_sorted (self : Summary.t)
    : list SpendableOverview.t :=
  sorted_reverse SpendableOverview.left_today (Summary.spendable_overviews self).

End Render.

(** [a] may stand before [b] in a list that is descending in
    [left_today]. *)
Definition not_less (a b : SpendableOverview.t) : Prop :=
  F64.ltb (SpendableOverview.left_today a) (SpendableOverview.left_today b)
  = false.

Definition left_today_is (k : F64.float) (o : SpendableOverview.t) : bool :=
  F64.eqb (SpendableOverview.left_today o) k.

Definition sample_spendable_rows : rows_t :=
  [["Food"; "$10"; "$1"; "$3.00"]; ["Fun"; "$5"; "$1"; "$7"];
   ["Gas"; "$5"; "$1"; "$3"]].

(** [Sample.summary] with other spendable overviews. *)
Definition with_spendable_overviews (self : Summary.t)
    (overviews : list SpendableOverview.t) : Summary.t :=
  Summary.mk (Summary.meta self) (Summary.start_date self)
    (Summary.end_date self) (Summary.period_size self)
    (Summary.spent_categorized self) (Summary.account_balances self)
    (Summary.transfer_overviews self) overviews
    (Summary.payments_overviews self) (Summary.savings_overviews self)
    (Summary.budgets self) (Summary.budget_stats self) (Summary.time self)
    (Summary.horoscope self) (Summary.horoscope_url self)
    (Summary.custom_alert self).

(** A float that is no NaN. *)
Definition number (x : F64.float) : Prop := F64.is_nan x = false.

(** The thirteen amounts of a statistics block. *)
Definition stats_amounts (s : BudgetStats.t) : list F64.float :=
  [BudgetStats.total_budget s; BudgetStats.income_at_period_start s;
   BudgetStats.checking_amount_period_start s;
   BudgetStats.total_withheld_required_payments s;
   BudgetStats.total_withheld_savings s; BudgetStats.balance_after_withheld s;
   BudgetStats.budget_after_withheld s; BudgetStats.allocated_spending_budget s;
   BudgetStats.balance_after_withheld_and_spending s;
   BudgetStats.budget_after_withheld_and_spending s;
   BudgetStats.budget_after_withheld_and_spent s; BudgetStats.checking_floor s;
   BudgetStats.free_to_spend s].

(** An [int] that reads plain digits. *)
Definition digits_int (s : string) : option Z :=
  if all_digits s && PyStr.truthy s then Some (Z.of_N (numeral s 0)) else None.

(* ================================================================== *)
(** * Properties *)

(** ** The error monad *)

Lemma bind_Ok {A B : Type} (m : res A) (k : A -> res B) (b : B) :
  bind m k = Ok b -> exists a, m = Ok a /\ k a = Ok b.
Proof.
  destruct m as [a|e]; simpl; intros Hk.
  - exists a; split; [reflexivity | exact Hk].
  - discriminate Hk.
Qed.

Lemma bind_Err {A B : Type} (m : res A) (k : A -> res B) (e : exn) :
  m = Err e -> bind m k = Err e.
Proof. intros ->; reflexivity. Qed.

(** Splits a hypothesis [x <- m ;; k = Ok b] into its steps. *)
Ltac inv_bind H :=
  let a := fresh "a" in
  let Ha := fresh "Ha" in
  apply bind_Ok in H; destruct H as (a & Ha & H).

Ltac inv_binds H :=
  repeat (match type of H with
          | bind _ _ = Ok _ => inv_bind H
          end).

(** ** binary64: conversion and arithmetic on known values

    The values on the right are those of CPython: [float("0.1")] is
    [0x1.999999999999ap-4], [0.1 + 0.2] is [0x1.3333333333334p-2], a tie
    goes to the even neighbour, a numeral beyond the largest float gives
    [inf] and the smallest numerals give a subnormal or zero. *)

Example of_decimal_tenth :
  F64.of_decimal false 1 1 = S754_finite false 7205759403792794 (-56).
Proof. vm_compute. reflexivity. Qed.

Example add_tenth_fifth :
  F64.add (F64.of_decimal false 1 1) (F64.of_decimal false 2 1) =
  S754_finite false 5404319552844596 (-54).
Proof. vm_compute. reflexivity. Qed.

Example of_decimal_ties_to_even :
  F64.of_decimal false 9007199254740993 0 = F64.of_Z 9007199254740992
  /\ F64.of_decimal false 9007199254740995 0 = F64.of_Z 9007199254740996.
Proof. split; vm_compute; reflexivity. Qed.

Example of_decimal_overflows :
  F64.of_decimal false (10 ^ 309) 0 = S754_infinity false
  /\ F64.of_decimal true (10 ^ 309) 0 = S754_infinity true.
Proof. split; vm_compute; reflexivity. Qed.

Example of_decimal_underflows :
  F64.of_decimal false 5 324 = S754_finite false 1 (-1074)
  /\ F64.of_decimal false 1 400 = S754_zero false.
Proof. split; vm_compute; reflexivity. Qed.

(** ** binary64: signs *)

Section Signs.

(** Rounding keeps the sign it is given. *)
Lemma round_not_negative (m e : Z) (l : location) :
  not_negative (binary_round_aux F64.prec F64.emax false m e l).
Proof.
  unfold not_negative, binary_round_aux.
  destruct (shr_fexp _ _ _ _ _) as [mrs' e'].
  destruct (shr_fexp _ _ _ _ _) as [mrs'' e''].
  destruct (shr_m mrs'') as [|q|q]; try reflexivity.
  destruct (Z.leb _ _); reflexivity.
Qed.

Lemma max_zero_not_negative (x : F64.float) :
  not_negative (F64.max F64.zero x).
Proof.
  unfold F64.max, F64.gtb, not_negative, F64.ltb.
  destruct (SFltb F64.zero x) eqn:Hx; [|reflexivity].
  destruct x as [s|s| |s m e]; simpl in *; try discriminate;
    destruct s; simpl in *; try discriminate; reflexivity.
Qed.

Lemma add_not_negative (x y : F64.float) :
  not_negative x -> not_negative y -> not_negative (F64.add x y).
Proof.
  unfold not_negative, F64.ltb.
  destruct x as [sx|sx| |sx mx ex]; destruct y as [sy|sy| |sy my ey];
    try destruct sx; try destruct sy; simpl;
    try discriminate; try reflexivity; intros _ _.
  unfold F64.add, SFadd, cond_Zopp.
  change (Z.add (Zpos ?p) (Zpos ?q)) with (Zpos (p + q)).
  cbv beta iota.
  set (ez := Z.min ex ey).
  set (m := (fst (shl_align mx ex ez) + fst (shl_align my ey ez))%positive).
  unfold binary_normalize, binary_round.
  destruct (shl_align m ez _) as [mz ez'].
  apply round_not_negative.
Qed.

Lemma div_not_negative (c a : F64.float) :
  not_negative c -> F64.gtb a F64.zero = true -> not_negative (F64.div c a).
Proof.
  unfold not_negative, F64.gtb, F64.ltb.
  destruct c as [sc|sc| |sc mc ec]; destruct a as [sa|sa| |sa ma ea];
    try destruct sc; try destruct sa; simpl;
    try discriminate; try reflexivity; intros _ _.
  unfold F64.div, SFdiv.
  destruct (SFdiv_core_binary _ _ _ _ _ _) as [[mz ez] lz].
  apply round_not_negative.
Qed.

Lemma mul_hundred_not_negative (x : F64.float) :
  not_negative x -> not_negative (F64.mul x Summary.hundred).
Proof.
  unfold not_negative, F64.ltb.
  change Summary.hundred with (S754_finite false 7036874417766400 (-46)).
  destruct x as [s|s| |s m e]; try destruct s; simpl;
    try discriminate; try reflexivity; intros _.
  unfold F64.mul, SFmul.
  apply round_not_negative.
Qed.

(** [max(x, 0)] leaves a value that is not negative as it is. *)
Lemma max_of_not_negative (x : F64.float) :
  not_negative x -> F64.max x F64.zero = x.
Proof.
  unfold not_negative, F64.max, F64.gtb, F64.ltb. intros ->. reflexivity.
Qed.

Lemma max_not_negative (x : F64.float) :
  not_negative (F64.max x F64.zero).
Proof.
  unfold F64.max, F64.gtb, not_negative, F64.ltb.
  destruct (SFltb x F64.zero) eqn:Hx; [reflexivity | exact Hx].
Qed.

End Signs.

(** ** C1: the overflow block of [to_email_html] *)

(** C1.  For every summary, each bucket's overspend is
    [max(0, actual - allowance)] with the allowances
    [total_withheld_required_payments] (Bills), [total_withheld_savings]
    (Savings) and [allocated_spending_budget] (Spending);
    [overflow_consumed] is the sum of the three; [overflow_pct] is
    [overflow_consumed / overflow_available * 100] when
    [overflow_available > 0] and [0] otherwise; it is never negative;
    and it is not clamped from above: the final [max(overflow_pct, 0)]
    never changes the value, and values above 100 do occur. *)
Theorem C1_overflow_computation :
  (forall self : Summary.t,
     let spent := Summary.spent_categorized self in
     let stats := Summary.budget_stats self in
     let o := Summary.to_email_html_overflow self in
     Summary.bills_overspent o =
       F64.max F64.zero
         (F64.sub (Bss.bills spent)
            (BudgetStats.total_withheld_required_payments stats))
     /\ Summary.savings_overspent o =
       F64.max F64.zero
         (F64.sub (Bss.savings spent) (BudgetStats.total_withheld_savings stats))
     /\ Summary.spending_overspent o =
       F64.max F64.zero
         (F64.sub (Bss.spending spent)
            (BudgetStats.allocated_spending_budget stats))
     /\ Summary.overflow_consumed o =
       F64.add (F64.add (Summary.bills_overspent o) (Summary.savings_overspent o))
         (Summary.spending_overspent o)
     /\ Summary.overflow_available o =
       BudgetStats.budget_after_withheld_and_spending stats
     /\ Summary.overflow_pct o =
       (if F64.gtb (Summary.overflow_available o) F64.zero
        then F64.mul
               (F64.div (Summary.overflow_consumed o)
                  (Summary.overflow_available o))
               Summary.hundred
        else F64.zero)
     /\ not_negative (Summary.overflow_pct o))
  /\ Summary.bills_overspent (Summary.to_email_html_overflow Sample.summary) =
     F64.of_Z 100
  /\ Summary.overflow_pct (Summary.to_email_html_overflow Sample.summary) =
     F64.of_Z 250
  /\ F64.gtb
       (Summary.overflow_pct (Summary.to_email_html_overflow Sample.summary))
       Summary.hundred = true.
Proof.
  split; [|repeat split; vm_compute; reflexivity].
  intros self spent stats o.
  repeat (split; [reflexivity|]).
  assert (Hc : not_negative (Summary.overflow_consumed o)).
  { subst o. unfold Summary.to_email_html_overflow; cbn [Summary.overflow_consumed].
    repeat apply add_not_negative; apply max_zero_not_negative. }
  assert (Hpct : Summary.overflow_pct o =
            F64.max (if F64.gtb (Summary.overflow_available o) F64.zero
                     then F64.mul
                            (F64.div (Summary.overflow_consumed o)
                               (Summary.overflow_available o))
                            Summary.hundred
                     else F64.zero) F64.zero) by reflexivity.
  split.
  - rewrite Hpct. apply max_of_not_negative.
    destruct (F64.gtb (Summary.overflow_available o) F64.zero) eqn:Ha.
    + apply mul_hundred_not_negative, div_not_negative; assumption.
    + reflexivity.
  - rewrite Hpct. apply max_not_negative.
Qed.

(** ** C2: [parse_money] *)

Section ParseMoney.

Lemma digit_not_eqb (c c' : ascii) :
  PyStr.is_digit c = true -> PyStr.is_digit c' = false -> Ascii.eqb c c' = false.
Proof.
  intros Hc Hc'. destruct (Ascii.eqb c c') eqn:E; [|reflexivity].
  apply Ascii.eqb_eq in E. congruence.
Qed.

(** A character that is not a digit occurs as often in what
    [take_digits] leaves as in what it was given. *)
Lemma take_digits_count (c : ascii) (s : string) :
  forall acc n a k rest,
    Helpers.take_digits s acc n = (a, k, rest) ->
    PyStr.is_digit c = false ->
    count_char c rest = count_char c s.
Proof.
  induction s as [|c' s IH]; simpl; intros acc n a k rest H Hc.
  - inversion H; reflexivity.
  - destruct (PyStr.is_digit c') eqn:Hd.
    + rewrite (digit_not_eqb _ _ Hd Hc). simpl. eapply IH; eassumption.
    + inversion H; subst. reflexivity.
Qed.

(** What [take_digits] reads is a run of digits, and it stops at the
    end or at a character that is not a digit. *)
Lemma take_digits_split (s : string) :
  forall acc n a k rest,
    Helpers.take_digits s acc n = (a, k, rest) ->
    exists ds,
      s = ds ++ rest /\ all_digits ds = true /\
      a = numeral ds acc /\ k = n + String.length ds /\
      match rest with
      | EmptyString => True
      | String c _ => PyStr.is_digit c = false
      end.
Proof.
  induction s as [|c s IH]; simpl; intros acc n a k rest H.
  - inversion H; subst. exists "". simpl. repeat split; auto.
  - destruct (PyStr.is_digit c) eqn:Hd.
    + apply IH in H. destruct H as (ds & -> & Hds & -> & -> & Hrest).
      exists (String c ds). simpl. rewrite Hd, Hds.
      repeat split; auto; lia.
    + inversion H; subst. exists "". simpl. rewrite Hd.
      repeat split; auto.
Qed.

Lemma take_digits_numeral (ds rest : string) :
  all_digits ds = true ->
  match rest with
  | EmptyString => True
  | String c _ => PyStr.is_digit c = false
  end ->
  forall acc n,
    Helpers.take_digits (ds ++ rest) acc n =
    (numeral ds acc, n + String.length ds, rest).
Proof.
  intros Hds Hrest.
  induction ds as [|c ds IH]; simpl in *; intros acc n.
  - rewrite Nat.add_0_r. destruct rest as [|c t]; simpl; [reflexivity|].
    rewrite Hrest. reflexivity.
  - apply andb_true_iff in Hds. destruct Hds as [Hc Hds].
    rewrite Hc, (IH Hds). f_equal. f_equal. lia.
Qed.

Lemma count_char_pos (c : ascii) (s : string) :
  1 <= count_char c s -> exists c' t, s = String c' t.
Proof.
  destruct s as [|c' t]; simpl; intros H; [lia | eauto].
Qed.

Lemma append_empty_r (s : string) : s ++ "" = s.
Proof. induction s; simpl; congruence. Qed.

Lemma numeral_app (a b : string) (acc : N) :
  numeral (a ++ b) acc = numeral b (numeral a acc).
Proof.
  revert acc. induction a as [|c a IH]; simpl; intros acc; [reflexivity|].
  apply IH.
Qed.

Lemma float_of_body_Err (neg : bool) (body : string) (e : exn) :
  Helpers.float_of_body neg body = Err e -> e = ValueError.
Proof.
  unfold Helpers.float_of_body.
  destruct (Helpers.take_digits body 0 0) as [[ip ni] rest].
  destruct rest as [|c t].
  - destruct (ni =? 0)%nat; congruence.
  - destruct (Ascii.eqb c "."); [|congruence].
    destruct (Helpers.take_digits t ip 0) as [[m nf] rest'].
    destruct rest'; [|congruence].
    destruct (ni + nf =? 0)%nat; congruence.
Qed.

(** A [-] after the sign position is never accepted. *)
Lemma float_of_body_dash (neg : bool) (body : string) :
  1 <= count_char "-" body ->
  Helpers.float_of_body neg body = Err ValueError.
Proof.
  intros H. unfold Helpers.float_of_body.
  destruct (Helpers.take_digits body 0 0) as [[ip ni] rest] eqn:E.
  rewrite <- (take_digits_count "-" _ _ _ _ _ _ E eq_refl) in H.
  destruct (count_char_pos _ _ H) as (c & t & ->).
  destruct (Ascii.eqb c ".") eqn:Ec; [|reflexivity].
  apply Ascii.eqb_eq in Ec; subst c. simpl in H.
  destruct (Helpers.take_digits t ip 0) as [[m nf] rest'] eqn:E'.
  rewrite <- (take_digits_count "-" _ _ _ _ _ _ E' eq_refl) in H.
  destruct (count_char_pos _ _ H) as (c' & t' & ->). reflexivity.
Qed.

(** Neither is a second point. *)
Lemma float_of_body_dots (neg : bool) (body : string) :
  2 <= count_char "." body ->
  Helpers.float_of_body neg body = Err ValueError.
Proof.
  intros H. unfold Helpers.float_of_body.
  destruct (Helpers.take_digits body 0 0) as [[ip ni] rest] eqn:E.
  rewrite <- (take_digits_count "." _ _ _ _ _ _ E eq_refl) in H.
  destruct rest as [|c t]; simpl in H; [lia|].
  destruct (Ascii.eqb c ".") eqn:Ec; [|reflexivity].
  destruct (Helpers.take_digits t ip 0) as [[m nf] rest'] eqn:E'.
  rewrite <- (take_digits_count "." _ _ _ _ _ _ E' eq_refl) in H.
  assert (H' : 1 <= count_char "." rest') by lia.
  destruct (count_char_pos _ _ H') as (c' & t' & ->). reflexivity.
Qed.

(** The numerals [float_of_body] accepts, and their values. *)
Lemma float_of_body_integer (neg : bool) (ip : string) :
  all_digits ip = true -> ip <> "" ->
  Helpers.float_of_body neg ip = Ok (F64.of_decimal neg (numeral ip 0) 0).
Proof.
  intros Hip Hne. unfold Helpers.float_of_body.
  rewrite <- (append_empty_r ip) at 1.
  rewrite (take_digits_numeral ip "" Hip I).
  destruct ip as [|c t]; [congruence|]. reflexivity.
Qed.

Lemma float_of_body_point (neg : bool) (ip fp : string) :
  all_digits ip = true -> all_digits fp = true ->
  ip <> "" \/ fp <> "" ->
  Helpers.float_of_body neg (ip ++ "." ++ fp) =
  Ok (F64.of_decimal neg (numeral (ip ++ fp) 0) (String.length fp)).
Proof.
  intros Hip Hfp Hne. unfold Helpers.float_of_body.
  rewrite (take_digits_numeral ip ("." ++ fp) Hip eq_refl).
  cbn [append Ascii.eqb Bool.eqb].
  rewrite <- (append_empty_r fp) at 1.
  rewrite (take_digits_numeral fp "" Hfp I).
  rewrite numeral_app. simpl.
  destruct ip as [|c t]; simpl.
  - destruct fp as [|c' t']; simpl; [|reflexivity].
    destruct Hne; congruence.
  - reflexivity.
Qed.

(** Conversely, whatever [float_of_body] accepts is such a numeral. *)
Lemma float_of_body_Ok (neg : bool) (body : string) (x : F64.float) :
  Helpers.float_of_body neg body = Ok x ->
  exists ip fp,
    all_digits ip = true /\ all_digits fp = true /\
    ((body = ip /\ fp = "" /\ ip <> "") \/
     (body = ip ++ "." ++ fp /\ (ip <> "" \/ fp <> ""))) /\
    x = F64.of_decimal neg (numeral (ip ++ fp) 0) (String.length fp).
Proof.
  unfold Helpers.float_of_body.
  destruct (Helpers.take_digits body 0 0) as [[a ni] rest] eqn:E.
  apply take_digits_split in E.
  destruct E as (ip & -> & Hip & -> & -> & Hrest).
  destruct rest as [|c t].
  - destruct (0 + String.length ip =? 0)%nat eqn:En; [discriminate|].
    intros [= <-]. exists ip, "". rewrite !append_empty_r.
    repeat split; auto.
    left. repeat split; auto. intros ->. discriminate.
  - destruct (Ascii.eqb c ".") eqn:Ec; [|discriminate].
    apply Ascii.eqb_eq in Ec; subst c.
    destruct (Helpers.take_digits t (numeral ip 0) 0) as [[m nf] rest'] eqn:E'.
    apply take_digits_split in E'.
    destruct E' as (fp & -> & Hfp & -> & -> & _).
    destruct rest' as [|c' t']; [|discriminate].
    destruct (0 + String.length ip + (0 + String.length fp) =? 0)%nat eqn:En;
      [discriminate|].
    intros [= <-]. exists ip, fp. rewrite append_empty_r, numeral_app.
    repeat split; auto.
    right. split; [reflexivity|].
    destruct ip; [|left; discriminate].
    destruct fp; [discriminate | right; discriminate].
Qed.

Lemma float_of_residue_signed (neg : bool) (body : string) :
  match body with
  | EmptyString => True
  | String c _ => Ascii.eqb c "-" = false
  end ->
  Helpers.float_of_residue (sign_text neg ++ body) =
  Helpers.float_of_body neg body.
Proof.
  intros Hb. destruct neg; simpl; [reflexivity|].
  destruct body as [|c t]; simpl; [reflexivity|].
  rewrite Hb. reflexivity.
Qed.

Lemma float_of_residue_inv (s : string) (x : F64.float) :
  Helpers.float_of_residue s = Ok x ->
  exists neg body,
    s = sign_text neg ++ body /\ Helpers.float_of_body neg body = Ok x.
Proof.
  destruct s as [|c t]; simpl.
  - intros H. exists false, "". split; [reflexivity | exact H].
  - destruct (Ascii.eqb c "-") eqn:Ec; intros H.
    + apply Ascii.eqb_eq in Ec; subst c.
      exists true, t. split; [reflexivity | exact H].
    + exists false, (String c t). split; [reflexivity | exact H].
Qed.

Lemma parse_money_nonempty (v : string) :
  v <> "" ->
  Helpers.parse_money (Some v) = Helpers.float_of_residue (Helpers.residue v).
Proof.
  destruct v as [|c t]; [congruence | reflexivity].
Qed.

Lemma residue_filter (v : string) :
  list_ascii_of_string (Helpers.residue v) =
  filter Helpers.keeps (list_ascii_of_string v).
Proof.
  induction v as [|c v IH]; simpl; [reflexivity|].
  unfold Helpers.residue in *. simpl.
  destruct (Helpers.keeps c); simpl; congruence.
Qed.

Lemma keeps_spec (c : ascii) :
  Helpers.keeps c = true <->
  PyStr.is_digit c = true \/ c = "."%char \/ c = "-"%char.
Proof.
  unfold Helpers.keeps. rewrite !orb_true_iff, !Ascii.eqb_eq. tauto.
Qed.

End ParseMoney.

(** C2.  On an ASCII text [parse_money] keeps the digits, the points
    and the dashes of its input and reads what is left as a number: the
    accepted texts are exactly an optional [-] followed by digits, or by
    digits and a point and digits (one of the two runs may be empty),
    and the result is the float nearest to that decimal.  An empty or
    missing input gives exactly [0] and no error.  On a non-empty input
    any other residue raises [ValueError], in particular one with two
    points or two dashes.  [parse_money("") == 0],
    [parse_money("$1,234.56") == 1234.56] and
    [parse_money("-$45.00") == -45.00]. *)
Theorem C2_parse_money :
  Helpers.parse_money None = Ok F64.zero
  /\ Helpers.parse_money (Some "") = Ok F64.zero
  /\ (forall v, PyStr.isascii v = true -> v <> "" ->
        Helpers.parse_money (Some v) =
        Helpers.float_of_residue (Helpers.residue v))
  /\ (forall v, PyStr.isascii v = true ->
        list_ascii_of_string (Helpers.residue v) =
        filter Helpers.keeps (list_ascii_of_string v))
  /\ (forall c, (PyStr.code c < 128)%nat ->
        (Helpers.keeps c = true <->
         (48 <= PyStr.code c <= 57)%nat \/ c = "."%char \/ c = "-"%char))
  /\ (forall neg ip,
        all_digits ip = true -> ip <> "" ->
        Helpers.float_of_residue (sign_text neg ++ ip) =
        Ok (F64.of_decimal neg (numeral ip 0) 0))
  /\ (forall neg ip fp,
        all_digits ip = true -> all_digits fp = true ->
        ip <> "" \/ fp <> "" ->
        Helpers.float_of_residue (sign_text neg ++ ip ++ "." ++ fp) =
        Ok (F64.of_decimal neg (numeral (ip ++ fp) 0) (String.length fp)))
  /\ (forall v x,
        PyStr.isascii v = true -> v <> "" ->
        Helpers.parse_money (Some v) = Ok x ->
        exists neg ip fp,
          all_digits ip = true /\ all_digits fp = true /\
          ((Helpers.residue v = sign_text neg ++ ip /\ fp = "" /\ ip <> "") \/
           (Helpers.residue v = sign_text neg ++ ip ++ "." ++ fp
            /\ (ip <> "" \/ fp <> ""))) /\
          x = F64.of_decimal neg (numeral (ip ++ fp) 0) (String.length fp))
  /\ (forall v e,
        Helpers.parse_money (Some v) = Err e -> v <> "" /\ e = ValueError)
  /\ (forall v, v <> "" ->
        2 <= count_char "." (Helpers.residue v) ->
        Helpers.parse_money (Some v) = Err ValueError)
  /\ (forall v, v <> "" ->
        2 <= count_char "-" (Helpers.residue v) ->
        Helpers.parse_money (Some v) = Err ValueError)
  /\ Helpers.parse_money (Some "$1,234.56") = Ok (F64.of_decimal false 123456 2)
  /\ F64.of_decimal false 123456 2 = S754_finite false 5429652300748554 (-42)
  /\ Helpers.parse_money (Some "-$45.00") = Ok (F64.of_decimal true 4500 2)
  /\ F64.of_decimal true 4500 2 = F64.of_Z (-45).
Proof.
  split; [reflexivity|]. split; [reflexivity|].
  split; [intros v _; exact (parse_money_nonempty v)|].
  split; [intros v _; exact (residue_filter v)|].
  split.
  { intros c _. rewrite keeps_spec. unfold PyStr.is_digit.
    rewrite andb_true_iff, !Nat.leb_le. tauto. }
  split.
  { intros neg ip Hip Hne. rewrite float_of_residue_signed.
    - apply float_of_body_integer; assumption.
    - destruct ip as [|c t]; [exact I|]. simpl in Hip.
      apply andb_true_iff in Hip. apply digit_not_eqb; [tauto | reflexivity]. }
  split.
  { intros neg ip fp Hip Hfp Hne. rewrite float_of_residue_signed.
    - apply float_of_body_point; assumption.
    - destruct ip as [|c t]; [reflexivity|]. simpl in Hip.
      apply andb_true_iff in Hip.
      simpl. apply digit_not_eqb; [tauto | reflexivity]. }
  split.
  { intros v x _ Hv H. rewrite parse_money_nonempty in H by exact Hv.
    apply float_of_residue_inv in H.
    destruct H as (neg & body & Hres & H).
    apply float_of_body_Ok in H.
    destruct H as (ip & fp & Hip & Hfp & Hshape & ->).
    exists neg, ip, fp. rewrite Hres. repeat split; auto.
    destruct Hshape as [(-> & -> & Hne) | (-> & Hne)]; [left | right]; auto. }
  split.
  { intros v e H. destruct v as [|c t]; [discriminate|].
    split; [discriminate|].
    rewrite parse_money_nonempty in H by discriminate.
    destruct (Helpers.residue (String c t)) as [|c' t'] eqn:Er; simpl in H.
    - eapply float_of_body_Err; eassumption.
    - destruct (Ascii.eqb c' "-"); eapply float_of_body_Err; eassumption. }
  split.
  { intros v Hv H. rewrite parse_money_nonempty by assumption.
    destruct (Helpers.residue v) as [|c t]; simpl in *; [lia|].
    destruct (Ascii.eqb c "-") eqn:Ec.
    - apply Ascii.eqb_eq in Ec; subst c. simpl in H.
      apply float_of_body_dots; assumption.
    - apply float_of_body_dots; assumption. }
  split.
  { intros v Hv H. rewrite parse_money_nonempty by assumption.
    destruct (Helpers.residue v) as [|c t]; simpl in *; [lia|].
    destruct (Ascii.eqb c "-") eqn:Ec.
    - apply float_of_body_dash; lia.
    - apply float_of_body_dash; simpl.
      destruct (Ascii.eqb c "-"); [discriminate | lia]. }
  repeat split; vm_compute; reflexivity.
Qed.

(** C2 at concrete inputs: a text with two points, a text with two
    dashes, the numerals [-12.50] and [7], a text with letters and a
    text without a digit. *)
Lemma C2_parse_money_witness :
  Helpers.parse_money (Some "$1.2.3") = Err ValueError
  /\ Helpers.parse_money (Some "--5") = Err ValueError
  /\ Helpers.float_of_residue "-12.50" = Ok (F64.of_decimal true 1250 2)
  /\ Helpers.float_of_residue "7" = Ok (F64.of_decimal false 7 0)
  /\ Helpers.parse_money (Some "USD 7") =
     Helpers.float_of_residue (Helpers.residue "USD 7")
  /\ (exists neg ip fp,
        all_digits ip = true /\ all_digits fp = true /\
        ((Helpers.residue "USD 7" = sign_text neg ++ ip /\ fp = "" /\ ip <> "")
         \/ (Helpers.residue "USD 7" = sign_text neg ++ ip ++ "." ++ fp
             /\ (ip <> "" \/ fp <> ""))) /\
        F64.of_Z 7 =
        F64.of_decimal neg (numeral (ip ++ fp) 0) (String.length fp))
  /\ ("n/a" <> "" /\ ValueError = ValueError).
Proof.
  destruct C2_parse_money
    as (_ & _ & Hres & _ & _ & Hint & Hpoint & Hinv & Herr & Hdots & Hdash & _).
  split; [apply Hdots; [discriminate | vm_compute; lia]|].
  split; [apply Hdash; [discriminate | vm_compute; lia]|].
  split; [|split; [|split; [|split]]].
  - apply (Hpoint true "12" "50"); [reflexivity | reflexivity | left; discriminate].
  - apply (Hint false "7"); [reflexivity | discriminate].
  - apply (Hres "USD 7"); [reflexivity | discriminate].
  - apply (Hinv "USD 7" (F64.of_Z 7)); [reflexivity | discriminate | reflexivity].
  - apply (Herr "n/a" ValueError). vm_compute. reflexivity.
Defined.

(** ** C3, C10: the categorized-spend loop *)

Section BssLoop.

Lemma skipn_nth_error {A : Type} (l : list A) :
  forall i x, nth_error l i = Some x -> skipn i l = x :: skipn (S i) l.
Proof.
  induction l as [|y l IH]; intros [|i] x H; simpl in *; try discriminate.
  - congruence.
  - apply IH. exact H.
Qed.

Lemma skipn_past {A : Type} (l : list A) :
  forall i, length l <= i -> skipn i l = [].
Proof.
  induction l as [|y l IH]; intros [|i] H; simpl in *; try reflexivity.
  - lia.
  - apply IH. lia.
Qed.

Lemma index_skipn {A : Type} (l : list A) (i : nat) :
  i < length l ->
  exists x, index l i = Ok x /\ skipn i l = x :: skipn (S i) l.
Proof.
  intros Hi. unfold index.
  destruct (nth_error l i) as [x|] eqn:E.
  - exists x. split; [reflexivity | apply skipn_nth_error; exact E].
  - apply nth_error_None in E. lia.
Qed.

(** The loop, started at [i] with enough fuel, ends, and gives what
    [pairs] reads off the rows from [i] on. *)
Lemma from_rows_loop_pairs (rows : rows_t) :
  forall fuel i result,
    length rows - i < fuel ->
    BssSpent.from_rows_loop fuel rows i result =
    Some (prepend result (BssSpent.pairs (skipn i rows))).
Proof.
  induction fuel as [|fuel IH]; intros i result Hfuel; [lia|].
  cbn [BssSpent.from_rows_loop].
  destruct (i <? length rows)%nat eqn:Hi.
  - apply Nat.ltb_lt in Hi.
    destruct (index_skipn rows i Hi) as (row & -> & ->).
    cbn [BssSpent.pairs].
    destruct (BssSpent.blank row) eqn:Hb.
    + rewrite IH by lia. replace (i + 1) with (S i) by lia. reflexivity.
    + destruct row as [|c cells]; [discriminate Hb|].
      cbn [index nth_error bind].
      destruct (i + 1 <? length rows)%nat eqn:Hi1.
      * apply Nat.ltb_lt in Hi1.
        replace (i + 1) with (S i) in * by lia.
        destruct (index_skipn rows (S i) Hi1) as (arow & Ha & ->).
        unfold cell0. rewrite Ha. cbn [bind].
        destruct (index arow 0) as [c1|e]; cbn [bind prepend]; [|reflexivity].
        destruct (Helpers.parse_money (Some c1)) as [amount|e];
          cbn [bind prepend]; [|reflexivity].
        rewrite IH by lia. replace (i + 2) with (S (S i)) by lia.
        destruct (BssSpent.pairs (skipn (S (S i)) rows)) as [tl|e];
          cbn [bind prepend]; [|reflexivity].
        rewrite <- app_assoc. reflexivity.
      * apply Nat.ltb_ge in Hi1.
        rewrite (skipn_past rows (S i)) by lia.
        cbn [bind prepend].
        rewrite IH by lia. rewrite (skipn_past rows (i + 2)) by lia.
        cbn [BssSpent.pairs prepend]. rewrite app_nil_r. reflexivity.
  - apply Nat.ltb_ge in Hi. rewrite skipn_past by lia.
    cbn [BssSpent.pairs prepend]. rewrite app_nil_r. reflexivity.
Qed.

Lemma from_rows_pairs (rows : rows_t) :
  BssSpent.from_rows rows = Some (BssSpent.pairs rows).
Proof.
  unfold BssSpent.from_rows. rewrite from_rows_loop_pairs by lia.
  cbn [skipn]. destruct (BssSpent.pairs rows); reflexivity.
Qed.

(** At a label position a label without an amount row closes the
    list with an entity of amount [0.0]. *)
Lemma pairs_trailing_label (label : string) (cells : list string) :
  BssSpent.blank (label :: cells) = false ->
  forall rows,
    (at_label rows = true ->
     BssSpent.pairs (rows ++ [label :: cells])%list =
     (out <- BssSpent.pairs rows ;;
      Ok (out ++ [BssSpent.mk
                    (BssSpent.classify (PyStr.lower (PyStr.strip label)))
                    F64.zero])%list))
    /\ (forall row,
          at_label (row :: rows) = true ->
          BssSpent.pairs ((row :: rows) ++ [label :: cells])%list =
          (out <- BssSpent.pairs (row :: rows) ;;
           Ok (out ++ [BssSpent.mk
                         (BssSpent.classify (PyStr.lower (PyStr.strip label)))
                         F64.zero])%list)).
Proof.
  intros Hlabel.
  induction rows as [|r rows [IH IH']].
  - split.
    + intros _. cbn [app BssSpent.pairs]. rewrite Hlabel. reflexivity.
    + intros row H. cbn [at_label] in H.
      destruct (BssSpent.blank row) eqn:Hb; [|discriminate H].
      cbn [app BssSpent.pairs]. rewrite Hb, Hlabel. reflexivity.
  - split; [apply IH'|].
    intros row H. cbn [at_label] in H.
    change ((row :: r :: rows) ++ [label :: cells])%list
      with (row :: r :: (rows ++ [label :: cells]))%list.
    cbn [BssSpent.pairs].
    destruct (BssSpent.blank row) eqn:Hb.
    + change (r :: rows ++ [label :: cells])%list
        with ((r :: rows) ++ [label :: cells])%list.
      apply IH'. exact H.
    + destruct (index row 0) as [c|e]; cbn [bind]; [|reflexivity].
      destruct (index r 0) as [c1|e]; cbn [bind]; [|reflexivity].
      destruct (Helpers.parse_money (Some c1)) as [amount|e]; cbn [bind];
        [|reflexivity].
      rewrite (IH H).
      destruct (BssSpent.pairs rows) as [tl|e]; reflexivity.
Qed.

End BssLoop.

(** A text that [strip] empties holds white space only, of which
    [parse_money] keeps nothing. *)
Lemma rstrip_empty (s : string) :
  PyStr.rstrip s = "" -> Helpers.residue s = "".
Proof.
  induction s as [|c s IH]; [reflexivity|].
  cbn [PyStr.rstrip]. destruct (PyStr.rstrip s) as [|c' t]; [|discriminate].
  destruct (PyStr.is_space c) eqn:Ec; [|discriminate]. intros _.
  unfold Helpers.residue in *. cbn [PyStr.filter]. rewrite (IH eq_refl).
  assert (Hk : Helpers.keeps c = false).
  { revert Ec. destruct c as [[] [] [] [] [] [] [] []]; vm_compute; congruence. }
  rewrite Hk. reflexivity.
Qed.

Lemma strip_empty (s : string) :
  PyStr.strip s = "" -> Helpers.residue s = "".
Proof.
  unfold PyStr.strip. induction s as [|c s IH]; [reflexivity|].
  cbn [PyStr.lstrip]. destruct (PyStr.is_space c) eqn:Ec.
  - intros H. unfold Helpers.residue in *. cbn [PyStr.filter].
    assert (Hk : Helpers.keeps c = false).
    { revert Ec. destruct c as [[] [] [] [] [] [] [] []]; vm_compute; congruence. }
    rewrite Hk. apply IH. exact H.
  - apply rstrip_empty.
Qed.

(** C3 (as the code has it).  The loop always ends.  Where it expects
    a label, a blank row (no cell, or a first cell empty up to white
    space) is passed over, advancing one row.  Any other row is a label,
    classified by the substrings of its stripped, lower-cased first
    cell: ["bill"] gives Bills, else ["sav"] gives Savings, else
    Spending; and the row after a label is always read as its amount,
    whatever it holds: its first cell goes to [parse_money], so that an
    empty first cell gives the amount [0], a first cell of white space
    only raises [ValueError] and a row without a cell raises
    [IndexError].  The texts are ASCII.  The rows of the scenario give
    [bills() == 500], [savings() == 200], [spending() == 150] and
    [total() == 850]. *)
Theorem C3_categorized_spend_pairs :
  (forall rows, exists r, BssSpent.from_rows rows = Some r)
  /\ BssSpent.from_rows [] = Some (Ok [])
  /\ (forall row,
        ascii_row row = true ->
        (BssSpent.blank row = true <->
         row = [] \/ exists c cells, row = c :: cells /\ PyStr.strip c = ""))
  /\ (forall row rest,
        ascii_row row = true ->
        BssSpent.blank row = true ->
        BssSpent.from_rows (row :: rest) = BssSpent.from_rows rest)
  /\ (forall label cells amount_cell cells' rest r,
        PyStr.isascii label = true ->
        BssSpent.blank (label :: cells) = false ->
        BssSpent.from_rows rest = Some r ->
        BssSpent.from_rows
          ((label :: cells) :: (amount_cell :: cells') :: rest) =
        Some (amount <- Helpers.parse_money (Some amount_cell) ;;
              tl <- r ;;
              Ok (BssSpent.mk
                    (BssSpent.classify (PyStr.lower (PyStr.strip label)))
                    amount :: tl)))
  /\ (forall label cells cells' rest r,
        PyStr.isascii label = true ->
        BssSpent.blank (label :: cells) = false ->
        BssSpent.from_rows rest = Some r ->
        BssSpent.from_rows ((label :: cells) :: ("" :: cells') :: rest) =
        Some (tl <- r ;;
              Ok (BssSpent.mk
                    (BssSpent.classify (PyStr.lower (PyStr.strip label)))
                    F64.zero :: tl)))
  /\ (forall label cells amount_cell cells' rest,
        PyStr.isascii label = true ->
        BssSpent.blank (label :: cells) = false ->
        PyStr.isascii amount_cell = true ->
        amount_cell <> "" -> PyStr.strip amount_cell = "" ->
        BssSpent.from_rows
          ((label :: cells) :: (amount_cell :: cells') :: rest) =
        Some (Err ValueError))
  /\ (forall label cells rest,
        PyStr.isascii label = true ->
        BssSpent.blank (label :: cells) = false ->
        BssSpent.from_rows ((label :: cells) :: [] :: rest) =
        Some (Err IndexError))
  /\ (forall s,
        BssSpent.classify s =
        if PyStr.contains "bill" s then Bills
        else if PyStr.contains "sav" s then Savings
        else Spending)
  /\ Bss.from_rows Sample.spend_rows = Some (Ok Sample.spend)
  /\ Bss.bills Sample.spend = F64.of_Z 500
  /\ Bss.savings Sample.spend = F64.of_Z 200
  /\ Bss.spending Sample.spend = F64.of_Z 150
  /\ Bss.total Sample.spend = F64.of_Z 850.
Proof.
  split; [intros rows; eexists; apply from_rows_pairs|].
  split; [reflexivity|].
  split.
  { intros [|c cells] _; cbn [BssSpent.blank].
    - split; auto.
    - destruct (PyStr.strip c) eqn:Ec; simpl; split; intros H.
      + right. exists c, cells. auto.
      + reflexivity.
      + discriminate H.
      + destruct H as [H | (c' & cells' & [= <- <-] & H)]; congruence. }
  split.
  { intros row rest _ Hb. rewrite !from_rows_pairs.
    cbn [BssSpent.pairs]. rewrite Hb. reflexivity. }
  split.
  { intros label cells amount_cell cells' rest r _ Hb Hr.
    rewrite from_rows_pairs in *. injection Hr as <-.
    cbn [BssSpent.pairs]. rewrite Hb. reflexivity. }
  split.
  { intros label cells cells' rest r _ Hb Hr.
    rewrite from_rows_pairs in *. injection Hr as <-.
    cbn [BssSpent.pairs]. rewrite Hb. reflexivity. }
  split.
  { intros label cells amount_cell cells' rest _ Hb _ Hne Hs.
    rewrite from_rows_pairs. cbn [BssSpent.pairs]. rewrite Hb.
    cbn [index nth_error bind].
    rewrite parse_money_nonempty by exact Hne.
    rewrite (strip_empty _ Hs). reflexivity. }
  split.
  { intros label cells rest _ Hb.
    rewrite from_rows_pairs. cbn [BssSpent.pairs]. rewrite Hb. reflexivity. }
  split; [reflexivity|].
  repeat split; vm_compute; reflexivity.
Qed.

(** C3 at concrete inputs: a blank row before a pair, and the pair;
    a label followed by a row of white space, and by a row without a
    cell. *)
Lemma C3_categorized_spend_pairs_witness :
  BssSpent.from_rows [[" "]; ["My SAVINGS"]; ["$20"]] =
  Some (Ok [BssSpent.mk Savings (F64.of_Z 20)])
  /\ BssSpent.from_rows [["Bills"]; [" "]; ["$500"]] = Some (Err ValueError)
  /\ BssSpent.from_rows [["Bills"]; []; ["$500"]] = Some (Err IndexError).
Proof.
  destruct C3_categorized_spend_pairs
    as (_ & Hnil & _ & Hblank & Hpair & _ & Hspace & Hnone & _).
  split; [|split].
  - rewrite (Hblank [" "] _ eq_refl eq_refl).
    rewrite (Hpair "My SAVINGS" [] "$20" [] [] (Ok []) eq_refl eq_refl Hnil).
    vm_compute. reflexivity.
  - apply (Hspace "Bills" [] " " [] [["$500"]]); try reflexivity. discriminate.
  - apply (Hnone "Bills" [] [["$500"]]); reflexivity.
Defined.

(** C3 as stated fails: a blank row that follows a label is not passed
    over, it is read as the amount of that label, and the amount row
    after it then becomes a label. *)
Lemma C3_blank_row_counterexample :
  BssSpent.blank [""] = true
  /\ BssSpent.from_rows [["Bills"]; [""]; ["$500"]] =
     Some (Ok [BssSpent.mk Bills F64.zero; BssSpent.mk Spending F64.zero])
  /\ BssSpent.from_rows [["Bills"]; ["$500"]] =
     Some (Ok [BssSpent.mk Bills (F64.of_Z 500)])
  /\ BssSpent.from_rows [["Bills"]; [""]; ["$500"]] <>
     BssSpent.from_rows [["Bills"]; ["$500"]].
Proof.
  repeat split; try (vm_compute; reflexivity).
  vm_compute. discriminate.
Qed.

(** C10.  A label row that is not blank and is the last row of the
    input gives an entity of amount exactly [0.0], and raises nothing:
    this holds of the loop whenever it stands at that row, and so of
    [from_rows] on any rows that pair up followed by the label.  The
    texts are ASCII. *)
Theorem C10_trailing_label :
  (forall rows label cells fuel result,
     PyStr.isascii label = true ->
     BssSpent.blank (label :: cells) = false ->
     2 <= fuel ->
     BssSpent.from_rows_loop fuel (rows ++ [label :: cells])%list
       (length rows) result =
     Some (Ok (result ++
               [BssSpent.mk
                  (BssSpent.classify (PyStr.lower (PyStr.strip label)))
                  F64.zero])%list))
  /\ (forall rows label cells out,
        ascii_rows rows = true ->
        PyStr.isascii label = true ->
        BssSpent.blank (label :: cells) = false ->
        at_label rows = true ->
        BssSpent.from_rows rows = Some (Ok out) ->
        BssSpent.from_rows (rows ++ [label :: cells])%list =
        Some (Ok (out ++
                  [BssSpent.mk
                     (BssSpent.classify (PyStr.lower (PyStr.strip label)))
                     F64.zero])%list)).
Proof.
  split.
  - intros rows label cells fuel result _ Hb Hfuel.
    rewrite from_rows_loop_pairs by (rewrite length_app; simpl; lia).
    rewrite skipn_app, Nat.sub_diag, skipn_all. cbn [app skipn].
    cbn [BssSpent.pairs]. rewrite Hb. reflexivity.
  - intros rows label cells out _ _ Hb Hat Hout.
    rewrite from_rows_pairs in *. injection Hout as Hout.
    destruct (pairs_trailing_label label cells Hb rows) as [H _].
    rewrite (H Hat), Hout. reflexivity.
Qed.

(** C10 at concrete inputs: a label alone, and a label after a pair. *)
Lemma C10_trailing_label_witness :
  BssSpent.from_rows_loop 2 [["Rent bill"]] 0 [] =
  Some (Ok [BssSpent.mk Bills F64.zero])
  /\ BssSpent.from_rows [["Savings"]; ["$200"]; ["Groceries"; ""]] =
     Some (Ok [BssSpent.mk Savings (F64.of_Z 200);
               BssSpent.mk Spending F64.zero]).
Proof.
  destruct C10_trailing_label as [Hloop Hrows].
  split.
  - apply (Hloop [] "Rent bill" [] 2 []); [reflexivity | reflexivity | lia].
  - assert (Hout : BssSpent.from_rows [["Savings"]; ["$200"]] =
                    Some (Ok [BssSpent.mk Savings (F64.of_Z 200)]))
      by (vm_compute; reflexivity).
    exact (Hrows [["Savings"]; ["$200"]] "Groceries" [""] _
             eq_refl eq_refl eq_refl eq_refl Hout).
Defined.

(** ** C7: the sums by category *)

Section ExactSums.

Context {num : Type} `{Number num}.
Hypothesis add_assoc : forall a b c : num,
  num_add a (num_add b c) = num_add (num_add a b) c.
Hypothesis add_comm : forall a b : num, num_add a b = num_add b a.
Hypothesis add_zero_l : forall a : num, num_add num_zero a = a.

Lemma fold_add_acc (xs : list num) :
  forall a z, fold_left num_add xs (num_add a z) = num_add a (fold_left num_add xs z).
Proof.
  induction xs as [|x xs IH]; simpl; intros a z; [reflexivity|].
  rewrite <- add_assoc. apply IH.
Qed.

Lemma py_sum_cons (x : num) (xs : list num) :
  py_sum (x :: xs) = num_add x (py_sum xs).
Proof.
  unfold py_sum. simpl. rewrite (add_comm num_zero x). apply fold_add_acc.
Qed.

Lemma sum_by_category (elements : Bss.t num) :
  num_add (num_add (Bss.spending elements) (Bss.bills elements))
    (Bss.savings elements) =
  Bss.total elements.
Proof.
  unfold Bss.spending, Bss.bills, Bss.savings, Bss.total.
  induction elements as [|[c a] elements IH].
  - simpl. unfold py_sum. simpl. rewrite !add_zero_l. reflexivity.
  - cbn [map]. rewrite py_sum_cons, <- IH.
    set (sp := py_sum (map BssSpent.amount (filter (Bss.in_category Spending) elements))).
    set (bi := py_sum (map BssSpent.amount (filter (Bss.in_category Bills) elements))).
    set (sa := py_sum (map BssSpent.amount (filter (Bss.in_category Savings) elements))).
    destruct c;
      cbn [filter Bss.in_category BssSpent.category BssSpent.amount
           BssCategory_eqb map];
      rewrite py_sum_cons; fold sp bi sa.
    + rewrite !add_assoc. reflexivity.
    + rewrite (add_assoc sp a bi), (add_comm sp a), !add_assoc. reflexivity.
    + rewrite (add_assoc (num_add sp bi) a sa), (add_comm (num_add sp bi) a),
        (add_assoc a (num_add sp bi) sa).
      reflexivity.
Qed.

End ExactSums.

(** Every element is of exactly one category: the three parts that the
    accessors add up make up the collection. *)
Lemma categories_partition {num : Type} `{Number num} (elements : Bss.t num) :
  Permutation
    (filter (Bss.in_category Spending) elements ++
     filter (Bss.in_category Bills) elements ++
     filter (Bss.in_category Savings) elements)%list
    elements.
Proof.
  induction elements as [|[c a] elements IH]; [reflexivity|].
  destruct c; cbn [filter Bss.in_category BssSpent.category BssCategory_eqb].
  - simpl. constructor. exact IH.
  - rewrite <- app_comm_cons, <- Permutation_middle. constructor. exact IH.
  - rewrite app_assoc, <- Permutation_middle, <- app_assoc.
    constructor. exact IH.
Qed.

(** C7 (as the code has it).  For every categorized-spend collection
    the three accessors add up parts that together are the whole
    collection, each element in one part; and over amounts that are
    added exactly, that is for an addition that is associative and
    commutative with [0] neutral,
    [spending() + bills() + savings() == total()]. *)
Theorem C7_sum_by_category_exact :
  forall (num : Type) (N : Number num),
    (forall a b c : num, num_add a (num_add b c) = num_add (num_add a b) c) ->
    (forall a b : num, num_add a b = num_add b a) ->
    (forall a : num, num_add num_zero a = a) ->
    forall elements : Bss.t num,
      num_add (num_add (Bss.spending elements) (Bss.bills elements))
        (Bss.savings elements) =
      Bss.total elements
      /\ Permutation
           (filter (Bss.in_category Spending) elements ++
            filter (Bss.in_category Bills) elements ++
            filter (Bss.in_category Savings) elements)%list
           elements.
Proof.
  intros num N Hassoc Hcomm Hzero elements. split.
  - apply sum_by_category; assumption.
  - apply categories_partition.
Qed.

(** C7 on amounts in cents. *)
Lemma C7_sum_by_category_exact_witness :
  @num_add Z Number_cents
    (@num_add Z Number_cents
       (@Bss.spending Z Number_cents Sample.dimes_in_cents)
       (@Bss.bills Z Number_cents Sample.dimes_in_cents))
    (@Bss.savings Z Number_cents Sample.dimes_in_cents) =
  @Bss.total Z Number_cents Sample.dimes_in_cents
  /\ Permutation
       (filter (@Bss.in_category Z Spending) Sample.dimes_in_cents ++
        filter (@Bss.in_category Z Bills) Sample.dimes_in_cents ++
        filter (@Bss.in_category Z Savings) Sample.dimes_in_cents)%list
       Sample.dimes_in_cents.
Proof.
  apply (C7_sum_by_category_exact Z Number_cents).
  - intros a b c. apply Z.add_assoc.
  - intros a b. apply Z.add_comm.
  - intros a. apply Z.add_0_l.
Defined.

(** C7 as stated fails on the floats of the program: thirty, twenty and
    ten cents, read from a sheet, add up to [0.6000000000000001] by
    category and to [0.6] in [total()].  The same holds when [sum] is
    CPython's compensated summation. *)
Lemma C7_binary64_counterexample :
  Bss.from_rows Sample.dime_rows = Some (Ok Sample.dimes)
  /\ F64.add (F64.add (Bss.spending Sample.dimes) (Bss.bills Sample.dimes))
       (Bss.savings Sample.dimes) =
     S754_finite false 5404319552844596 (-53)
  /\ Bss.total Sample.dimes = S754_finite false 5404319552844595 (-53)
  /\ F64.eqb
       (F64.add (F64.add (Bss.spending Sample.dimes) (Bss.bills Sample.dimes))
          (Bss.savings Sample.dimes))
       (Bss.total Sample.dimes) = false
  /\ F64.eqb
       (F64.add
          (F64.add
             (F64.sum_compensated
                (map BssSpent.amount
                   (filter (Bss.in_category Spending) Sample.dimes)))
             (F64.sum_compensated
                (map BssSpent.amount
                   (filter (Bss.in_category Bills) Sample.dimes))))
          (F64.sum_compensated
             (map BssSpent.amount
                (filter (Bss.in_category Savings) Sample.dimes))))
       (F64.sum_compensated (map BssSpent.amount Sample.dimes)) = false.
Proof.
  repeat split; vm_compute; reflexivity.
Qed.

(** ** C4: the filtering mappers *)

Section Collect.

Context {A B : Type} (f : A -> res (option B)).

Lemma collect_Ok (xs : list A) :
  forall out,
    collect f xs = Ok out ->
    out = flat_map (fun x => match f x with
                             | Ok (Some y) => [y]
                             | _ => []
                             end) xs.
Proof.
  induction xs as [|x xs IH]; simpl; intros out H.
  - congruence.
  - inv_binds H. injection H as <-. rewrite Ha.
    rewrite <- (IH _ Ha0). destruct a; reflexivity.
Qed.

Lemma collect_total (xs : list A) :
  (forall x, In x xs -> exists r, f x = Ok r) ->
  exists out, collect f xs = Ok out.
Proof.
  induction xs as [|x xs IH]; simpl; intros H.
  - eauto.
  - destruct (H x (or_introl eq_refl)) as [r ->].
    destruct IH as [out ->]; [intros y Hy; apply H; right; exact Hy|].
    simpl. eauto.
Qed.

Lemma collect_Err (xs : list A) (x : A) (e : exn) :
  In x xs -> f x = Err e -> exists e', collect f xs = Err e'.
Proof.
  induction xs as [|y xs IH]; simpl; intros Hin He; [contradiction|].
  destruct (f y) as [r|e1] eqn:Ey; simpl; [|eauto].
  destruct Hin as [-> | Hin]; [congruence|].
  destruct (IH Hin He) as [e' ->]. simpl. eauto.
Qed.

End Collect.

Lemma PaymentsOverview_filters :
  filtering_mapper PaymentsOverview.from_row PaymentsOverview.from_range 1
    PaymentsOverview.amount.
Proof.
  unfold filtering_mapper, PaymentsOverview.from_range.
  split; [|split; [|split; [|split; [|split]]]].
  - intros row c a Hc Ha Hz. unfold PaymentsOverview.from_row.
    rewrite Hc; cbn [bind]. rewrite Ha; cbn [bind]. rewrite Hz. reflexivity.
  - intros row c a Hc Ha Hz. unfold PaymentsOverview.from_row.
    rewrite Hc; cbn [bind]. rewrite Ha; cbn [bind]. rewrite Hz.
    destruct row as [|c0 row]; [discriminate Hc|].
    simpl. eexists; split; reflexivity.
  - intros row c e Hc He. unfold PaymentsOverview.from_row.
    rewrite Hc; cbn [bind]. rewrite He. reflexivity.
  - intros rows out. apply collect_Ok.
  - intros rows. apply collect_total.
  - intros rows row e. apply collect_Err.
Qed.

Lemma SavingsOverview_filters :
  filtering_mapper SavingsOverview.from_row SavingsOverview.from_range 2
    SavingsOverview.amount.
Proof.
  unfold filtering_mapper, SavingsOverview.from_range.
  split; [|split; [|split; [|split; [|split]]]].
  - intros row c a Hc Ha Hz. unfold SavingsOverview.from_row.
    rewrite Hc; cbn [bind]. rewrite Ha; cbn [bind]. rewrite Hz. reflexivity.
  - intros row c a Hc Ha Hz. unfold SavingsOverview.from_row.
    rewrite Hc; cbn [bind]. rewrite Ha; cbn [bind]. rewrite Hz.
    destruct row as [|c0 row]; [discriminate Hc|].
    simpl. eexists; split; reflexivity.
  - intros row c e Hc He. unfold SavingsOverview.from_row.
    rewrite Hc; cbn [bind]. rewrite He. reflexivity.
  - intros rows out. apply collect_Ok.
  - intros rows. apply collect_total.
  - intros rows row e. apply collect_Err.
Qed.

Lemma TransferOverview_filters :
  filtering_mapper TransferOverview.from_row TransferOverview.from_range 2
    TransferOverview.amount.
Proof.
  unfold filtering_mapper, TransferOverview.from_range.
  split; [|split; [|split; [|split; [|split]]]].
  - intros row c a Hc Ha Hz. unfold TransferOverview.from_row.
    rewrite Hc; cbn [bind]. rewrite Ha; cbn [bind]. rewrite Hz. reflexivity.
  - intros row c a Hc Ha Hz. unfold TransferOverview.from_row.
    rewrite Hc; cbn [bind]. rewrite Ha; cbn [bind]. rewrite Hz.
    destruct row as [|c0 [|c1 row]]; try discriminate Hc.
    simpl. eexists; split; reflexivity.
  - intros row c e Hc He. unfold TransferOverview.from_row.
    rewrite Hc; cbn [bind]. rewrite He. reflexivity.
  - intros rows out. apply collect_Ok.
  - intros rows. apply collect_total.
  - intros rows row e. apply collect_Err.
Qed.

(** C4.  For [PaymentsOverview] (amount in column 1), [SavingsOverview]
    (column 2) and [TransferOverview] (column 2): a row whose governing
    amount parses to a value equal to zero gives no entity; a row whose
    amount parses to any other value gives an entity with that amount,
    and the range lists these entities in row order; a parse error on
    the governing cell is raised, by the row mapper and so by the range
    mapper.  A row with ["$0.00"] is absent from the output, a row with
    ["$0.01"] is present, a row with ["$1.2.3"] raises [ValueError]. *)
Theorem C4_filtering_mappers :
  filtering_mapper PaymentsOverview.from_row PaymentsOverview.from_range 1
    PaymentsOverview.amount
  /\ filtering_mapper SavingsOverview.from_row SavingsOverview.from_range 2
       SavingsOverview.amount
  /\ filtering_mapper TransferOverview.from_row TransferOverview.from_range 2
       TransferOverview.amount
  /\ PaymentsOverview.from_range
       [["Rent"; "$0.00"; "$5.00"]; ["Food"; "$0.01"; "$0.00"]] =
     Ok [PaymentsOverview.mk "Food" (F64.of_decimal false 1 2)]
  /\ SavingsOverview.from_range
       [["Rent"; "$0.00"; "$0.01"]; ["Food"; "$0.01"; "$0.00"]] =
     Ok [SavingsOverview.mk "Rent" (F64.of_decimal false 1 2)]
  /\ TransferOverview.from_range
       [["Checking"; "Savings"; "$0.00"]; ["Checking"; "Card"; "$0.01"]] =
     Ok [TransferOverview.mk "Checking" "Card" (F64.of_decimal false 1 2)]
  /\ PaymentsOverview.from_range [["Rent"; "$1.2.3"; ""]] = Err ValueError
  /\ SavingsOverview.from_range [["Rent"; ""; "$1.2.3"]] = Err ValueError
  /\ TransferOverview.from_range [["Checking"; "Card"; "--"]] = Err ValueError.
Proof.
  split; [exact PaymentsOverview_filters|].
  split; [exact SavingsOverview_filters|].
  split; [exact TransferOverview_filters|].
  repeat split; vm_compute; reflexivity.
Qed.

(** C4 at concrete rows: a zero amount, a cent, a malformed amount. *)
Lemma C4_filtering_mappers_witness :
  PaymentsOverview.from_row ["Rent"; "$0.00"] = Ok None
  /\ (exists x, SavingsOverview.from_row ["Trip"; ""; "$0.01"] = Ok (Some x)
                /\ SavingsOverview.amount x = F64.of_decimal false 1 2)
  /\ TransferOverview.from_row ["Checking"; "Card"; "1.2.3"] = Err ValueError.
Proof.
  destruct C4_filtering_mappers as (HP & HS & HT & _).
  destruct HP as (Hzero & _).
  destruct HS as (_ & Hnonzero & _).
  destruct HT as (_ & _ & Herr & _).
  split; [|split].
  - apply (Hzero ["Rent"; "$0.00"] "$0.00" F64.zero); reflexivity.
  - apply (Hnonzero ["Trip"; ""; "$0.01"] "$0.01"); reflexivity.
  - apply (Herr ["Checking"; "Card"; "1.2.3"] "1.2.3"); reflexivity.
Defined.

(** ** C8: account balances *)

Section Traverse.

Context {A B : Type} (f : A -> res B).

Lemma traverse_Ok (xs : list A) :
  forall ys, traverse f xs = Ok ys -> Forall2 (fun x y => f x = Ok y) xs ys.
Proof.
  induction xs as [|x xs IH]; simpl; intros ys H.
  - injection H as <-. constructor.
  - inv_binds H. injection H as <-. constructor; auto.
Qed.

Lemma traverse_total (xs : list A) :
  (forall x, In x xs -> exists y, f x = Ok y) ->
  exists ys, traverse f xs = Ok ys.
Proof.
  induction xs as [|x xs IH]; simpl; intros H.
  - eauto.
  - destruct (H x (or_introl eq_refl)) as [y ->].
    destruct IH as [ys ->]; [intros z Hz; apply H; right; exact Hz|].
    simpl. eauto.
Qed.

Lemma traverse_Forall (P : B -> Prop) (xs : list A) :
  (forall x y, f x = Ok y -> P y) ->
  forall ys, traverse f xs = Ok ys -> Forall P ys.
Proof.
  intros HP ys H. apply traverse_Ok in H.
  induction H; constructor; eauto.
Qed.

End Traverse.

(** [x == x] holds of every float but a NaN. *)
Lemma eqb_refl (x : F64.float) :
  F64.is_nan x = false -> F64.eqb x x = true.
Proof.
  unfold F64.eqb, SFeqb.
  destruct x as [s|s| |s m e]; simpl; intros H; try reflexivity;
    try discriminate H; destruct s; try reflexivity;
    rewrite Z.compare_refl, Pos.compare_cont_refl; reflexivity.
Qed.

Lemma AccountBalance_from_row_Ok (row : list string) (ab : AccountBalance.t) :
  AccountBalance.from_row row = Ok ab ->
  AccountBalance.amount_diff ab =
    F64.sub (AccountBalance.amount_manual ab) (AccountBalance.amount_calc ab)
  /\ exists c0 c2 c3,
       cell row 0 = Ok c0 /\ cell row 2 = Ok c2 /\ cell row 3 = Ok c3 /\
       AccountBalance.name ab = PyStr.strip c0 /\
       Helpers.parse_money (Some c2) = Ok (AccountBalance.amount_calc ab) /\
       Helpers.parse_money (Some c3) = Ok (AccountBalance.amount_manual ab).
Proof.
  unfold AccountBalance.from_row. intros H.
  inv_binds H. injection H as <-. cbn.
  split; [reflexivity|]. eauto 10.
Qed.

(** C8.  Every [AccountBalance] that [from_rows] builds has
    [amount_diff] equal to [amount_manual - amount_calc]: the three
    fields of a row's entity are the parsed cell 3, the parsed cell 2
    and their difference, which no cell is read for; and for Python's
    [==] too, unless the difference is a NaN.  [from_rows] does return
    on rows that have the four cells, with amounts that parse. *)
Theorem C8_account_balance_diff :
  (forall rows out,
     AccountBalance.from_rows rows = Ok out ->
     Forall
       (fun ab =>
          AccountBalance.amount_diff ab =
            F64.sub (AccountBalance.amount_manual ab)
              (AccountBalance.amount_calc ab)
          /\ (F64.is_nan (AccountBalance.amount_diff ab) = false ->
              F64.eqb (AccountBalance.amount_diff ab)
                (F64.sub (AccountBalance.amount_manual ab)
                   (AccountBalance.amount_calc ab)) = true))
       out
     /\ Forall2
          (fun row ab =>
             exists c0 c2 c3,
               cell row 0 = Ok c0 /\ cell row 2 = Ok c2 /\ cell row 3 = Ok c3 /\
               AccountBalance.name ab = PyStr.strip c0 /\
               Helpers.parse_money (Some c2) = Ok (AccountBalance.amount_calc ab) /\
               Helpers.parse_money (Some c3) = Ok (AccountBalance.amount_manual ab))
          rows out)
  /\ (forall rows,
        (forall row, In row rows ->
           exists c0 c1 c2 c3 rest amount_calc amount_manual,
             row = c0 :: c1 :: c2 :: c3 :: rest /\
             Helpers.parse_money (Some c2) = Ok amount_calc /\
             Helpers.parse_money (Some c3) = Ok amount_manual) ->
        exists out, AccountBalance.from_rows rows = Ok out).
Proof.
  split.
  - intros rows out H. unfold AccountBalance.from_rows in H. split.
    + eapply traverse_Forall; [|exact H].
      intros row ab Hab. apply AccountBalance_from_row_Ok in Hab.
      destruct Hab as [Hd _]. split; [exact Hd|].
      intros Hnan. rewrite <- Hd. apply eqb_refl. exact Hnan.
    + apply traverse_Ok in H.
      induction H as [|row ab rows out Hab _ IH]; constructor; [|exact IH].
      apply AccountBalance_from_row_Ok in Hab. tauto.
  - intros rows H. apply traverse_total. intros row Hin.
    destruct (H row Hin) as (c0 & c1 & c2 & c3 & rest & calc & manual & -> & Hc & Hm).
    unfold AccountBalance.from_row. cbn [cell index nth_error bind].
    rewrite Hc; cbn [bind]. rewrite Hm; cbn [bind]. eauto.
Qed.

(** C8 on one row of a sheet. *)
Lemma C8_account_balance_diff_witness :
  Forall
    (fun ab =>
       AccountBalance.amount_diff ab =
         F64.sub (AccountBalance.amount_manual ab)
           (AccountBalance.amount_calc ab)
       /\ (F64.is_nan (AccountBalance.amount_diff ab) = false ->
           F64.eqb (AccountBalance.amount_diff ab)
             (F64.sub (AccountBalance.amount_manual ab)
                (AccountBalance.amount_calc ab)) = true))
    [AccountBalance.mk "Checking" (F64.of_decimal false 120050 2)
       (F64.of_decimal false 119000 2)
       (F64.sub (F64.of_decimal false 120050 2) (F64.of_decimal false 119000 2))]
  /\ exists out,
       AccountBalance.from_rows
         [[" Checking "; "$1,000.00"; "$1,190.00"; "$1,200.50"]] = Ok out.
Proof.
  destruct C8_account_balance_diff as [Hdiff Htotal].
  split.
  - refine (proj1 (Hdiff [[" Checking "; "$1,000.00"; "$1,190.00"; "$1,200.50"]]
                     _ _)).
    vm_compute. reflexivity.
  - apply Htotal. intros row [<- | []].
    exists " Checking ", "$1,000.00", "$1,190.00", "$1,200.50", [],
      (F64.of_decimal false 119000 2), (F64.of_decimal false 120050 2).
    repeat split; vm_compute; reflexivity.
Defined.

(** ** C9: the flag behind the expense type *)

Lemma eqb_FALSE (flag : string) :
  (flag = "FALSE" -> String.eqb flag "FALSE" = true)
  /\ (flag <> "FALSE" -> String.eqb flag "FALSE" = false).
Proof.
  split; intros H.
  - apply String.eqb_eq. exact H.
  - apply String.eqb_neq. exact H.
Qed.

(** C9.  The expense type is decided by comparing the flag cell, as it
    is, with ["FALSE"]: on the manual path (cell 3) exactly ["FALSE"]
    gives [RequiredPayment] and every other text, including ["false"],
    ["False"] and the empty text, gives [Expendable]; on the recurring
    path (cell 4) exactly ["FALSE"] gives [RequiredPayment] and every
    other text gives [Saving].  Both mappers do return on rows that
    have their cells and parse. *)
Theorem C9_expense_type_flag :
  (forall period_size row b,
     Budget.from_manual_budget_row period_size row = Ok b ->
     exists flag,
       cell row 3 = Ok flag
       /\ (flag = "FALSE" -> Budget.expense_type b = RequiredPayment)
       /\ (flag <> "FALSE" -> Budget.expense_type b = Expendable))
  /\ (forall py_float strptime_mdY cat2subcat row b,
        Budget.from_recurring_budget_row py_float strptime_mdY cat2subcat row
          = Ok b ->
        exists flag,
          cell row 4 = Ok flag
          /\ (flag = "FALSE" -> Budget.expense_type b = RequiredPayment)
          /\ (flag <> "FALSE" -> Budget.expense_type b = Saving))
  /\ (forall period_size c0 c1 c2 c3 rest amount,
        Helpers.parse_money (Some c1) = Ok amount ->
        exists b,
          Budget.from_manual_budget_row period_size
            (c0 :: c1 :: c2 :: c3 :: rest) = Ok b)
  /\ (forall py_float strptime_mdY cat2subcat c0 c1 c2 c3 c4 c5 c6 c7 rest
             amount timeframe day category,
        Helpers.parse_money (Some c2) = Ok amount ->
        py_float c3 = Ok timeframe ->
        strptime_mdY (PyStr.strip c7) = Ok day ->
        Budget.find_category cat2subcat (PyStr.strip c0) = Some category ->
        category <> "" ->
        exists b,
          Budget.from_recurring_budget_row py_float strptime_mdY cat2subcat
            (c0 :: c1 :: c2 :: c3 :: c4 :: c5 :: c6 :: c7 :: rest) = Ok b)
  /\ res_map Budget.expense_type
       (Budget.from_manual_budget_row (F64.of_Z 14) ["Food"; "$10"; ""; "FALSE"])
     = Ok RequiredPayment
  /\ res_map Budget.expense_type
       (Budget.from_manual_budget_row (F64.of_Z 14) ["Food"; "$10"; ""; "false"])
     = Ok Expendable
  /\ res_map Budget.expense_type
       (Budget.from_manual_budget_row (F64.of_Z 14) ["Food"; "$10"; ""; "False"])
     = Ok Expendable
  /\ res_map Budget.expense_type
       (Budget.from_manual_budget_row (F64.of_Z 14) ["Food"; "$10"; ""; ""])
     = Ok Expendable
  /\ res_map Budget.expense_type
       (Budget.from_manual_budget_row (F64.of_Z 14) ["Food"; "$10"; ""; "TRUE"])
     = Ok Expendable.
Proof.
  split.
  { intros period_size row b H. unfold Budget.from_manual_budget_row in H.
    inv_binds H. injection H as <-. cbn [Budget.expense_type].
    exists a1. split; [assumption|].
    destruct (eqb_FALSE a1) as [Ht Hf].
    split; intros Hflag; [rewrite (Ht Hflag) | rewrite (Hf Hflag)]; reflexivity. }
  split.
  { intros py_float strptime_mdY cat2subcat row b H.
    unfold Budget.from_recurring_budget_row in H.
    inv_binds H.
    destruct (Budget.find_category cat2subcat (PyStr.strip a)) as [category|];
      [|discriminate H].
    destruct (negb (PyStr.truthy category)); [discriminate H|].
    injection H as <-. cbn [Budget.expense_type].
    exists a5. split; [assumption|].
    destruct (eqb_FALSE a5) as [Ht Hf].
    split; intros Hflag; [rewrite (Ht Hflag) | rewrite (Hf Hflag)]; reflexivity. }
  split.
  { intros period_size c0 c1 c2 c3 rest amount Ha.
    unfold Budget.from_manual_budget_row. cbn [cell index nth_error bind].
    rewrite Ha. cbn [bind]. eauto. }
  split.
  { intros py_float strptime_mdY cat2subcat c0 c1 c2 c3 c4 c5 c6 c7 rest
      amount timeframe day category Ha Ht Hd Hcat Hne.
    unfold Budget.from_recurring_budget_row. cbn [cell index nth_error bind].
    rewrite Ha. cbn [bind]. rewrite Ht. cbn [bind]. rewrite Hd. cbn [bind].
    rewrite Hcat. destruct category; [congruence|]. cbn. eauto. }
  repeat split; vm_compute; reflexivity.
Qed.

(** C9 on a manual row and on a recurring row, whose flags are not
    ["FALSE"] letter for letter. *)
Lemma C9_expense_type_flag_witness :
  (exists flag,
     cell ["Food"; "$10"; "weekly"; "false"] 3 = Ok flag
     /\ (flag = "FALSE" ->
         Budget.expense_type
           (Budget.mk "Food" None (F64.of_Z 10) (F64.of_Z 14) "Food / weekly"
              Expendable None None) = RequiredPayment)
     /\ (flag <> "FALSE" ->
         Budget.expense_type
           (Budget.mk "Food" None (F64.of_Z 10) (F64.of_Z 14) "Food / weekly"
              Expendable None None) = Expendable))
  /\ (exists flag,
        cell ["Rent"; "flat"; "$900"; "30"; "False"; "Checking"; ""; "738000"] 4
          = Ok flag
        /\ (flag = "FALSE" ->
            Budget.expense_type
              (Budget.mk "Home" (Some "Rent") (F64.of_Z 900) (F64.of_Z 30)
                 "flat" Saving (Some "Checking") (Some 738000%positive))
            = RequiredPayment)
        /\ (flag <> "FALSE" ->
            Budget.expense_type
              (Budget.mk "Home" (Some "Rent") (F64.of_Z 900) (F64.of_Z 30)
                 "flat" Saving (Some "Checking") (Some 738000%positive))
            = Saving))
  /\ (exists b,
        Budget.from_recurring_budget_row Sample.float_of_digits
          Sample.date_of_digits Sample.cat2subcat
          ["Rent"; "flat"; "$900"; "30"; "False"; "Checking"; ""; "738000"]
        = Ok b).
Proof.
  destruct C9_expense_type_flag as (Hmanual & Hrecurring & _ & Htotal & _).
  split; [|split].
  - apply (Hmanual (F64.of_Z 14) ["Food"; "$10"; "weekly"; "false"]).
    vm_compute. reflexivity.
  - apply (Hrecurring Sample.float_of_digits Sample.date_of_digits
             Sample.cat2subcat
             ["Rent"; "flat"; "$900"; "30"; "False"; "Checking"; ""; "738000"]).
    vm_compute. reflexivity.
  - apply (Htotal Sample.float_of_digits Sample.date_of_digits Sample.cat2subcat
             "Rent" "flat" "$900" "30" "False" "Checking" "" "738000" []
             (F64.of_Z 900) (F64.of_Z 30) 738000%positive "Home");
      try (vm_compute; reflexivity).
    discriminate.
Defined.

(** ** C5: the order of the budget list *)

Section SortFacts.

Context {A : Type} (key : A -> date).

Lemma insert_perm (x : A) (l : list A) :
  Permutation (x :: l) (Main.insert key x l).
Proof.
  induction l as [|y l IH]; simpl; [reflexivity|].
  destruct (key y <? key x)%positive; [|reflexivity].
  rewrite perm_swap. constructor. exact IH.
Qed.

Lemma sort_perm (l : list A) : Permutation l (Main.sort key l).
Proof.
  induction l as [|x l IH]; simpl; [constructor|].
  rewrite <- insert_perm. constructor. exact IH.
Qed.

Lemma insert_sorted (x : A) (l : list A) :
  StronglySorted (fun a b => (key a <= key b)%positive) l ->
  StronglySorted (fun a b => (key a <= key b)%positive) (Main.insert key x l).
Proof.
  induction 1 as [|y l Hl IH Hy]; simpl.
  - repeat constructor.
  - destruct (key y <? key x)%positive eqn:E.
    + apply Pos.ltb_lt in E. constructor; [exact IH|].
      rewrite <- insert_perm. constructor; [lia | exact Hy].
    + apply Pos.ltb_ge in E. constructor; [constructor; assumption|].
      constructor; [exact E|].
      eapply Forall_impl; [|exact Hy]. intros z Hz. simpl in Hz. lia.
Qed.

Lemma sort_sorted (l : list A) :
  StronglySorted (fun a b => (key a <= key b)%positive) (Main.sort key l).
Proof.
  induction l as [|x l IH]; simpl; [constructor|].
  apply insert_sorted. exact IH.
Qed.

(** An item of the least key goes to the front. *)
Lemma insert_min (x : A) (l : list A) :
  key x = date_min -> Main.insert key x l = x :: l.
Proof.
  intros Hx. destruct l as [|y l]; simpl; [reflexivity|].
  rewrite Hx. unfold date_min.
  destruct (key y <? 1)%positive eqn:E; [|reflexivity].
  apply Pos.ltb_lt in E. lia.
Qed.

Lemma sort_min_prefix (us l : list A) :
  Forall (fun x => key x = date_min) us ->
  Main.sort key (us ++ l) = (us ++ Main.sort key l)%list.
Proof.
  induction 1 as [|x us Hx _ IH]; simpl; [reflexivity|].
  rewrite IH. apply insert_min. exact Hx.
Qed.

(** The sort is stable: the items of any one key keep their order. *)
Lemma insert_stable (k : date) (x : A) (l : list A) :
  filter (fun y => Pos.eqb (key y) k) (Main.insert key x l) =
  filter (fun y => Pos.eqb (key y) k) (x :: l).
Proof.
  induction l as [|y l IH]; simpl; [reflexivity|].
  destruct (key y <? key x)%positive eqn:E; [|reflexivity].
  apply Pos.ltb_lt in E. simpl in *. rewrite IH.
  destruct (Pos.eqb (key x) k) eqn:Ex; [|reflexivity].
  apply Pos.eqb_eq in Ex.
  destruct (Pos.eqb (key y) k) eqn:Ey; [|reflexivity].
  apply Pos.eqb_eq in Ey. lia.
Qed.

Lemma sort_stable (k : date) (l : list A) :
  filter (fun y => Pos.eqb (key y) k) (Main.sort key l) =
  filter (fun y => Pos.eqb (key y) k) l.
Proof.
  induction l as [|x l IH]; simpl; [reflexivity|].
  rewrite insert_stable. simpl. rewrite IH. reflexivity.
Qed.

End SortFacts.

Lemma undated_key (b : Budget.t) : undated b -> Main.sort_key b = date_min.
Proof. unfold undated, Main.sort_key. intros ->. reflexivity. Qed.

Lemma undated_or_dated (b : Budget.t) : undated b \/ dated b.
Proof.
  unfold undated, dated. destruct (Budget.next_approx_payment b); [right | left];
    congruence.
Qed.

(** In a list ascending in the key, where no date is [date.min], the
    items without a date come first. *)
Lemma sorted_undated_first (l : list Budget.t) :
  StronglySorted key_le l ->
  (forall b d, In b l -> Budget.next_approx_payment b = Some d -> d <> date_min) ->
  exists us ds, l = (us ++ ds)%list /\ Forall undated us /\ Forall dated ds.
Proof.
  induction 1 as [|a l Hl IH Ha]; intros Hmin.
  - exists [], []. repeat split; constructor.
  - destruct IH as (us & ds & -> & Hus & Hds);
      [intros b d Hb; apply Hmin; right; exact Hb|].
    destruct (undated_or_dated a) as [Hu | Hd].
    + exists (a :: us), ds. repeat split; [constructor; assumption | assumption].
    + exists [], (a :: us ++ ds)%list. repeat split; [constructor|].
      constructor; [exact Hd|].
      rewrite Forall_forall in Ha |- *. intros b Hb.
      destruct (undated_or_dated b) as [Hbu | Hbd]; [exfalso | exact Hbd].
      specialize (Ha b Hb). unfold key_le in Ha.
      rewrite (undated_key b Hbu) in Ha.
      unfold dated in Hd. unfold Main.sort_key in Ha.
      destruct (Budget.next_approx_payment a) as [d|] eqn:Ed; [|congruence].
      apply (Hmin a d (or_introl eq_refl) Ed). unfold date_min in *. lia.
Qed.

Lemma manual_undated (period_size : F64.float) (row : list string) (b : Budget.t) :
  Budget.from_manual_budget_row period_size row = Ok b -> undated b.
Proof.
  unfold Budget.from_manual_budget_row. intros H.
  inv_binds H. injection H as <-. reflexivity.
Qed.

Lemma recurring_dated (py_float : string -> res F64.float)
    (strptime_mdY : string -> res date)
    (cat2subcat : list (string * list string)) (row : list string)
    (b : Budget.t) :
  Budget.from_recurring_budget_row py_float strptime_mdY cat2subcat row = Ok b ->
  dated b.
Proof.
  unfold Budget.from_recurring_budget_row. intros H.
  inv_binds H.
  destruct (Budget.find_category cat2subcat (PyStr.strip a)) as [category|];
    [|discriminate H].
  destruct (negb (PyStr.truthy category)); [discriminate H|].
  injection H as <-. unfold dated. cbn. discriminate.
Qed.

(** C5.  The budget list of [main] is ascending in the next-due date,
    with [date.min] standing for a missing date, and it is the items
    without a date (those of the manual range, in their order) followed
    by the items with a date (those of the recurring range, sorted).
    More generally, for any arrangement of the items the sort gives a
    list that is ascending in that key, a permutation of its input, with
    the items of equal key in their input order, and with all the items
    without a date first provided no item is dated [date.min]. *)
Theorem C5_budgets_sorted :
  (forall py_float strptime_mdY period_size cat2subcat manual_rows
          recurring_rows out,
     Main.budgets py_float strptime_mdY period_size cat2subcat manual_rows
       recurring_rows = Ok out ->
     StronglySorted key_le out
     /\ exists manual recurring,
          Budget.from_manual_budget_range period_size manual_rows = Ok manual
          /\ Budget.from_recurring_budget_range py_float strptime_mdY
               cat2subcat recurring_rows = Ok recurring
          /\ Forall undated manual
          /\ Forall dated recurring
          /\ Permutation (manual ++ recurring) out
          /\ exists dated_sorted,
               out = (manual ++ dated_sorted)%list
               /\ Forall dated dated_sorted
               /\ Permutation recurring dated_sorted)
  /\ (forall b, undated b -> Main.sort_key b = date_min)
  /\ (forall b, (date_min <= Main.sort_key b)%positive)
  /\ (forall l : list Budget.t,
        StronglySorted key_le (Main.sort Main.sort_key l)
        /\ Permutation l (Main.sort Main.sort_key l)
        /\ (forall k,
              filter (fun b => Pos.eqb (Main.sort_key b) k)
                (Main.sort Main.sort_key l) =
              filter (fun b => Pos.eqb (Main.sort_key b) k) l)
        /\ ((forall b d, In b l -> Budget.next_approx_payment b = Some d ->
                         d <> date_min) ->
            exists us ds,
              Main.sort Main.sort_key l = (us ++ ds)%list
              /\ Forall undated us /\ Forall dated ds)).
Proof.
  split.
  { intros py_float strptime_mdY period_size cat2subcat manual_rows
      recurring_rows out H.
    unfold Main.budgets in H. inv_binds H. injection H as <-.
    rename a into manual, a0 into recurring.
    split; [apply sort_sorted|].
    exists manual, recurring.
    assert (Hm : Forall undated manual).
    { eapply traverse_Forall; [|exact Ha]. apply manual_undated. }
    assert (Hr : Forall dated recurring).
    { eapply traverse_Forall; [|exact Ha0]. apply recurring_dated. }
    repeat (split; [assumption|]).
    split; [apply sort_perm|].
    exists (Main.sort Main.sort_key recurring).
    split; [|split].
    - apply sort_min_prefix.
      eapply Forall_impl; [|exact Hm]. apply undated_key.
    - rewrite Forall_forall in Hr |- *. intros b Hb. apply Hr.
      eapply Permutation_in; [symmetry; apply sort_perm | exact Hb].
    - apply sort_perm. }
  split; [exact undated_key|].
  split; [intros b; unfold date_min; lia|].
  intros l.
  split; [apply sort_sorted|].
  split; [apply sort_perm|].
  split; [intros k; apply sort_stable|].
  intros Hmin. apply sorted_undated_first; [apply sort_sorted|].
  intros b d Hb. apply Hmin.
  eapply Permutation_in; [symmetry; apply sort_perm | exact Hb].
Qed.

(** C5 on two manual and two recurring rows, the later date first in
    the sheet, and on four items in an arbitrary arrangement. *)
Lemma C5_budgets_sorted_witness :
  (exists out,
     Main.budgets Sample.float_of_digits Sample.date_of_digits (F64.of_Z 14)
       Sample.cat2subcat Sample.manual_rows Sample.recurring_rows = Ok out
     /\ StronglySorted key_le out
     /\ map Budget.next_approx_payment out =
        [None; None; Some 738003%positive; Some 738010%positive])
  /\ (exists us ds,
        Main.sort Main.sort_key Sample.items = (us ++ ds)%list
        /\ Forall undated us /\ Forall dated ds)
  /\ map Budget.category (Main.sort Main.sort_key Sample.items) =
     ["food"; "phone"; "trip"; "rent"].
Proof.
  destruct C5_budgets_sorted as (Hmain & _ & _ & Hsort).
  split; [|split].
  - eexists. split; [vm_compute; reflexivity|].
    split; [|reflexivity].
    refine (proj1 (Hmain Sample.float_of_digits Sample.date_of_digits
                     (F64.of_Z 14) Sample.cat2subcat Sample.manual_rows
                     Sample.recurring_rows _ _)).
    vm_compute. reflexivity.
  - apply (Hsort Sample.items).
    intros b d Hb Hd. simpl in Hb.
    destruct Hb as [<- | [<- | [<- | [<- | []]]]]; simpl in Hd;
      injection Hd as <- || discriminate Hd; discriminate.
  - vm_compute. reflexivity.
Defined.

(** ** C6: the statistics block *)

Lemma cell0_out (rows : rows_t) (i : nat) :
  length rows <= i -> cell0 rows i = Err IndexError.
Proof.
  intros H. unfold cell0, index.
  destruct (nth_error rows i) eqn:E; [|reflexivity].
  assert (i < length rows) by (apply nth_error_Some; congruence). lia.
Qed.

Lemma cell0_in (rows : rows_t) (i : nat) (c : string) :
  cell0 rows i = Ok c -> i < length rows.
Proof.
  unfold cell0, index. intros H.
  destruct (nth_error rows i) eqn:E; [|discriminate H].
  apply nth_error_Some. congruence.
Qed.

Lemma money_at_out (rows : rows_t) (i : nat) :
  length rows <= i -> BudgetStats.money_at rows i = Err IndexError.
Proof.
  intros H. unfold BudgetStats.money_at. rewrite cell0_out by exact H.
  reflexivity.
Qed.

Lemma money_at_in (rows : rows_t) (i : nat) (a : F64.float) :
  BudgetStats.money_at rows i = Ok a -> i < length rows.
Proof.
  unfold BudgetStats.money_at. intros H. inv_bind H.
  eapply cell0_in. eassumption.
Qed.

Lemma flag_at_out (rows : rows_t) (i : nat) :
  length rows <= i -> BudgetStats.flag_at rows i = Err IndexError.
Proof.
  intros H. unfold BudgetStats.flag_at. rewrite cell0_out by exact H.
  reflexivity.
Qed.

Lemma flag_at_Ok (rows : rows_t) (i : nat) (b : bool) :
  BudgetStats.flag_at rows i = Ok b <->
  exists c, cell0 rows i = Ok c
            /\ b = String.eqb (PyStr.upper (PyStr.strip c)) "TRUE".
Proof.
  unfold BudgetStats.flag_at. split.
  - intros H. inv_bind H. injection H as <-. eauto.
  - intros (c & -> & ->). reflexivity.
Qed.

(** [upper] sends to a capital letter that letter in either case, and
    nothing else. *)
Lemma upper_char_letter (u c : ascii) :
  PyStr.is_upper u = true ->
  (PyStr.upper_char c = u <-> letter u c).
Proof.
  unfold letter.
  destruct u as [[] [] [] [] [] [] [] []]; try discriminate; intros _;
    destruct c as [[] [] [] [] [] [] [] []];
    vm_compute; split; intros H;
    try discriminate H; try (left; reflexivity); try (right; reflexivity);
    try reflexivity; destruct H as [H | H]; discriminate H.
Qed.

(** The comparison with ["TRUE"] after [upper] accepts the four letters
    in any case, and nothing else. *)
Lemma upper_TRUE (s : string) :
  String.eqb (PyStr.upper s) "TRUE" = true <->
  exists c1 c2 c3 c4,
    s = String c1 (String c2 (String c3 (String c4 "")))
    /\ letter "T" c1 /\ letter "R" c2 /\ letter "U" c3 /\ letter "E" c4.
Proof.
  rewrite String.eqb_eq. split.
  - destruct s as [|c1 [|c2 [|c3 [|c4 [|c5 s]]]]]; simpl; intros H;
      try discriminate H.
    injection H as H1 H2 H3 H4.
    exists c1, c2, c3, c4. split; [reflexivity|].
    repeat split; apply upper_char_letter; auto.
  - intros (c1 & c2 & c3 & c4 & -> & H1 & H2 & H3 & H4).
    apply upper_char_letter in H1, H2, H3, H4; try reflexivity.
    simpl. unfold PyStr.upper. simpl. congruence.
Qed.

(** One step of [from_rows] on a block that may be too short: the row
    is missing and the step raises [IndexError], or it is there and the
    step succeeds. *)
Ltac stats_step rows Hshort Htext Hmoney :=
  let Hge := fresh "Hge" in
  let Hlt := fresh "Hlt" in
  let x := fresh "x" in
  let Hx := fresh "Hx" in
  match goal with
  | |- bind (cell0 rows ?i) _ = _ =>
      destruct (le_lt_dec (length rows) i) as [Hge | Hlt];
      [ rewrite (cell0_out rows i Hge); reflexivity
      | destruct (Htext i ltac:(simpl; tauto) Hlt) as [x ->]; cbn [bind] ]
  | |- bind (BudgetStats.flag_at rows ?i) _ = _ =>
      destruct (le_lt_dec (length rows) i) as [Hge | Hlt];
      [ rewrite (flag_at_out rows i Hge); reflexivity
      | destruct (Htext i ltac:(simpl; tauto) Hlt) as [x Hx];
        rewrite (proj2 (flag_at_Ok rows i _) (ex_intro _ x (conj Hx eq_refl)));
        cbn [bind] ]
  | |- bind (BudgetStats.money_at rows ?i) _ = _ =>
      destruct (le_lt_dec (length rows) i) as [Hge | Hlt];
      [ rewrite (money_at_out rows i Hge); reflexivity
      | try (exfalso; lia);
        destruct (Hmoney i ltac:(simpl; tauto) Hlt) as [x ->]; cbn [bind] ]
  end.

(** C6 (as the code has it).  [BudgetStats.from_rows] reads its sixteen
    fields at fixed rows: the account name, stripped, at row 0, the
    total budget at row 3, the further amounts at rows 5, 7, ..., 23, 29
    and 31, and the two flags at rows 25 and 27, a flag being true when
    its stripped cell is the word TRUE in any mix of cases (the cells
    read as text being ASCII).  On a block of fewer than 32 rows it returns no result: it raises, and what it
    raises is [IndexError] when every cell it reads before the missing
    row is there and parses.  On a block with all these cells it does
    return. *)
Theorem C6_budget_stats_fixed_rows :
  (forall rows bs,
     (forall i c, In i text_rows -> cell0 rows i = Ok c ->
                  PyStr.isascii c = true) ->
     BudgetStats.from_rows rows = Ok bs ->
     (exists c, cell0 rows 0 = Ok c
                /\ BudgetStats.income_account bs = PyStr.strip c)
     /\ BudgetStats.money_at rows 3 = Ok (BudgetStats.total_budget bs)
     /\ BudgetStats.money_at rows 5 = Ok (BudgetStats.income_at_period_start bs)
     /\ BudgetStats.money_at rows 7 =
        Ok (BudgetStats.checking_amount_period_start bs)
     /\ BudgetStats.money_at rows 9 =
        Ok (BudgetStats.total_withheld_required_payments bs)
     /\ BudgetStats.money_at rows 11 = Ok (BudgetStats.total_withheld_savings bs)
     /\ BudgetStats.money_at rows 13 = Ok (BudgetStats.balance_after_withheld bs)
     /\ BudgetStats.money_at rows 15 = Ok (BudgetStats.budget_after_withheld bs)
     /\ BudgetStats.money_at rows 17 =
        Ok (BudgetStats.allocated_spending_budget bs)
     /\ BudgetStats.money_at rows 19 =
        Ok (BudgetStats.balance_after_withheld_and_spending bs)
     /\ BudgetStats.money_at rows 21 =
        Ok (BudgetStats.budget_after_withheld_and_spending bs)
     /\ BudgetStats.money_at rows 23 =
        Ok (BudgetStats.budget_after_withheld_and_spent bs)
     /\ BudgetStats.flag_at rows 25 = Ok (BudgetStats.overspent_soft bs)
     /\ BudgetStats.flag_at rows 27 = Ok (BudgetStats.overspent_hard bs)
     /\ BudgetStats.money_at rows 29 = Ok (BudgetStats.checking_floor bs)
     /\ BudgetStats.money_at rows 31 = Ok (BudgetStats.free_to_spend bs)
     /\ 32 <= length rows)
  /\ (forall rows i a,
        BudgetStats.money_at rows i = Ok a <->
        exists c, cell0 rows i = Ok c /\ Helpers.parse_money (Some c) = Ok a)
  /\ (forall rows i c,
        cell0 rows i = Ok c -> PyStr.isascii c = true ->
        BudgetStats.flag_at rows i =
        Ok (String.eqb (PyStr.upper (PyStr.strip c)) "TRUE"))
  /\ (forall rows i e,
        cell0 rows i = Err e -> BudgetStats.flag_at rows i = Err e)
  /\ (forall s,
        PyStr.isascii s = true ->
        (String.eqb (PyStr.upper s) "TRUE" = true <->
         exists c1 c2 c3 c4,
           s = String c1 (String c2 (String c3 (String c4 "")))
           /\ letter "T" c1 /\ letter "R" c2 /\ letter "U" c3
           /\ letter "E" c4))
  /\ (forall rows,
        length rows < 32 -> exists e, BudgetStats.from_rows rows = Err e)
  /\ (forall rows,
        length rows < 32 ->
        (forall i, In i text_rows -> i < length rows ->
                   exists c, cell0 rows i = Ok c) ->
        (forall i, In i money_rows -> i < length rows ->
                   exists a, BudgetStats.money_at rows i = Ok a) ->
        BudgetStats.from_rows rows = Err IndexError)
  /\ (forall rows,
        (forall i, In i text_rows -> exists c, cell0 rows i = Ok c) ->
        (forall i, In i money_rows ->
                   exists a, BudgetStats.money_at rows i = Ok a) ->
        exists bs, BudgetStats.from_rows rows = Ok bs).
Proof.
  split.
  { intros rows bs _ H. unfold BudgetStats.from_rows in H.
    inv_binds H. injection H as <-. cbn.
    split; [eauto|].
    repeat (split; [assumption|]).
    eapply money_at_in. eassumption. }
  split.
  { intros rows i a. unfold BudgetStats.money_at. split.
    - intros H. inv_bind H. eauto.
    - intros (c & -> & H). exact H. }
  split.
  { intros rows i c Hc _. apply flag_at_Ok. eauto. }
  split.
  { intros rows i e He. unfold BudgetStats.flag_at. rewrite He. reflexivity. }
  split; [intros s _; exact (upper_TRUE s)|].
  split.
  { intros rows Hshort.
    destruct (BudgetStats.from_rows rows) as [bs|e] eqn:E; [|eauto].
    exfalso. unfold BudgetStats.from_rows in E. inv_binds E.
    match goal with
    | H : BudgetStats.money_at rows 31 = Ok _ |- _ => apply money_at_in in H
    end.
    lia. }
  split.
  { intros rows Hshort Htext Hmoney. unfold BudgetStats.from_rows.
    repeat stats_step rows Hshort Htext Hmoney. }
  intros rows Htext Hmoney. unfold BudgetStats.from_rows.
  destruct (Htext 0 ltac:(simpl; tauto)) as [c0 ->]; cbn [bind].
  repeat (match goal with
          | |- exists _, bind (BudgetStats.money_at rows ?i) _ = _ =>
              let x := fresh "x" in
              destruct (Hmoney i ltac:(simpl; tauto)) as [x ->]; cbn [bind]
          | |- exists _, bind (BudgetStats.flag_at rows ?i) _ = _ =>
              let x := fresh "x" in
              let Hx := fresh "Hx" in
              destruct (Htext i ltac:(simpl; tauto)) as [x Hx];
              rewrite (proj2 (flag_at_Ok rows i _)
                         (ex_intro _ x (conj Hx eq_refl)));
              cbn [bind]
          end).
  eauto.
Qed.

(** C6 on a block of 32 rows, and on its first 20 rows. *)
Lemma C6_budget_stats_fixed_rows_witness :
  (exists bs,
     BudgetStats.from_rows Sample.stats_rows = Ok bs
     /\ BudgetStats.money_at Sample.stats_rows 9 =
        Ok (BudgetStats.total_withheld_required_payments bs)
     /\ BudgetStats.overspent_soft bs = false
     /\ BudgetStats.overspent_hard bs = true)
  /\ BudgetStats.from_rows (firstn 20 Sample.stats_rows) = Err IndexError
  /\ (exists e, BudgetStats.from_rows (firstn 20 Sample.stats_rows) = Err e)
  /\ (exists bs, BudgetStats.from_rows Sample.stats_rows = Ok bs).
Proof.
  destruct C6_budget_stats_fixed_rows
    as (Hfields & _ & _ & _ & _ & Hfails & Hshort & Htotal).
  split; [|split; [|split]].
  - eexists. split; [vm_compute; reflexivity|].
    split; [|split; reflexivity].
    refine (proj1 (proj2 (proj2 (proj2 (proj2
              (Hfields Sample.stats_rows _ _ _)))))).
    + intros i c Hi Hc. simpl in Hi.
      destruct Hi as [<- | [<- | [<- | []]]]; vm_compute in Hc;
        injection Hc as <-; reflexivity.
    + vm_compute. reflexivity.
  - apply Hshort.
    + vm_compute. lia.
    + intros i Hi Hlt. simpl in Hi.
      destruct Hi as [<- | [<- | [<- | []]]];
        try (vm_compute in Hlt; lia); eexists; vm_compute; reflexivity.
    + intros i Hi Hlt. simpl in Hi.
      repeat (destruct Hi as [<- | Hi];
              [try (vm_compute in Hlt; lia); eexists; vm_compute; reflexivity|]).
      destruct Hi.
  - apply Hfails. vm_compute. lia.
  - apply Htotal.
    + intros i Hi. simpl in Hi.
      destruct Hi as [<- | [<- | [<- | []]]]; eexists; vm_compute; reflexivity.
    + intros i Hi. simpl in Hi.
      repeat (destruct Hi as [<- | Hi]; [eexists; vm_compute; reflexivity|]).
      destruct Hi.
Defined.

(** C6 as stated fails: on a block that is too short the error need not
    be the out-of-range one.  With four rows of which the last holds a
    malformed amount, reading the total budget raises [ValueError]
    before any missing row is reached. *)
Lemma C6_short_block_counterexample :
  length [["Checking"]; ["Total"]; []; ["1.2.3"]] < 32
  /\ BudgetStats.from_rows [["Checking"]; ["Total"]; []; ["1.2.3"]] =
     Err ValueError
  /\ BudgetStats.from_rows [["Checking"]; ["Total"]; []; ["1.2.3"]] <>
     Err IndexError.
Proof.
  split; [simpl; lia|].
  split; [vm_compute; reflexivity|].
  vm_compute. discriminate.
Qed.

(* ================================================================== *)
(** * Further properties *)

(** ** fetch_horoscope.py: the sign of a birthday *)

Lemma valid_birthday_listed (day month : Z) :
  valid_birthday day month <-> In (day, month) all_birthdays.
Proof.
  unfold valid_birthday, all_birthdays. rewrite in_flat_map. split.
  - intros [Hm Hd]. exists (Z.to_nat month). split; [apply in_seq; lia|].
    apply in_map_iff. exists (Z.to_nat day).
    replace (Z.to_nat month - 1) with (Z.to_nat (month - 1)) by lia.
    split; [f_equal; lia | apply in_seq; lia].
  - intros (m & Hm & Hd). apply in_seq in Hm. apply in_map_iff in Hd.
    destruct Hd as (d & [= <- <-] & Hd). apply in_seq in Hd.
    replace (Z.to_nat (Z.of_nat m - 1)) with (m - 1) by lia.
    split; lia.
Qed.

Lemma ZodiacSign_eqb_eq (a b : FetchHoroscope.ZodiacSign) :
  ZodiacSign_eqb a b = true <-> a = b.
Proof.
  split; [|intros ->; destruct b; reflexivity].
  destruct a, b; intros H; try reflexivity; discriminate H.
Qed.

(** Outside the days of the months the function raises. *)
Lemma zodiac_invalid (day month : Z) :
  ~ valid_birthday day month ->
  FetchHoroscope._birthday_to_zodiac_sign day month = Err ValueError.
Proof.
  unfold valid_birthday, FetchHoroscope._birthday_to_zodiac_sign. intros H.
  destruct (1 <=? month)%Z eqn:H1; [|reflexivity].
  destruct (month <=? 12)%Z eqn:H12; [|reflexivity].
  apply Z.leb_le in H1, H12. cbn [andb negb].
  unfold index.
  destruct (nth_error FetchHoroscope.days_in_month (Z.to_nat (month - 1)))
    as [last_day|] eqn:E.
  - cbn [bind].
    rewrite (nth_error_nth _ _ 0%Z E) in H.
    destruct (1 <=? day)%Z eqn:Hd1; [|reflexivity].
    destruct (day <=? last_day)%Z eqn:Hd2; [|reflexivity].
    apply Z.leb_le in Hd1, Hd2. exfalso. apply H. lia.
  - apply nth_error_None in E. simpl in E. lia.
Qed.

(** On every pair of integers one of the two. *)
Lemma zodiac_sign_cases (day month : Z) :
  (valid_birthday day month
   /\ exists sign, FetchHoroscope._birthday_to_zodiac_sign day month = Ok sign)
  \/ (~ valid_birthday day month
      /\ FetchHoroscope._birthday_to_zodiac_sign day month = Err ValueError).
Proof.
  assert (Hdec : valid_birthday day month \/ ~ valid_birthday day month).
  { unfold valid_birthday. lia. }
  destruct Hdec as [H | H]; [left | right]; split; try exact H.
  - apply valid_birthday_listed in H.
    assert (Hall : forallb
              (fun dm =>
                 match FetchHoroscope._birthday_to_zodiac_sign (fst dm) (snd dm)
                 with Ok _ => true | Err _ => false end) all_birthdays = true)
      by (vm_compute; reflexivity).
    rewrite forallb_forall in Hall. specialize (Hall _ H). simpl in Hall.
    destruct (FetchHoroscope._birthday_to_zodiac_sign day month);
      [eauto | discriminate].
  - apply zodiac_invalid. exact H.
Qed.

(** X1.  [_birthday_to_zodiac_sign] returns a sign exactly on the days
    of the twelve months, the 29th of February included; on every other
    pair of integers it raises [ValueError].  The [else] branch that
    closes its chain of tests is never taken. *)
Theorem zodiac_sign_defined_on_valid_days :
  forall day month : Z,
    ((exists sign,
        FetchHoroscope._birthday_to_zodiac_sign day month = Ok sign)
     <-> valid_birthday day month)
    /\ (FetchHoroscope._birthday_to_zodiac_sign day month = Err ValueError
        <-> ~ valid_birthday day month)
    /\ (forall e,
          FetchHoroscope._birthday_to_zodiac_sign day month = Err e ->
          e = ValueError).
Proof.
  intros day month.
  destruct (zodiac_sign_cases day month) as [[Hv [sign Hs]] | [Hv He]].
  - rewrite Hs. split; [split; eauto|].
    split; [split; [discriminate | contradiction] | discriminate].
  - rewrite He. split; [split; [intros [sign Hs]; discriminate | contradiction]|].
    split; [tauto | congruence].
Qed.

(** X2.  Going through the year day by day, the sign of a day is the
    sign of the day before or the next sign of the zodiac; the sign
    changes on twelve days of the year, and every sign is the sign of
    some day.  So the twelve ranges of the code cover the year without
    a gap or an overlap, in the order of the zodiac. *)
Theorem zodiac_signs_follow_the_year :
  (forall day month,
     valid_birthday day month ->
     valid_birthday (fst (next_day (day, month))) (snd (next_day (day, month)))
     /\ exists s s',
          FetchHoroscope._birthday_to_zodiac_sign day month = Ok s
          /\ FetchHoroscope._birthday_to_zodiac_sign
               (fst (next_day (day, month))) (snd (next_day (day, month)))
             = Ok s'
          /\ (s' = s \/ s' = next_sign s))
  /\ (forall sign, exists day month,
        FetchHoroscope._birthday_to_zodiac_sign day month = Ok sign)
  /\ length (filter sign_changes all_birthdays) = 12
  /\ length all_birthdays = 366.
Proof.
  split; [|split; [|split; vm_compute; reflexivity]].
  - intros day month H. apply valid_birthday_listed in H.
    assert (Hall : forallb
              (fun dm =>
                 sign_steps dm
                 && existsb (fun dm' => Z.eqb (fst dm') (fst (next_day dm))
                                        && Z.eqb (snd dm') (snd (next_day dm)))
                      all_birthdays) all_birthdays = true)
      by (vm_compute; reflexivity).
    rewrite forallb_forall in Hall. specialize (Hall _ H).
    apply andb_true_iff in Hall. destruct Hall as [Hstep Hnext]. split.
    + apply existsb_exists in Hnext. destruct Hnext as ([d' m'] & Hin & Heq).
      apply andb_true_iff in Heq. destruct Heq as [Hd Hm].
      apply Z.eqb_eq in Hd, Hm. cbn [fst snd] in Hd, Hm.
      rewrite <- Hd, <- Hm. apply valid_birthday_listed. exact Hin.
    + unfold sign_steps in Hstep. cbn [fst snd] in Hstep.
      destruct (FetchHoroscope._birthday_to_zodiac_sign day month) as [s|];
        [|discriminate].
      destruct (FetchHoroscope._birthday_to_zodiac_sign _ _) as [s'|];
        [|discriminate].
      exists s, s'. repeat split.
      apply orb_true_iff in Hstep.
      destruct Hstep as [Hs | Hs]; apply ZodiacSign_eqb_eq in Hs; auto.
  - intros sign.
    destruct sign;
      [ exists 1%Z, 4%Z | exists 1%Z, 5%Z | exists 1%Z, 6%Z | exists 1%Z, 7%Z
      | exists 1%Z, 8%Z | exists 1%Z, 9%Z | exists 1%Z, 10%Z | exists 1%Z, 11%Z
      | exists 1%Z, 12%Z | exists 1%Z, 1%Z | exists 1%Z, 2%Z | exists 1%Z, 3%Z ];
      reflexivity.
Qed.

(** X2 on the last day of the year and on the 21st of December. *)
Lemma zodiac_signs_follow_the_year_witness :
  (valid_birthday 1 1
   /\ exists s s',
        FetchHoroscope._birthday_to_zodiac_sign 31 12 = Ok s
        /\ FetchHoroscope._birthday_to_zodiac_sign 1 1 = Ok s'
        /\ (s' = s \/ s' = next_sign s))
  /\ (valid_birthday 22 12
      /\ exists s s',
           FetchHoroscope._birthday_to_zodiac_sign 21 12 = Ok s
           /\ FetchHoroscope._birthday_to_zodiac_sign 22 12 = Ok s'
           /\ (s' = s \/ s' = next_sign s)).
Proof.
  destruct zodiac_signs_follow_the_year as [Hstep _]. split.
  - apply (Hstep 31%Z 12%Z). unfold valid_birthday. simpl. lia.
  - apply (Hstep 21%Z 12%Z). unfold valid_birthday. simpl. lia.
Defined.

(** ** [str.split] on a separator of one character *)

Section SplitChar.

Variable c : ascii.

Lemma prefix_char (a : ascii) (s : string) :
  prefix (String c "") (String a s) = Ascii.eqb a c.
Proof.
  simpl. destruct (ascii_dec c a) as [<- | Hne].
  - rewrite Ascii.eqb_refl. destruct s; reflexivity.
  - symmetry. apply Ascii.eqb_neq. congruence.
Qed.

Lemma append_assoc (a b d : string) : (a ++ b) ++ d = a ++ (b ++ d).
Proof. induction a as [|x a IH]; simpl; congruence. Qed.

(** A text without the separator is one part. *)
Lemma split_go_without (s : string) :
  count_char c s = 0 ->
  forall cur, PyText.split_go (String c "") s 0 cur = [cur ++ s].
Proof.
  induction s as [|a s IH]; intros H cur.
  - simpl. rewrite append_empty_r. reflexivity.
  - cbn [PyText.split_go]. rewrite prefix_char.
    simpl in H. destruct (Ascii.eqb a c); [discriminate H|].
    rewrite IH by exact H. rewrite append_assoc. reflexivity.
Qed.

(** The first part ends at the first separator. *)
Lemma split_go_at (a : string) :
  count_char c a = 0 ->
  forall b cur,
    PyText.split_go (String c "") (a ++ String c b) 0 cur =
    (cur ++ a) :: PyText.split_go (String c "") b 0 "".
Proof.
  induction a as [|x a IH]; intros H b cur.
  - cbn [append PyText.split_go]. rewrite prefix_char, Ascii.eqb_refl.
    rewrite append_empty_r. reflexivity.
  - cbn [append PyText.split_go]. rewrite prefix_char.
    simpl in H. destruct (Ascii.eqb x c); [discriminate H|].
    rewrite IH by exact H. rewrite append_assoc. reflexivity.
Qed.

(** There is one part more than there are separators. *)
Lemma split_go_length (s : string) :
  forall cur,
    length (PyText.split_go (String c "") s 0 cur) = S (count_char c s).
Proof.
  induction s as [|a s IH]; intros cur; [reflexivity|].
  cbn [PyText.split_go count_char]. rewrite prefix_char.
  destruct (Ascii.eqb a c); simpl; rewrite IH; reflexivity.
Qed.

End SplitChar.

(** ** fetch_horoscope.py: from the birthday text to the request *)

Lemma string_to_birthday_Err (py_int : string -> option Z)
    (birthday : string) (e : exn) :
  FetchHoroscope._string_to_birthday py_int birthday = Err e -> e = ValueError.
Proof.
  unfold FetchHoroscope._string_to_birthday.
  destruct (PyText.split "-" birthday) as [|p0 [|p1 [|p2 [|p3 ps]]]];
    try congruence;
    (destruct (py_int _); [destruct (py_int _)|]; congruence).
Qed.

(** X3.  [_string_to_birthday] takes the day from the last part of the
    text and the month from the part before it, and returns them as
    (day, month); a year in front is never looked at, whatever it is;
    a text with no dash or with more than two dashes raises
    [ValueError] without either number being read. *)
Theorem string_to_birthday_parts :
  forall py_int : string -> option Z,
    (forall month_str day_str,
       count_char "-" month_str = 0 -> count_char "-" day_str = 0 ->
       FetchHoroscope._string_to_birthday py_int (month_str ++ "-" ++ day_str) =
       match py_int day_str, py_int month_str with
       | Some day, Some month => Ok (day, month)
       | _, _ => Err ValueError
       end)
    /\ (forall year_str month_str day_str,
          count_char "-" year_str = 0 ->
          count_char "-" month_str = 0 -> count_char "-" day_str = 0 ->
          FetchHoroscope._string_to_birthday py_int
            (year_str ++ "-" ++ month_str ++ "-" ++ day_str) =
          FetchHoroscope._string_to_birthday py_int
            (month_str ++ "-" ++ day_str))
    /\ (forall birthday,
          count_char "-" birthday <> 1 -> count_char "-" birthday <> 2 ->
          FetchHoroscope._string_to_birthday py_int birthday = Err ValueError)
    /\ (forall birthday e,
          FetchHoroscope._string_to_birthday py_int birthday = Err e ->
          e = ValueError).
Proof.
  intros py_int.
  assert (H2 : forall month_str day_str,
             count_char "-" month_str = 0 -> count_char "-" day_str = 0 ->
             PyText.split "-" (month_str ++ "-" ++ day_str) =
             [month_str; day_str]).
  { intros m d Hm Hd. unfold PyText.split.
    change ("-" ++ d) with (String "-" d).
    rewrite split_go_at by exact Hm. rewrite split_go_without by exact Hd.
    reflexivity. }
  split; [|split; [|split]].
  - intros m d Hm Hd. unfold FetchHoroscope._string_to_birthday.
    rewrite (H2 m d Hm Hd).
    destruct (py_int d); [destruct (py_int m)|]; reflexivity.
  - intros y m d Hy Hm Hd. unfold FetchHoroscope._string_to_birthday.
    rewrite (H2 m d Hm Hd). unfold PyText.split.
    change ("-" ++ m ++ "-" ++ d) with (String "-" (m ++ "-" ++ d)).
    rewrite split_go_at by exact Hy.
    fold (PyText.split "-" (m ++ "-" ++ d)). rewrite (H2 m d Hm Hd).
    reflexivity.
  - intros birthday H1 H2'. unfold FetchHoroscope._string_to_birthday.
    pose proof (split_go_length "-" birthday "") as Hlen.
    fold (PyText.split "-" birthday) in Hlen.
    destruct (PyText.split "-" birthday) as [|p0 [|p1 [|p2 [|p3 ps]]]];
      simpl in Hlen; try reflexivity; lia.
  - intros birthday e. apply string_to_birthday_Err.
Qed.

(** X3 on a birthday with a year that is no number, with [int] reading
    plain digits. *)
Lemma string_to_birthday_parts_witness :
  FetchHoroscope._string_to_birthday
    (fun s => if all_digits s then Some (Z.of_N (numeral s 0)) else None)
    ("year" ++ "-" ++ "05" ++ "-" ++ "17") =
  FetchHoroscope._string_to_birthday
    (fun s => if all_digits s then Some (Z.of_N (numeral s 0)) else None)
    ("05" ++ "-" ++ "17")
  /\ FetchHoroscope._string_to_birthday
       (fun s => if all_digits s then Some (Z.of_N (numeral s 0)) else None)
       "1990/05/17" = Err ValueError.
Proof.
  destruct (string_to_birthday_parts
              (fun s => if all_digits s then Some (Z.of_N (numeral s 0)) else None))
    as (_ & Hyear & Hcount & _).
  split.
  - apply Hyear; reflexivity.
  - apply Hcount; vm_compute; discriminate.
Defined.

(** X4.  [get_horoscope_for_birthday] never raises.  For a birthday
    that does not parse or is no day of a month it returns [None],
    whatever the page source would give, so that nothing is requested;
    for a valid birthday its result is that of the request for the
    sign of that day. *)
Theorem get_horoscope_never_raises :
  forall (_get_and_render : string -> string -> res FetchHoroscope.soup)
         (py_int : string -> option Z) (birthday : string),
    (exists r,
       FetchHoroscope.get_horoscope_for_birthday _get_and_render py_int birthday
       = Ok r)
    /\ ((forall day month,
           FetchHoroscope._string_to_birthday py_int birthday = Ok (day, month) ->
           ~ valid_birthday day month) ->
        FetchHoroscope.get_horoscope_for_birthday _get_and_render py_int birthday
        = Ok None)
    /\ (forall day month sign,
          FetchHoroscope._string_to_birthday py_int birthday = Ok (day, month) ->
          FetchHoroscope._birthday_to_zodiac_sign day month = Ok sign ->
          FetchHoroscope.get_horoscope_for_birthday _get_and_render py_int
            birthday =
          Ok (FetchHoroscope._horoscope_request _get_and_render sign)).
Proof.
  intros render py_int birthday.
  unfold FetchHoroscope.get_horoscope_for_birthday.
  destruct (FetchHoroscope._string_to_birthday py_int birthday) as [[day month]|e]
    eqn:Eb; cbn [bind fst snd].
  - destruct (zodiac_sign_cases day month) as [[Hv [sign Hs]] | [Hv He]].
    + rewrite Hs. split; [eauto|]. split.
      * intros H. exfalso. exact (H day month eq_refl Hv).
      * intros d m s [= <- <-] Hs'. congruence.
    + rewrite He. split; [eauto|]. split; [reflexivity|].
      intros d m s [= <- <-] Hs. congruence.
  - rewrite (string_to_birthday_Err py_int birthday e Eb).
    split; [eauto|]. split; [reflexivity|].
    intros d m s Hd. discriminate.
Qed.

(** X4 on a day of August and on the 30th of February. *)
Lemma get_horoscope_never_raises_witness :
  FetchHoroscope.get_horoscope_for_birthday (fun _ _ => Ok sample_page)
    digits_int "1990-08-01" =
  Ok (Some ("Dear Leo, astrologers say go. Be kind",
            "https://www.astroyogi.com/horoscopes/daily/leo-free-horoscope.aspx"))
  /\ FetchHoroscope.get_horoscope_for_birthday (fun _ _ => Ok sample_page)
       digits_int "02-30" = Ok None.
Proof.
  split.
  - exact (proj2 (proj2 (get_horoscope_never_raises
                           (fun _ _ => Ok sample_page) digits_int "1990-08-01"))
             1%Z 8%Z FetchHoroscope.LEO eq_refl eq_refl).
  - apply (proj1 (proj2 (get_horoscope_never_raises
                           (fun _ _ => Ok sample_page) digits_int "02-30"))).
    intros day month H. vm_compute in H. injection H as <- <-.
    unfold valid_birthday. simpl. lia.
Defined.

(** ** send_budget_reminder.py: the category table *)

Section CategoryTable.

Lemma existsb_eqb_In (k : string) (l : list string) :
  existsb (String.eqb k) l = true <-> In k l.
Proof.
  rewrite existsb_exists. split.
  - intros (x & Hx & Heq). apply String.eqb_eq in Heq. congruence.
  - intros H. exists k. split; [exact H | apply String.eqb_refl].
Qed.

Lemma existsb_eqb_not_In (k : string) (l : list string) :
  existsb (String.eqb k) l = false <-> ~ In k l.
Proof.
  rewrite <- existsb_eqb_In. destruct (existsb (String.eqb k) l); split;
    congruence.
Qed.

Lemma keys_of_set_empty (d : Categories.dict) (key : string) :
  map fst (Categories.set_empty d key) =
  if existsb (String.eqb key) (map fst d) then map fst d
  else (map fst d ++ [key])%list.
Proof.
  induction d as [|[k v] d IH]; simpl; [reflexivity|].
  rewrite (String.eqb_sym key k).
  destruct (String.eqb k key); simpl; [reflexivity|].
  rewrite IH. destruct (existsb (String.eqb key) (map fst d)); reflexivity.
Qed.

Lemma values_of_set_empty (d : Categories.dict) (key : string) :
  Forall (fun kv => snd kv = []) d ->
  Forall (fun kv => snd kv = []) (Categories.set_empty d key).
Proof.
  induction 1 as [|[k v] d Hv Hd IH]; simpl.
  - repeat constructor.
  - destruct (String.eqb k key); constructor; simpl in *; auto.
Qed.

Lemma keys_of_init_from (keys : list string) :
  forall d,
    map fst (fold_left Categories.set_empty keys d) =
    fold_left
      (fun acc k => if existsb (String.eqb k) acc then acc else (acc ++ [k])%list)
      keys (map fst d).
Proof.
  induction keys as [|k keys IH]; intros d; simpl; [reflexivity|].
  rewrite IH, keys_of_set_empty. reflexivity.
Qed.

Lemma values_of_init_from (keys : list string) :
  forall d,
    Forall (fun kv => snd kv = []) d ->
    Forall (fun kv => snd kv = []) (fold_left Categories.set_empty keys d).
Proof.
  induction keys as [|k keys IH]; intros d H; simpl; [exact H|].
  apply IH, values_of_set_empty, H.
Qed.

Lemma first_occurrences_from (keys : list string) :
  forall acc,
    NoDup acc ->
    let r := fold_left
               (fun acc k =>
                  if existsb (String.eqb k) acc then acc else (acc ++ [k])%list)
               keys acc in
    NoDup r /\ forall k, In k r <-> In k acc \/ In k keys.
Proof.
  induction keys as [|k keys IH]; intros acc Hnd; simpl.
  - split; [exact Hnd | tauto].
  - destruct (existsb (String.eqb k) acc) eqn:E.
    + apply existsb_eqb_In in E. destruct (IH acc Hnd) as [H1 H2].
      split; [exact H1|]. intros x. rewrite H2.
      split; [tauto|]. intros [H | [<- | H]]; auto.
    + apply existsb_eqb_not_In in E.
      assert (Hnd' : NoDup (acc ++ [k])).
      { apply NoDup_app; [exact Hnd | repeat constructor; simpl; tauto|].
        intros x Hx [<- | []]. exact (E Hx). }
      destruct (IH _ Hnd') as [H1 H2]. split; [exact H1|].
      intros x. rewrite H2, in_app_iff. simpl. tauto.
Qed.

Lemma keys_of_append (d : Categories.dict) (key value : string) :
  map fst (Categories.append d key value) = map fst d.
Proof.
  induction d as [|[k v] d IH]; simpl; [reflexivity|].
  destruct (String.eqb k key); simpl; congruence.
Qed.

(** Appending under a key that is there adds that one entry. *)
Lemma listed_append (d : Categories.dict) (k v : string) :
  In k (map fst d) ->
  forall key value,
    listed (Categories.append d k v) key value <->
    listed d key value \/ (key = k /\ value = v).
Proof.
  unfold listed. induction d as [|[k0 l0] d IH]; intros Hk key value.
  - destruct Hk.
  - cbn [Categories.append]. destruct (String.eqb k0 k) eqn:E.
    + apply String.eqb_eq in E. subst k0. split.
      * intros (l & [[= <- <-] | Hin] & Hv).
        -- apply in_app_iff in Hv. destruct Hv as [Hv | [<- | []]].
           ++ left. exists l0. split; [left; reflexivity | exact Hv].
           ++ right. split; reflexivity.
        -- left. exists l. split; [right; exact Hin | exact Hv].
      * intros [(l & [[= <- <-] | Hin] & Hv) | [-> ->]].
        -- exists (l0 ++ [v])%list. split; [left; reflexivity|].
           apply in_app_iff. left. exact Hv.
        -- exists l. split; [right; exact Hin | exact Hv].
        -- exists (l0 ++ [v])%list. split; [left; reflexivity|].
           apply in_app_iff. right. left. reflexivity.
    + apply String.eqb_neq in E.
      assert (Hk' : In k (map fst d)).
      { destruct Hk as [Hk | Hk]; [simpl in Hk; congruence | exact Hk]. }
      specialize (IH Hk' key value). split.
      * intros (l & [[= <- <-] | Hin] & Hv).
        -- left. exists l0. split; [left; reflexivity | exact Hv].
        -- destruct (proj1 IH (ex_intro _ l (conj Hin Hv)))
             as [(l' & Hin' & Hv') | Heq].
           ++ left. exists l'. split; [right; exact Hin' | exact Hv'].
           ++ right. exact Heq.
      * intros [(l & [[= <- <-] | Hin] & Hv) | Heq].
        -- exists l0. split; [left; reflexivity | exact Hv].
        -- destruct (proj2 IH (or_introl (ex_intro _ l (conj Hin Hv))))
             as (l' & Hin' & Hv').
           exists l'. split; [right; exact Hin' | exact Hv'].
        -- destruct (proj2 IH (or_intror Heq)) as (l' & Hin' & Hv').
           exists l'. split; [right; exact Hin' | exact Hv'].
Qed.

Lemma truthy_nonempty (s : string) : PyStr.truthy s = true <-> s <> "".
Proof. destruct s; simpl; split; congruence. Qed.

(** One pass of the inner loop over some pairs whose keys are there. *)
Lemma listed_add_pairs (pairs : list (string * string)) :
  forall d,
    (forall kv, In kv pairs -> In (fst kv) (map fst d)) ->
    let d' := fold_left
                (fun d kv =>
                   if PyStr.truthy (snd kv)
                   then Categories.append d (fst kv) (snd kv) else d)
                pairs d in
    map fst d' = map fst d
    /\ forall key value,
         listed d' key value <->
         listed d key value \/ (value <> "" /\ In (key, value) pairs).
Proof.
  induction pairs as [|[k v] pairs IH]; intros d Hkeys; cbn [fold_left].
  - split; [reflexivity|]. intros key value. simpl. tauto.
  - cbn [fst snd].
    assert (Hk : In k (map fst d)) by (apply (Hkeys (k, v)); left; reflexivity).
    destruct (PyStr.truthy v) eqn:Ev.
    + destruct (IH (Categories.append d k v)) as [H1 H2].
      { intros kv Hkv. rewrite keys_of_append. apply Hkeys. right. exact Hkv. }
      split; [rewrite H1; apply keys_of_append|].
      intros key value. rewrite H2, (listed_append d k v Hk).
      apply truthy_nonempty in Ev. simpl. split.
      * intros [[H | [-> ->]] | [Hne Hin]]; auto.
      * intros [H | [Hne [[= -> ->] | Hin]]]; auto.
    + destruct (IH d) as [H1 H2].
      { intros kv Hkv. apply Hkeys. right. exact Hkv. }
      split; [exact H1|]. intros key value. rewrite H2. simpl.
      split; [tauto|]. intros [H | [Hne [[= -> ->] | Hin]]]; auto.
      destruct value; [congruence | discriminate Ev].
Qed.

(** A row changes no key: every key it appends under is there. *)
Lemma keys_of_add_row (keys : list string) (d : Categories.dict)
    (row : list string) :
  (forall k, In k keys -> In k (map fst d)) ->
  map fst (Categories.add_row keys d row) = map fst d
  /\ forall key value,
       listed (Categories.add_row keys d row) key value <->
       listed d key value \/ (value <> "" /\ In (key, value) (combine keys row)).
Proof.
  intros Hkeys. apply listed_add_pairs.
  intros [k v] Hkv. apply in_combine_l in Hkv. apply Hkeys. exact Hkv.
Qed.

Lemma listed_add_rows (keys : list string) (rows : rows_t) :
  forall d,
    (forall k, In k keys -> In k (map fst d)) ->
    let d' := fold_left (Categories.add_row keys) rows d in
    map fst d' = map fst d
    /\ forall key value,
         listed d' key value <->
         listed d key value
         \/ (value <> ""
             /\ exists row, In row rows /\ In (key, value) (combine keys row)).
Proof.
  induction rows as [|row rows IH]; intros d Hkeys; cbn [fold_left].
  - split; [reflexivity|]. intros key value. split; [tauto|].
    intros [H | (_ & row & [] & _)]. exact H.
  - destruct (keys_of_add_row keys d row Hkeys) as [H1 H2].
    destruct (IH (Categories.add_row keys d row)) as [H3 H4].
    { intros k Hk. rewrite H1. apply Hkeys, Hk. }
    split; [congruence|]. intros key value. rewrite H4, H2. split.
    + intros [[H | [Hne Hin]] | (Hne & r & Hr & Hin)]; auto.
      * right. split; [exact Hne|]. exists row. split; [left; reflexivity | exact Hin].
      * right. split; [exact Hne|]. exists r. split; [right; exact Hr | exact Hin].
    + intros [H | (Hne & r & [<- | Hr] & Hin)]; auto.
      right. split; [exact Hne|]. exists r. split; assumption.
Qed.

End CategoryTable.

(** What a built table holds. *)
Lemma cat2subcat_Ok (categories_sheet : rows_t) (d : Categories.dict) :
  Categories.cat2subcat categories_sheet = Ok d ->
  exists keys,
    index categories_sheet 0 = Ok keys
    /\ map fst d = first_occurrences keys
    /\ NoDup (map fst d)
    /\ (forall k, In k (map fst d) <-> In k keys)
    /\ forall key value,
         listed d key value <->
         value <> ""
         /\ exists row,
              In row (tl categories_sheet)
              /\ In (key, value) (combine keys row).
Proof.
  intros H. unfold Categories.cat2subcat in H. inv_bind H.
  rename a into keys. exists keys. split; [exact Ha|].
  injection H as <-.
  assert (Hinit : map fst (Categories.init keys) = first_occurrences keys).
  { unfold Categories.init. rewrite keys_of_init_from. reflexivity. }
  destruct (first_occurrences_from keys [] (NoDup_nil _)) as [Hnd Hin].
  fold (first_occurrences keys) in Hnd, Hin.
  assert (Hkeys : forall k, In k keys -> In k (map fst (Categories.init keys))).
  { intros k Hk. rewrite Hinit. apply Hin. right. exact Hk. }
  destruct (listed_add_rows keys (tl categories_sheet) (Categories.init keys) Hkeys)
    as [H1 H2].
  rewrite H1, Hinit. split; [reflexivity|]. split; [exact Hnd|].
  split; [intros k; rewrite Hin; simpl; tauto|].
  intros key value. rewrite H2. split; [|tauto].
  intros [(l & Hl & Hv) | H]; [exfalso | exact H].
  assert (Hempty : Forall (fun kv => snd kv = []) (Categories.init keys)).
  { apply values_of_init_from. constructor. }
  rewrite Forall_forall in Hempty. specialize (Hempty _ Hl). simpl in Hempty.
  subst l. destruct Hv.
Qed.

(** X5.  The category table of [main]: its keys are the texts of the
    header row, each once and in the order in which it comes first; a
    text is stored under a key exactly when it is not empty and stands,
    in some row below the header, in a column whose header is that key
    (cells beyond the header's width are not read, and the columns of a
    repeated header are merged).  The one error is [IndexError], on a
    sheet without a row. *)
Theorem cat2subcat_table :
  (forall categories_sheet d,
     Categories.cat2subcat categories_sheet = Ok d ->
     exists keys,
       index categories_sheet 0 = Ok keys
       /\ map fst d = first_occurrences keys
       /\ NoDup (map fst d)
       /\ (forall k, In k (map fst d) <-> In k keys)
       /\ forall key value,
            listed d key value <->
            value <> ""
            /\ exists row,
                 In row (tl categories_sheet)
                 /\ In (key, value) (combine keys row))
  /\ Categories.cat2subcat [] = Err IndexError
  /\ (forall keys rows, exists d,
        Categories.cat2subcat (keys :: rows) = Ok d).
Proof.
  split; [|split; [reflexivity | intros; eexists; reflexivity]].
  intros sheet d H. apply cat2subcat_Ok. exact H.
Qed.

(** X5 on a sheet with a repeated header and an empty cell. *)
Lemma cat2subcat_table_witness :
  exists keys,
    index [["Home"; "Fun"; "Home"]; ["Rent"; "Trips"; "Power"]; [""; "Cinema"]] 0
      = Ok keys
    /\ map fst [("Home", ["Rent"; "Power"]); ("Fun", ["Trips"; "Cinema"])] =
       first_occurrences keys
    /\ NoDup (map fst [("Home", ["Rent"; "Power"]); ("Fun", ["Trips"; "Cinema"])])
    /\ (forall k,
          In k (map fst [("Home", ["Rent"; "Power"]); ("Fun", ["Trips"; "Cinema"])])
          <-> In k keys)
    /\ forall key value,
         listed [("Home", ["Rent"; "Power"]); ("Fun", ["Trips"; "Cinema"])]
           key value <->
         value <> ""
         /\ exists row,
              In row (tl [["Home"; "Fun"; "Home"]; ["Rent"; "Trips"; "Power"];
                          [""; "Cinema"]])
              /\ In (key, value) (combine keys row).
Proof.
  destruct cat2subcat_table as [H _].
  apply (H [["Home"; "Fun"; "Home"]; ["Rent"; "Trips"; "Power"]; [""; "Cinema"]]).
  vm_compute. reflexivity.
Defined.

(** ** primitives.py: the category of a recurring budget *)

Lemma find_category_Some (d : list (string * list string))
    (sub cat : string) :
  Budget.find_category d sub = Some cat <->
  exists pre subs post,
    d = (pre ++ (cat, subs) :: post)%list
    /\ In sub subs
    /\ forall kv, In kv pre -> ~ In sub (snd kv).
Proof.
  induction d as [|[k l] d IH]; cbn [Budget.find_category].
  - split; [discriminate|]. intros (pre & subs & post & H & _).
    destruct pre; discriminate H.
  - destruct (existsb (String.eqb sub) l) eqn:E.
    + apply existsb_eqb_In in E. split.
      * intros [= <-]. exists [], l, d. split; [reflexivity|].
        split; [exact E | intros kv []].
      * intros (pre & subs & post & H & Hin & Hpre).
        destruct pre as [|kv pre]; simpl in H.
        -- injection H as -> -> ->. reflexivity.
        -- injection H as <- ->. exfalso.
           apply (Hpre (k, l)); [left; reflexivity | exact E].
    + apply existsb_eqb_not_In in E. rewrite IH. split.
      * intros (pre & subs & post & -> & Hin & Hpre).
        exists ((k, l) :: pre), subs, post. split; [reflexivity|].
        split; [exact Hin|]. intros kv [<- | Hkv]; [exact E | auto].
      * intros (pre & subs & post & H & Hin & Hpre).
        destruct pre as [|kv pre]; simpl in H.
        -- injection H as -> -> ->. contradiction.
        -- injection H as <- ->. exists pre, subs, post.
           split; [reflexivity|]. split; [exact Hin|].
           intros kv Hkv. apply Hpre. right. exact Hkv.
Qed.

Lemma find_category_None (d : list (string * list string)) (sub : string) :
  Budget.find_category d sub = None <->
  forall kv, In kv d -> ~ In sub (snd kv).
Proof.
  induction d as [|[k l] d IH]; cbn [Budget.find_category].
  - split; [intros _ kv [] | reflexivity].
  - destruct (existsb (String.eqb sub) l) eqn:E.
    + apply existsb_eqb_In in E. split; [discriminate|].
      intros H. exfalso. apply (H (k, l)); [left; reflexivity | exact E].
    + apply existsb_eqb_not_In in E. rewrite IH. split.
      * intros H kv [<- | Hkv]; [exact E | auto].
      * intros H kv Hkv. apply H. right. exact Hkv.
Qed.

Lemma from_recurring_budget_row_Ok
    (py_float : string -> res F64.float) (strptime_mdY : string -> res date)
    (cat2subcat : list (string * list string)) (row : list string)
    (b : Budget.t) :
  Budget.from_recurring_budget_row py_float strptime_mdY cat2subcat row
    = Ok b ->
  exists c0,
    cell row 0 = Ok c0
    /\ Budget.subcategory b = Some (PyStr.strip c0)
    /\ Budget.category b <> ""
    /\ Budget.find_category cat2subcat (PyStr.strip c0)
       = Some (Budget.category b).
Proof.
  intros H. unfold Budget.from_recurring_budget_row in H. inv_binds H.
  destruct (Budget.find_category cat2subcat (PyStr.strip a)) as [cat|] eqn:Ef;
    [|discriminate H].
  destruct (PyStr.truthy cat) eqn:Et; [|discriminate H].
  simpl in H. injection H as <-. cbn [Budget.subcategory Budget.category].
  exists a. split; [assumption|]. split; [reflexivity|].
  split; [apply truthy_nonempty; exact Et | exact Ef].
Qed.

(** X6.  The category of a recurring budget is the first key of the
    table, in the table's order, whose list holds the stripped first
    cell of the row; that cell is kept as the subcategory.  A row whose
    subcategory stands in no list, or stands first under the empty key,
    gives no budget: once its cells are read and parsed the mapper
    raises [Exception] (an empty key is treated like no key, although a
    later key may list the subcategory too); the cells that are
    stripped and looked at are ASCII texts there. *)
Theorem recurring_budget_category
    (py_float : string -> res F64.float) (strptime_mdY : string -> res date)
    (cat2subcat : list (string * list string)) :
  (forall row b,
     Budget.from_recurring_budget_row py_float strptime_mdY cat2subcat row
       = Ok b ->
     exists c0 pre subs post,
       cell row 0 = Ok c0
       /\ Budget.subcategory b = Some (PyStr.strip c0)
       /\ Budget.category b <> ""
       /\ cat2subcat = (pre ++ (Budget.category b, subs) :: post)%list
       /\ In (PyStr.strip c0) subs
       /\ forall kv, In kv pre -> ~ In (PyStr.strip c0) (snd kv))
  /\ (forall c0 c1 c2 c3 c4 c5 c6 c7 rest amount timeframe day,
        PyStr.isascii c0 = true -> PyStr.isascii c7 = true ->
        Helpers.parse_money (Some c2) = Ok amount ->
        py_float c3 = Ok timeframe ->
        strptime_mdY (PyStr.strip c7) = Ok day ->
        (forall kv, In kv cat2subcat -> ~ In (PyStr.strip c0) (snd kv))
        \/ (exists pre subs post,
              cat2subcat = (pre ++ ("", subs) :: post)%list
              /\ In (PyStr.strip c0) subs
              /\ forall kv, In kv pre -> ~ In (PyStr.strip c0) (snd kv)) ->
        Budget.from_recurring_budget_row py_float strptime_mdY cat2subcat
          (c0 :: c1 :: c2 :: c3 :: c4 :: c5 :: c6 :: c7 :: rest)
        = Err Exception_).
Proof.
  split.
  - intros row b H.
    destruct (from_recurring_budget_row_Ok _ _ _ _ _ H)
      as (c0 & Hc0 & Hsub & Hne & Hfind).
    apply find_category_Some in Hfind.
    destruct Hfind as (pre & subs & post & Hd & Hin & Hpre).
    exists c0, pre, subs, post. repeat (split; [assumption|]). assumption.
  - intros c0 c1 c2 c3 c4 c5 c6 c7 rest amount timeframe day _ _ Hm Hf Hd Hcat.
    unfold Budget.from_recurring_budget_row, cell. cbn [index nth_error bind].
    rewrite Hm. cbn [bind]. rewrite Hf. cbn [bind]. rewrite Hd. cbn [bind].
    destruct Hcat as [Hnone | Hempty].
    + apply find_category_None in Hnone. rewrite Hnone. reflexivity.
    + apply find_category_Some in Hempty. rewrite Hempty. reflexivity.
Qed.

(** X6 on the sample table: a row that is found, and one whose
    subcategory no list holds. *)
Lemma recurring_budget_category_witness :
  (exists c0 pre subs post,
     cell ["Trips"; "summer"; "$100"; "30"; "TRUE"; "Savings"; ""; "738003"] 0
       = Ok c0
     /\ Some "Trips" = Some (PyStr.strip c0)
     /\ "Fun" <> ""
     /\ Sample.cat2subcat = (pre ++ ("Fun", subs) :: post)%list
     /\ In (PyStr.strip c0) subs
     /\ forall kv, In kv pre -> ~ In (PyStr.strip c0) (snd kv))
  /\ Budget.from_recurring_budget_row Sample.float_of_digits
       Sample.date_of_digits Sample.cat2subcat
       ["Gym"; "club"; "$30"; "30"; "TRUE"; "Checking"; ""; "738003"]
     = Err Exception_.
Proof.
  destruct (recurring_budget_category Sample.float_of_digits
              Sample.date_of_digits Sample.cat2subcat) as [Hok Herr].
  split.
  - exact (Hok ["Trips"; "summer"; "$100"; "30"; "TRUE"; "Savings"; ""; "738003"]
             (Budget.mk "Fun" (Some "Trips") (F64.of_decimal false 100 0)
                (F64.of_decimal false 30 0) "summer" Saving (Some "Savings")
                (Some 738003%positive))
             eq_refl).
  - apply (Herr "Gym" "club" "$30" "30" "TRUE" "Checking" "" "738003" []
             (F64.of_decimal false 30 0) (F64.of_decimal false 30 0)
             738003%positive); try reflexivity.
    left. intros kv [<- | [<- | []]]; simpl; intros H;
      repeat (destruct H as [H | H]; [discriminate H|]); exact H.
Defined.

(** X7.  From the category sheet to a recurring budget: with the table
    built from the sheet, the category of every budget the mapper
    returns is a non-empty text of the header row, its subcategory is
    not empty, and the subcategory stands in some row below the header
    in a column headed by that category. *)
Theorem recurring_budget_on_sheet
    (py_float : string -> res F64.float) (strptime_mdY : string -> res date)
    (categories_sheet : rows_t) (cat2subcat : Categories.dict)
    (row : list string) (b : Budget.t)
    (Htable : Categories.cat2subcat categories_sheet = Ok cat2subcat)
    (Hrow : Budget.from_recurring_budget_row py_float strptime_mdY
              cat2subcat row = Ok b) :
  exists keys c0 sheet_row,
    index categories_sheet 0 = Ok keys
    /\ cell row 0 = Ok c0
    /\ Budget.subcategory b = Some (PyStr.strip c0)
    /\ PyStr.strip c0 <> ""
    /\ Budget.category b <> ""
    /\ In (Budget.category b) keys
    /\ In sheet_row (tl categories_sheet)
    /\ In (Budget.category b, PyStr.strip c0) (combine keys sheet_row).
Proof.
  destruct (cat2subcat_Ok _ _ Htable) as (keys & Hkeys & _ & _ & _ & Hlisted).
  destruct (from_recurring_budget_row_Ok _ _ _ _ _ Hrow)
    as (c0 & Hc0 & Hsub & Hne & Hfind).
  apply find_category_Some in Hfind.
  destruct Hfind as (pre & subs & post & Hd & Hin & _).
  assert (Hl : listed cat2subcat (Budget.category b) (PyStr.strip c0)).
  { exists subs. split; [|exact Hin]. rewrite Hd. apply in_app_iff.
    right. left. reflexivity. }
  apply Hlisted in Hl. destruct Hl as (Hvalue & sheet_row & Hsheet & Hcomb).
  exists keys, c0, sheet_row. repeat (split; [assumption|]).
  split; [exact (in_combine_l _ _ _ _ Hcomb)|]. split; assumption.
Qed.

(** X7 on the sample sheet and its second recurring row. *)
Lemma recurring_budget_on_sheet_witness :
  exists keys c0 sheet_row,
    index sample_categories_sheet 0 = Ok keys
    /\ cell ["Trips"; "summer"; "$100"; "30"; "TRUE"; "Savings"; ""; "738003"] 0
       = Ok c0
    /\ Some "Trips" = Some (PyStr.strip c0)
    /\ PyStr.strip c0 <> ""
    /\ "Fun" <> ""
    /\ In "Fun" keys
    /\ In sheet_row (tl sample_categories_sheet)
    /\ In ("Fun", PyStr.strip c0) (combine keys sheet_row).
Proof.
  exact (recurring_budget_on_sheet
           Sample.float_of_digits Sample.date_of_digits
           sample_categories_sheet
           [("Home", ["Rent"; "Power"]); ("Fun", ["Trips"; "Cinema"])]
           ["Trips"; "summer"; "$100"; "30"; "TRUE"; "Savings"; ""; "738003"]
           (Budget.mk "Fun" (Some "Trips") (F64.of_decimal false 100 0)
              (F64.of_decimal false 30 0) "summer" Saving (Some "Savings")
              (Some 738003%positive))
           eq_refl eq_refl).
Defined.

(** ** fetch_horoscope.py: the request *)

Lemma split_go_cur (sep s : string) :
  forall skip cur,
    PyText.split_go sep s skip cur =
    match PyText.split_go sep s skip "" with
    | h :: t => (cur ++ h) :: t
    | [] => [cur]
    end.
Proof.
  induction s as [|c s IH]; intros skip cur.
  - simpl. rewrite append_empty_r. reflexivity.
  - cbn [PyText.split_go]. destruct skip as [|k]; [|apply IH].
    destruct (prefix sep (String c s)).
    + rewrite append_empty_r. reflexivity.
    + rewrite (IH 0 (cur ++ String c "")), (IH 0 ("" ++ String c "")).
      destruct (PyText.split_go sep s 0 ""); [reflexivity|].
      rewrite append_assoc. reflexivity.
Qed.

Lemma startswith_app (p s : string) :
  PyText.startswith s p = true <-> exists r, s = p ++ r.
Proof.
  unfold PyText.startswith. revert s.
  induction p as [|a p IH]; intros s.
  - split; [intros _; exists s; reflexivity | intros _; destruct s; reflexivity].
  - destruct s as [|b s]; simpl.
    + split; [discriminate | intros [r Hr]; discriminate Hr].
    + destruct (ascii_dec a b) as [<- | Hne].
      * rewrite IH. split; intros [r Hr]; exists r; congruence.
      * split; [discriminate | intros [r [= Hab _]]; congruence].
Qed.

(** The polished text still starts with its address. *)
Lemma polish_Dear (txt : string) :
  PyText.startswith txt "Dear " = true ->
  PyText.startswith (FetchHoroscope.polish txt) "Dear " = true.
Proof.
  intros H. apply startswith_app in H. destruct H as [r ->].
  apply startswith_app. unfold FetchHoroscope.polish.
  assert (Hr : PyText.replace "Astroyogi a" "a" ("Dear " ++ r) =
               "Dear " ++ PyText.replace "Astroyogi a" "a" r) by reflexivity.
  rewrite Hr. set (r' := PyText.replace "Astroyogi a" "a" r).
  assert (Hs : PyText.split ". " ("Dear " ++ r') =
               PyText.split_go ". " r' 0 "Dear ") by reflexivity.
  rewrite Hs, split_go_cur.
  destruct (PyText.split_go ". " r' 0 "") as [|h t]; cbn [map].
  - exists "". reflexivity.
  - assert (Hu : PyText.upper_first ("Dear " ++ h) = "Dear " ++ h) by reflexivity.
    rewrite Hu. destruct t as [|h' t].
    + exists h. reflexivity.
    + cbn [map PyText.join]. rewrite append_assoc. eexists. reflexivity.
Qed.

Lemma find_horoscope_Some (paragraphs : list (list FetchHoroscope.child))
    (text : string) :
  FetchHoroscope.find_horoscope paragraphs = Some text <->
  exists pre p post txt,
    paragraphs = (pre ++ p :: post)%list
    /\ FetchHoroscope.first_child_text p = Some txt
    /\ PyText.startswith txt "Dear " = true
    /\ text = FetchHoroscope.polish txt
    /\ forall q t,
         In q pre -> FetchHoroscope.first_child_text q = Some t ->
         PyText.startswith t "Dear " = false.
Proof.
  induction paragraphs as [|p0 ps IH]; cbn [FetchHoroscope.find_horoscope].
  - split; [discriminate|]. intros (pre & p & post & txt & H & _).
    destruct pre; discriminate H.
  - assert (Hskip :
      (forall t, FetchHoroscope.first_child_text p0 = Some t ->
                 PyText.startswith t "Dear " = false) ->
      (FetchHoroscope.find_horoscope ps = Some text <->
       exists pre p post txt,
         p0 :: ps = (pre ++ p :: post)%list
         /\ FetchHoroscope.first_child_text p = Some txt
         /\ PyText.startswith txt "Dear " = true
         /\ text = FetchHoroscope.polish txt
         /\ forall q t,
              In q pre -> FetchHoroscope.first_child_text q = Some t ->
              PyText.startswith t "Dear " = false)).
    { intros Hno. rewrite IH. split.
      - intros (pre & p & post & txt & -> & Hp & Hd & Ht & Hpre).
        exists (p0 :: pre), p, post, txt. repeat (split; [assumption || reflexivity|]).
        intros q t [<- | Hq] Hqt; [apply Hno; exact Hqt | eapply Hpre; eassumption].
      - intros (pre & p & post & txt & Heq & Hp & Hd & Ht & Hpre).
        destruct pre as [|q pre]; simpl in Heq.
        + injection Heq as <- ->. rewrite (Hno _ Hp) in Hd. discriminate.
        + injection Heq as <- ->. exists pre, p, post, txt.
          repeat (split; [assumption || reflexivity|]).
          intros q t Hq. apply Hpre. right. exact Hq. }
    destruct (FetchHoroscope.first_child_text p0) as [t0|] eqn:E0.
    + destruct (PyText.startswith t0 "Dear ") eqn:Ed.
      * split.
        -- intros [= <-]. exists [], p0, ps, t0.
           repeat (split; [assumption || reflexivity|]). intros q t [].
        -- intros (pre & p & post & txt & Heq & Hp & Hd & Ht & Hpre).
           destruct pre as [|q pre]; simpl in Heq.
           ++ injection Heq as <- ->. congruence.
           ++ injection Heq as <- ->.
              rewrite (Hpre p0 t0 (or_introl eq_refl) E0) in Ed. discriminate.
      * apply Hskip. intros t [= <-]. exact Ed.
    + apply Hskip. intros t Ht. discriminate.
Qed.

(** X8.  What [_horoscope_request] returns.  A result is the address
    that was asked for together with a text that starts with ["Dear "];
    on a page whose texts are ASCII it is the polished first text of
    the first paragraph of the content division whose first text starts
    so.  The address depends on the sign alone, has no upper-case
    letter and differs from sign to sign.  Whatever the page source
    raises, and a page without the division, give [None]. *)
Theorem horoscope_request_result :
  forall (_get_and_render : string -> string -> res FetchHoroscope.soup)
         (sign : FetchHoroscope.ZodiacSign),
    (forall text url,
       FetchHoroscope._horoscope_request _get_and_render sign = Some (text, url) ->
       url = FetchHoroscope.horoscope_url sign
       /\ PyText.startswith text "Dear " = true)
    /\ (forall text url,
       (forall page,
          _get_and_render (FetchHoroscope.horoscope_url sign) "div.content-page"
          = Ok page -> ascii_soup page = true) ->
       FetchHoroscope._horoscope_request _get_and_render sign = Some (text, url) ->
       exists page pre p post txt,
            _get_and_render url "div.content-page" = Ok page
            /\ FetchHoroscope.content_div page = Some (pre ++ p :: post)%list
            /\ FetchHoroscope.first_child_text p = Some txt
            /\ PyText.startswith txt "Dear " = true
            /\ text = FetchHoroscope.polish txt
            /\ forall q t,
                 In q pre -> FetchHoroscope.first_child_text q = Some t ->
                 PyText.startswith t "Dear " = false)
    /\ (forall e,
          _get_and_render (FetchHoroscope.horoscope_url sign) "div.content-page"
          = Err e ->
          FetchHoroscope._horoscope_request _get_and_render sign = None)
    /\ (forall page,
          _get_and_render (FetchHoroscope.horoscope_url sign) "div.content-page"
          = Ok page ->
          FetchHoroscope.content_div page = None ->
          FetchHoroscope._horoscope_request _get_and_render sign = None)
    /\ no_upper (FetchHoroscope.horoscope_url sign) = true
    /\ (forall sign',
          FetchHoroscope.horoscope_url sign = FetchHoroscope.horoscope_url sign' ->
          sign = sign').
Proof.
  intros render sign.
  assert (Hfound : forall text url,
            FetchHoroscope._horoscope_request render sign = Some (text, url) ->
            url = FetchHoroscope.horoscope_url sign
            /\ exists page pre p post txt,
                 render url "div.content-page" = Ok page
                 /\ FetchHoroscope.content_div page = Some (pre ++ p :: post)%list
                 /\ FetchHoroscope.first_child_text p = Some txt
                 /\ PyText.startswith txt "Dear " = true
                 /\ text = FetchHoroscope.polish txt
                 /\ forall q t,
                      In q pre -> FetchHoroscope.first_child_text q = Some t ->
                      PyText.startswith t "Dear " = false).
  { intros text url H. unfold FetchHoroscope._horoscope_request in H.
    destruct (render (FetchHoroscope.horoscope_url sign) "div.content-page")
      as [page|e] eqn:Er; [|discriminate H].
    destruct (FetchHoroscope.content_div page) as [paragraphs|] eqn:Ec;
      [|discriminate H].
    destruct (FetchHoroscope.find_horoscope paragraphs) as [found|] eqn:Ef;
      [|discriminate H].
    injection H as <- <-. split; [reflexivity|].
    apply find_horoscope_Some in Ef.
    destruct Ef as (pre & p & post & txt & -> & Hp & Hd & -> & Hpre).
    exists page, pre, p, post, txt.
    repeat (split; [assumption || reflexivity|]). exact Hpre. }
  split; [|split; [|split; [|split; [|split]]]].
  - intros text url H.
    destruct (Hfound text url H)
      as (Hurl & page & pre & p & post & txt & _ & _ & _ & Hd & -> & _).
    split; [exact Hurl | apply polish_Dear; exact Hd].
  - intros text url _ H. exact (proj2 (Hfound text url H)).
  - intros e He. unfold FetchHoroscope._horoscope_request. rewrite He.
    reflexivity.
  - intros page Hp Hc. unfold FetchHoroscope._horoscope_request.
    rewrite Hp, Hc. reflexivity.
  - destruct sign; vm_compute; reflexivity.
  - intros sign' H. destruct sign, sign'; try reflexivity; discriminate H.
Qed.

(** X8 on the sample page, whichever address is asked for. *)
Lemma horoscope_request_result_witness :
  (FetchHoroscope.horoscope_url FetchHoroscope.LEO =
     "https://www.astroyogi.com/horoscopes/daily/leo-free-horoscope.aspx"
   /\ PyText.startswith "Dear Leo, astrologers say go. Be kind" "Dear " = true)
  /\ exists page pre p post txt,
       Ok sample_page = Ok page
       /\ FetchHoroscope.content_div page = Some (pre ++ p :: post)%list
       /\ FetchHoroscope.first_child_text p = Some txt
       /\ PyText.startswith txt "Dear " = true
       /\ "Dear Leo, astrologers say go. Be kind" = FetchHoroscope.polish txt
       /\ forall q t,
            In q pre -> FetchHoroscope.first_child_text q = Some t ->
            PyText.startswith t "Dear " = false.
Proof.
  destruct (horoscope_request_result (fun _ _ => Ok sample_page)
              FetchHoroscope.LEO) as (Hstart & Hfound & _).
  split.
  - destruct (Hstart "Dear Leo, astrologers say go. Be kind"
                "https://www.astroyogi.com/horoscopes/daily/leo-free-horoscope.aspx"
                eq_refl) as [Hurl Hdear].
    split; [symmetry; exact Hurl | exact Hdear].
  - apply (Hfound "Dear Leo, astrologers say go. Be kind"
             "https://www.astroyogi.com/horoscopes/daily/leo-free-horoscope.aspx");
      [|reflexivity].
    intros page [= <-]. reflexivity.
Defined.

(** ** debug_server.py: the listener *)

Section Listener.

Variable py_int : string -> option Z.

Lemma new_port_cases (port : Z) (answer : string) :
  DebugServer.new_port py_int port answer = port
  \/ port_in_range (DebugServer.new_port py_int port answer).
Proof.
  unfold DebugServer.new_port, port_in_range.
  destruct (PyStr.truthy (PyStr.strip answer)); [|left; reflexivity].
  destruct (py_int (PyStr.strip answer)) as [n|]; [|left; reflexivity].
  destruct ((1024 <=? n) && (n <=? 65535))%Z eqn:E; [|left; reflexivity].
  right. apply andb_true_iff in E. destruct E as [E1 E2].
  apply Z.leb_le in E1, E2. split; assumption.
Qed.

Lemma last_cons {A : Type} (x d : A) (l : list A) :
  last (x :: l) d = last l x.
Proof.
  revert x d. induction l as [|y l IH]; intros x d; [reflexivity|].
  change (last (x :: y :: l) d) with (last (y :: l) d).
  rewrite (IH y d), (IH y x). reflexivity.
Qed.

Lemma listener_runs (n : nat) :
  forall lines port, (length lines <= n)%nat -> listener_run py_int port lines.
Proof.
  induction n as [|n IH]; intros lines port Hlen.
  - destruct lines; [|simpl in Hlen; lia]. unfold listener_run. simpl.
    split; [reflexivity|]. split; [intros p []|].
    split; [intros [|x0 pre0] e0 post H; discriminate H | intros []].
  - destruct lines as [|user_input rest].
    { apply IH. simpl. lia. }
    simpl in Hlen. unfold listener_run.
    cbn [DebugServer.input_thread app].
    destruct (String.eqb (PyStr.lower (PyStr.strip user_input)) "q").
    { cbn [fst snd restart_ports flat_map last].
      split; [reflexivity|]. split; [intros p []|].
      split; [|intros _ more; reflexivity].
      intros [|x [|y pre]] e0 post H Hq; [injection H as _ <-; reflexivity | |];
        discriminate H. }
    destruct (String.eqb (PyStr.lower (PyStr.strip user_input)) "r").
    + destruct rest as [|answer rest'].
      { cbn [fst snd restart_ports flat_map last app].
        split; [reflexivity|]. split; [intros p []|].
        split; [intros [|x0 pre0] e0 post H; discriminate H | intros []]. }
      cbn [app].
      set (port' := DebugServer.new_port py_int port answer).
      assert (Hrest : listener_run py_int port' rest')
        by (apply IH; simpl in Hlen; lia).
      unfold listener_run in Hrest.
      destruct (DebugServer.input_thread py_int port' rest') as [l ev] eqn:Er.
      cbn [fst snd] in *. destruct Hrest as (HA & HB & HC & HD).
      change (restart_ports (DebugServer.Restart port' :: ev))
        with (port' :: restart_ports ev).
      split; [rewrite last_cons; exact HA|]. split; [|split].
      * intros p [<- | Hp]; [apply new_port_cases|].
        destruct (HB p Hp) as [-> | Hr]; [apply new_port_cases | right; exact Hr].
      * intros [|x pre] e0 post H Hq; simpl in H.
        -- injection H as <- _. discriminate Hq.
        -- injection H as _ H. exact (HC pre e0 post H Hq).
      * intros [H | H] more; [discriminate H|]. rewrite (HD H more). reflexivity.
    + assert (Hrest : listener_run py_int port rest) by (apply IH; lia).
      exact Hrest.
Qed.

End Listener.

(** X9.  The listener of the debug mode.  The port changes only to a
    number from 1024 to 65535, so a port in that range stays in it,
    and every restart is asked for with the port that is then in
    force.  [quit_flag] is set at most once, as the last thing the
    thread does, and no line after the quit command is read.  A line
    read as the answer to the port prompt is never taken as a command:
    [r] followed by [q] restarts and does not quit. *)
Theorem input_thread_ports :
  forall (py_int : string -> option Z) (port : Z) (lines : list string),
    let r := DebugServer.input_thread py_int port lines in
    (fst r = port \/ port_in_range (fst r))
    /\ fst r = last (restart_ports (snd r)) port
    /\ (forall p, In p (restart_ports (snd r)) -> p = port \/ port_in_range p)
    /\ (port_in_range port ->
        port_in_range (fst r) /\ Forall port_in_range (restart_ports (snd r)))
    /\ (forall pre e post,
          snd r = (pre ++ e :: post)%list -> is_quit e = true -> post = [])
    /\ (In DebugServer.Quit (snd r) ->
        forall more,
          DebugServer.input_thread py_int port (lines ++ more)%list = r)
    /\ (py_int "q" = None ->
        DebugServer.input_thread py_int port ("r" :: "q" :: lines) =
        (fst r, DebugServer.Restart port :: snd r)).
Proof.
  intros py_int port lines r.
  destruct (listener_runs py_int (length lines) lines port (le_n _))
    as (HA & HB & HC & HD).
  fold r in HA, HB, HC, HD.
  assert (Hlast : fst r = port \/ port_in_range (fst r)).
  { rewrite HA. destruct (restart_ports (snd r)) as [|p ps] eqn:E.
    - left. reflexivity.
    - assert (Hin : In (last (p :: ps) port) (p :: ps)).
      { clear. revert p. induction ps as [|q ps IH]; intros p.
        - left. reflexivity.
        - right. apply IH. }
      apply HB. exact Hin. }
  split; [exact Hlast|]. split; [exact HA|]. split; [exact HB|].
  split; [|split; [exact HC|split; [exact HD|]]].
  - intros Hp. split.
    + destruct Hlast as [-> | H]; assumption.
    + apply Forall_forall. intros p Hin.
      destruct (HB p Hin) as [-> | H]; assumption.
  - intros Hq. cbn [DebugServer.input_thread].
    change (String.eqb (PyStr.lower (PyStr.strip "r")) "q") with false.
    change (String.eqb (PyStr.lower (PyStr.strip "r")) "r") with true.
    cbv iota.
    assert (Hn : DebugServer.new_port py_int port "q" = port).
    { unfold DebugServer.new_port.
      change (PyStr.strip "q") with "q". rewrite Hq. reflexivity. }
    rewrite Hn. fold r. destruct r as [l ev]. reflexivity.
Qed.

(** X9 on a session that starts on port 8000: a new port, an answer
    that is no port, and the quit command. *)
Lemma input_thread_ports_witness :
  port_in_range 9000
  /\ Forall port_in_range [9000; 9000]%Z
  /\ DebugServer.input_thread
       (fun s => if all_digits s then Some (Z.of_N (numeral s 0)) else None)
       8000 ("r" :: "q" :: ["R"; " 9000 "; "r"; "80"; " Q "; "r"]) =
     (9000%Z,
      [DebugServer.Restart 8000; DebugServer.Restart 9000;
       DebugServer.Restart 9000; DebugServer.Quit]).
Proof.
  destruct (input_thread_ports
              (fun s => if all_digits s then Some (Z.of_N (numeral s 0)) else None)
              8000 ["R"; " 9000 "; "r"; "80"; " Q "; "r"])
    as (_ & _ & _ & Hrange & _ & _ & Hq).
  assert (H8000 : port_in_range 8000) by (unfold port_in_range; lia).
  destruct (Hrange H8000) as [H1 H2]. split; [exact H1|]. split; [exact H2|].
  exact (Hq eq_refl).
Defined.

(** ** helpers.py: what [parse_money] returns *)

Section Rounding.

Lemma shr_1_not_negative (mrs : shr_record) :
  (0 <= shr_m mrs)%Z -> (0 <= shr_m (shr_1 mrs))%Z.
Proof.
  destruct mrs as [m r s]. simpl.
  destruct m as [|p|p]; [reflexivity | | intros H; exfalso; apply H; reflexivity].
  intros _. destruct p; simpl; lia.
Qed.

Lemma iter_shr_1_not_negative (p : positive) :
  forall mrs,
    (0 <= shr_m mrs)%Z -> (0 <= shr_m (iter_pos shr_1 p mrs))%Z.
Proof.
  induction p as [p IH|p IH|]; intros mrs H; simpl.
  - apply IH, IH, shr_1_not_negative, H.
  - apply IH, IH, H.
  - apply shr_1_not_negative, H.
Qed.

Lemma shr_fexp_not_negative (m e : Z) (l : location) :
  (0 <= m)%Z ->
  (0 <= shr_m (fst (shr_fexp F64.prec F64.emax m e l)))%Z.
Proof.
  intros H. unfold shr_fexp, shr.
  assert (H0 : (0 <= shr_m (shr_record_of_loc m l))%Z).
  { destruct l as [|[| |]]; exact H. }
  destruct (fexp _ _ _ - e)%Z; simpl; try exact H0.
  apply iter_shr_1_not_negative, H0.
Qed.

Lemma round_nearest_even_not_negative (m : Z) (l : location) :
  (0 <= m)%Z -> (0 <= round_nearest_even m l)%Z.
Proof.
  intros H. unfold round_nearest_even.
  destruct l as [|[| |]]; try destruct (Z.even m); lia.
Qed.

(** Rounding a mantissa that is not negative gives a zero, a finite
    float or an infinity of the sign it is given. *)
Lemma round_signed (sx : bool) (m e : Z) (l : location) :
  (0 <= m)%Z ->
  match binary_round_aux F64.prec F64.emax sx m e l with
  | S754_zero s | S754_infinity s | S754_finite s _ _ => s = sx
  | S754_nan => False
  end.
Proof.
  intros H. unfold binary_round_aux.
  pose proof (shr_fexp_not_negative m e l H) as H1.
  destruct (shr_fexp F64.prec F64.emax m e l) as [mrs' e']. cbn [fst] in H1.
  pose proof (round_nearest_even_not_negative (shr_m mrs')
                (loc_of_shr_record mrs') H1) as H2.
  pose proof (shr_fexp_not_negative _ e' loc_Exact H2) as H3.
  destruct (shr_fexp F64.prec F64.emax _ e' loc_Exact) as [mrs'' e''].
  cbn [fst] in H3.
  destruct (shr_m mrs'') as [|q|q]; [reflexivity | |].
  - destruct (Z.leb _ _); reflexivity.
  - exfalso. apply H3. reflexivity.
Qed.

Lemma round_opp (m e : Z) (l : location) :
  binary_round_aux F64.prec F64.emax true m e l =
  SFopp (binary_round_aux F64.prec F64.emax false m e l).
Proof.
  unfold binary_round_aux.
  destruct (shr_fexp F64.prec F64.emax m e l) as [mrs' e'].
  destruct (shr_fexp F64.prec F64.emax _ e' loc_Exact) as [mrs'' e''].
  destruct (shr_m mrs'') as [|q|q]; try reflexivity.
  destruct (Z.leb _ _); reflexivity.
Qed.

Lemma div_core_not_negative (m1 m2 : positive) (e1 e2 : Z) :
  (0 <= fst (fst (SFdiv_core_binary F64.prec F64.emax
                    (Zpos m1) e1 (Zpos m2) e2)))%Z.
Proof.
  unfold SFdiv_core_binary.
  set (s := (e1 - e2 - _)%Z).
  set (m' := match s with Zpos _ => Z.shiftl (Zpos m1) s | Z0 => Zpos m1
             | Zneg _ => 0%Z end).
  assert (Hm : (0 <= m')%Z).
  { unfold m'. destruct s; try lia. apply Z.shiftl_nonneg. lia. }
  pose proof (Z_div_mod m' (Zpos m2) eq_refl) as Hd.
  destruct (Z.div_eucl m' (Zpos m2)) as [q r]. cbn [fst].
  destruct Hd as [Heq Hr]. nia.
Qed.

End Rounding.

Lemma of_decimal_signed (neg : bool) (m : N) (k : nat) :
  match F64.of_decimal neg m k with
  | S754_zero s | S754_infinity s | S754_finite s _ _ => s = neg
  | S754_nan => False
  end.
Proof.
  unfold F64.of_decimal. destruct m as [|p]; [reflexivity|].
  unfold SFdiv.
  pose proof (div_core_not_negative p (F64.pow10 k) 0 0) as H.
  destruct (SFdiv_core_binary _ _ _ _ _ _) as [[mz ez] lz]. cbn [fst] in H.
  rewrite xorb_false_r. apply round_signed. exact H.
Qed.

Lemma of_decimal_opp (m : N) (k : nat) :
  F64.of_decimal true m k = SFopp (F64.of_decimal false m k).
Proof.
  unfold F64.of_decimal. destruct m as [|p]; [reflexivity|].
  unfold SFdiv.
  destruct (SFdiv_core_binary _ _ _ _ _ _) as [[mz ez] lz].
  apply round_opp.
Qed.

Lemma float_of_body_decimal (neg : bool) (body : string) (x : F64.float) :
  Helpers.float_of_body neg body = Ok x ->
  exists m k, x = F64.of_decimal neg m k.
Proof.
  unfold Helpers.float_of_body.
  destruct (Helpers.take_digits body 0 0) as [[ip ni] rest].
  destruct rest as [|c t].
  - destruct (ni =? 0)%nat; [discriminate|]. intros [= <-]. eauto.
  - destruct (Ascii.eqb c "."); [|discriminate].
    destruct (Helpers.take_digits t ip 0) as [[m nf] rest'].
    destruct rest'; [|discriminate].
    destruct (ni + nf =? 0)%nat; [discriminate|]. intros [= <-]. eauto.
Qed.

Lemma float_of_body_opp (body : string) :
  Helpers.float_of_body true body =
  res_map SFopp (Helpers.float_of_body false body).
Proof.
  unfold Helpers.float_of_body.
  destruct (Helpers.take_digits body 0 0) as [[ip ni] rest].
  destruct rest as [|c t].
  - destruct (ni =? 0)%nat; [reflexivity|]. simpl. rewrite of_decimal_opp.
    reflexivity.
  - destruct (Ascii.eqb c "."); [|reflexivity].
    destruct (Helpers.take_digits t ip 0) as [[m nf] rest'].
    destruct rest'; [|reflexivity].
    destruct (ni + nf =? 0)%nat; [reflexivity|]. simpl.
    rewrite of_decimal_opp. reflexivity.
Qed.

Lemma prefix_dash (s : string) :
  prefix "-" s = match s with
                 | String c _ => Ascii.eqb c "-"
                 | EmptyString => false
                 end.
Proof.
  destruct s as [|c t]; [reflexivity|].
  change (prefix "-" (String c t))
    with (if ascii_dec "-" c then prefix "" t else false).
  destruct (ascii_dec "-" c) as [<- | Hne].
  - destruct t; reflexivity.
  - symmetry. apply Ascii.eqb_neq. congruence.
Qed.

(** What [parse_money] returns is a number, with the sign the text
    shows. *)
Lemma parse_money_number (v : option string) (x : F64.float) :
  Helpers.parse_money v = Ok x ->
  F64.is_nan x = false
  /\ sign_bit x = match v with
                  | Some s => prefix "-" (Helpers.residue s)
                  | None => false
                  end.
Proof.
  destruct v as [s|]; [|intros [= <-]; split; reflexivity].
  destruct s as [|c0 s0]; [intros [= <-]; split; reflexivity|].
  rewrite parse_money_nonempty by discriminate.
  rewrite prefix_dash. set (r := Helpers.residue (String c0 s0)).
  unfold Helpers.float_of_residue.
  assert (Hbody : forall neg body,
            Helpers.float_of_body neg body = Ok x ->
            F64.is_nan x = false /\ sign_bit x = neg).
  { intros neg body H. apply float_of_body_decimal in H.
    destruct H as (m & k & ->). pose proof (of_decimal_signed neg m k) as Hs.
    destruct (F64.of_decimal neg m k); simpl; auto. destruct Hs. }
  destruct r as [|c t]; [apply Hbody|].
  destruct (Ascii.eqb c "-"); apply Hbody.
Qed.

(** X10.  [parse_money] never returns a NaN: its result is a zero, a
    finite float or an infinity, so it equals itself, and it is
    negative exactly when the first character that is kept is a dash.
    A dash put in front of a text that shows no sign changes the sign
    of the result and nothing else; [-0] is read as the negative zero. *)
Theorem parse_money_is_a_number :
  (forall v x,
     Helpers.parse_money v = Ok x ->
     F64.is_nan x = false /\ F64.eqb x x = true)
  /\ (forall v x,
        Helpers.parse_money (Some v) = Ok x ->
        sign_bit x = prefix "-" (Helpers.residue v))
  /\ (forall v,
        v <> "" -> prefix "-" (Helpers.residue v) = false ->
        Helpers.parse_money (Some ("-" ++ v)) =
        res_map SFopp (Helpers.parse_money (Some v)))
  /\ Helpers.parse_money (Some "-0") = Ok (S754_zero true)
  /\ Helpers.parse_money (Some "-") = Err ValueError.
Proof.
  split; [|split; [|split; [|split; reflexivity]]].
  - intros v x H. destruct (parse_money_number v x H) as [Hn _].
    split; [exact Hn | apply eqb_refl; exact Hn].
  - intros v x H. exact (proj2 (parse_money_number (Some v) x H)).
  - intros v Hv Hp. rewrite !parse_money_nonempty by (try discriminate; exact Hv).
    rewrite prefix_dash in Hp.
    change (Helpers.residue ("-" ++ v)) with (String "-" (Helpers.residue v)).
    cbn [Helpers.float_of_residue Ascii.eqb Bool.eqb].
    rewrite float_of_body_opp. f_equal.
    unfold Helpers.float_of_residue.
    destruct (Helpers.residue v) as [|c t]; [reflexivity|].
    rewrite Hp. reflexivity.
Qed.

(** X10 on an amount with its currency sign. *)
Lemma parse_money_is_a_number_witness :
  Helpers.parse_money (Some ("-" ++ "$45.00")) =
  res_map SFopp (Helpers.parse_money (Some "$45.00")).
Proof.
  destruct parse_money_is_a_number as (_ & _ & H & _).
  apply H; [discriminate | reflexivity].
Defined.

Lemma filter_app (f : ascii -> bool) (a b : string) :
  PyStr.filter f (a ++ b) = PyStr.filter f a ++ PyStr.filter f b.
Proof.
  induction a as [|c a IH]; simpl; [reflexivity|].
  rewrite IH. destruct (f c); reflexivity.
Qed.

Lemma filter_filter (f : ascii -> bool) (s : string) :
  PyStr.filter f (PyStr.filter f s) = PyStr.filter f s.
Proof.
  induction s as [|c s IH]; simpl; [reflexivity|].
  destruct (f c) eqn:E; simpl; [rewrite E, IH|]; auto.
Qed.

(** X11.  In an ASCII text a character that is no digit, point or
    dash changes nothing wherever it stands, as long as something else
    is left: so
    a thousands separator, a currency sign or a blank is ignored, and
    so is the letter of an exponent, [1e5] being read as [15].  A text
    that is left with nothing, such as a lone currency sign or [nan],
    raises [ValueError], unlike the empty text, which gives zero. *)
Theorem parse_money_ignores_formatting :
  (forall a c b,
     PyStr.isascii (a ++ String c b) = true ->
     Helpers.keeps c = false -> a ++ b <> "" ->
     Helpers.parse_money (Some (a ++ String c b)) =
     Helpers.parse_money (Some (a ++ b)))
  /\ (forall v,
        PyStr.isascii v = true ->
        Helpers.residue v <> "" ->
        Helpers.parse_money (Some (Helpers.residue v)) =
        Helpers.parse_money (Some v))
  /\ (forall v,
        PyStr.isascii v = true ->
        v <> "" -> Helpers.residue v = "" ->
        Helpers.parse_money (Some v) = Err ValueError)
  /\ Helpers.parse_money (Some "1e5") = Ok (F64.of_Z 15)
  /\ Helpers.parse_money (Some "nan") = Err ValueError.
Proof.
  split; [|split; [|split; [|split; reflexivity]]].
  - intros a c b _ Hc Hab.
    rewrite !parse_money_nonempty by (try exact Hab; destruct a; discriminate).
    unfold Helpers.residue. rewrite !filter_app. simpl. rewrite Hc. reflexivity.
  - intros v _ Hv.
    assert (Hne : v <> "") by (intros ->; apply Hv; reflexivity).
    rewrite !parse_money_nonempty by assumption.
    unfold Helpers.residue. rewrite filter_filter. reflexivity.
  - intros v _ Hv Hr. rewrite parse_money_nonempty by exact Hv. rewrite Hr.
    reflexivity.
Qed.

(** X11 on a thousands separator, on the kept characters of an amount
    and on a lone currency sign. *)
Lemma parse_money_ignores_formatting_witness :
  Helpers.parse_money (Some ("$1" ++ String "," "234.56")) =
  Helpers.parse_money (Some ("$1" ++ "234.56"))
  /\ Helpers.parse_money (Some (Helpers.residue "USD 7.50")) =
     Helpers.parse_money (Some "USD 7.50")
  /\ Helpers.parse_money (Some "$") = Err ValueError.
Proof.
  destruct parse_money_ignores_formatting as (Hdrop & Hkept & Hnone & _).
  split; [|split].
  - apply Hdrop; [reflexivity | reflexivity | discriminate].
  - apply Hkept; [reflexivity | discriminate].
  - apply Hnone; [reflexivity | discriminate | reflexivity].
Defined.

(** ** primitives.py: the order of the spendable overviews *)

Ltac compare_cases :=
  repeat match goal with
         | |- context [Z.compare ?x ?y] => destruct (Z.compare_spec x y)
         | |- context [Pos.compare_cont Eq ?x ?y] =>
             change (Pos.compare_cont Eq x y) with (Pos.compare x y);
             destruct (Pos.compare_spec x y)
         end.

Lemma ltb_asym (a b : F64.float) :
  F64.ltb a b = true -> F64.ltb b a = false.
Proof.
  unfold F64.ltb, SFltb, SFcompare.
  destruct a as [sa|sa| |sa ma ea], b as [sb|sb| |sb mb eb];
    try destruct sa; try destruct sb; try reflexivity; try discriminate;
    compare_cases; cbn; intros; subst; try reflexivity; try discriminate; lia.
Qed.

(** On floats [not <] is transitive through a number. *)
Lemma ltb_false_trans (a b c : F64.float) :
  F64.is_nan b = false ->
  F64.ltb a b = false -> F64.ltb b c = false -> F64.ltb a c = false.
Proof.
  unfold F64.ltb, SFltb, SFcompare.
  destruct a as [sa|sa| |sa ma ea], b as [sb|sb| |sb mb eb],
           c as [sc|sc| |sc mc ec];
    intros Hn; try discriminate Hn; clear Hn;
    try destruct sa; try destruct sb; try destruct sc;
    try (intros; reflexivity); try (intros; discriminate);
    compare_cases; cbn; intros; subst; try reflexivity; try discriminate; lia.
Qed.

(** Two floats are [==] when they are the same or are both zeros. *)
Lemma eqb_cases (a b : F64.float) :
  F64.eqb a b = true ->
  a = b \/ exists s s', a = S754_zero s /\ b = S754_zero s'.
Proof.
  unfold F64.eqb, SFeqb, SFcompare.
  destruct a as [sa|sa| |sa ma ea], b as [sb|sb| |sb mb eb];
    try destruct sa; try destruct sb; try discriminate;
    try solve [intros _; left; reflexivity];
    try solve [intros _; right; eauto];
    compare_cases; cbn; intros; subst; try discriminate; left; reflexivity.
Qed.

Lemma ltb_irrefl (a : F64.float) : F64.ltb a a = false.
Proof.
  destruct (F64.ltb a a) eqn:E; [|reflexivity].
  rewrite (ltb_asym a a E) in E. discriminate E.
Qed.

Lemma eqb_not_ltb (a b k : F64.float) :
  F64.eqb a k = true -> F64.eqb b k = true -> F64.ltb a b = false.
Proof.
  intros Ha Hb.
  destruct (eqb_cases a k Ha) as [Hak | (s & s' & Hs & Hs')];
    destruct (eqb_cases b k Hb) as [Hbk | (t & t' & Ht & Ht')];
    subst; try apply ltb_irrefl; reflexivity.
Qed.

Section SortedReverse.

Context {A : Type} (key : A -> F64.float).

Lemma insert_reverse_perm (x : A) (l : list A) :
  Permutation (x :: l) (Render.insert key x l).
Proof.
  induction l as [|y l IH]; simpl; [reflexivity|].
  destruct (F64.ltb (key x) (key y)); [|reflexivity].
  rewrite perm_swap. constructor. exact IH.
Qed.

Lemma sorted_reverse_perm (l : list A) :
  Permutation l (Render.sorted_reverse key l).
Proof.
  induction l as [|x l IH]; simpl; [constructor|].
  rewrite <- insert_reverse_perm. constructor. exact IH.
Qed.

Lemma insert_reverse_sorted (x : A) (l : list A) :
  Forall (fun y => F64.is_nan (key y) = false) l ->
  StronglySorted (fun a b => F64.ltb (key a) (key b) = false) l ->
  StronglySorted (fun a b => F64.ltb (key a) (key b) = false)
    (Render.insert key x l).
Proof.
  intros Hn Hs. induction Hs as [|y l Hl IH Hy]; simpl.
  - repeat constructor.
  - apply Forall_cons_iff in Hn. destruct Hn as [Hny Hn].
    destruct (F64.ltb (key x) (key y)) eqn:E.
    + constructor; [exact (IH Hn)|].
      rewrite <- insert_reverse_perm. constructor; [|exact Hy].
      apply ltb_asym. exact E.
    + constructor; [constructor; assumption|].
      constructor; [exact E|].
      eapply Forall_impl; [|exact Hy]. intros z Hz. simpl in Hz.
      exact (ltb_false_trans _ _ _ Hny E Hz).
Qed.

Lemma sorted_reverse_sorted (l : list A) :
  Forall (fun y => F64.is_nan (key y) = false) l ->
  StronglySorted (fun a b => F64.ltb (key a) (key b) = false)
    (Render.sorted_reverse key l).
Proof.
  induction 1 as [|x l Hx Hl IH]; simpl; [constructor|].
  apply insert_reverse_sorted; [|exact IH].
  apply Forall_forall. intros y Hy.
  rewrite Forall_forall in Hl. apply Hl.
  apply (Permutation_in _ (Permutation_sym (sorted_reverse_perm l))). exact Hy.
Qed.

Lemma insert_reverse_stable (k : F64.float) (x : A) (l : list A) :
  filter (fun y => F64.eqb (key y) k) (Render.insert key x l) =
  filter (fun y => F64.eqb (key y) k) (x :: l).
Proof.
  induction l as [|y l IH]; simpl; [reflexivity|].
  destruct (F64.ltb (key x) (key y)) eqn:E; [|reflexivity].
  simpl in *. rewrite IH.
  destruct (F64.eqb (key x) k) eqn:Ex; [|reflexivity].
  destruct (F64.eqb (key y) k) eqn:Ey; [|reflexivity].
  rewrite (eqb_not_ltb _ _ _ Ex Ey) in E. discriminate E.
Qed.

Lemma sorted_reverse_stable (k : F64.float) (l : list A) :
  filter (fun y => F64.eqb (key y) k) (Render.sorted_reverse key l) =
  filter (fun y => F64.eqb (key y) k) l.
Proof.
  induction l as [|x l IH]; simpl; [reflexivity|].
  rewrite insert_reverse_stable. simpl. rewrite IH. reflexivity.
Qed.

End SortedReverse.

Lemma SpendableOverview_from_row_number (row : list string)
    (o : SpendableOverview.t) :
  SpendableOverview.from_row row = Ok o ->
  F64.is_nan (SpendableOverview.left_today o) = false.
Proof.
  intros H. unfold SpendableOverview.from_row in H. inv_binds H.
  injection H as <-. cbn [SpendableOverview.left_today].
  exact (proj1 (parse_money_number _ _ Ha4)).
Qed.

(** X12.  The spendable overviews of the mail.  [from_range] keeps
    every row of the sheet, amounts of zero included, and none of its
    [left_today] is a NaN; the list handed to the template holds the
    same entities, each as often as before, none of them followed by
    one with a greater [left_today], and those of equal [left_today]
    in the order of the sheet.  The days left count the day itself:
    they are 1 from the end date on and never less. *)
Theorem spendable_overviews_in_the_mail :
  forall (self : Summary.t) (rows : rows_t) (today : date),
    SpendableOverview.from_range rows = Ok (Summary.spendable_overviews self) ->
    let view := Render.spendable_overviews_sorted self in
    length (Summary.spendable_overviews self) = length rows
    /\ Forall (fun o => F64.is_nan (SpendableOverview.left_today o) = false) view
    /\ Permutation (Summary.spendable_overviews self) view
    /\ StronglySorted not_less view
    /\ (forall k,
          filter (left_today_is k) view =
          filter (left_today_is k) (Summary.spendable_overviews self))
    /\ (1 <= Render.days_left self today)%Z
    /\ ((Summary.end_date self <= today)%positive ->
        Render.days_left self today = 1%Z)
    /\ ((today < Summary.end_date self)%positive ->
        Render.days_left self today =
        (Zpos (Summary.end_date self) - Zpos today + 1)%Z).
Proof.
  intros self rows today H view.
  assert (Hn : Forall (fun o => F64.is_nan (SpendableOverview.left_today o) = false)
                 (Summary.spendable_overviews self)).
  { eapply traverse_Forall; [|exact H].
    intros row o. apply SpendableOverview_from_row_number. }
  split.
  { apply traverse_Ok in H. symmetry. exact (Forall2_length H). }
  split.
  { apply Forall_forall. intros o Ho. rewrite Forall_forall in Hn. apply Hn.
    exact (Permutation_in _ (Permutation_sym (sorted_reverse_perm _ _)) Ho). }
  split; [apply sorted_reverse_perm|].
  split; [exact (sorted_reverse_sorted _ _ Hn)|].
  split; [intros k; apply sorted_reverse_stable|].
  unfold Render.days_left. repeat split; lia.
Qed.

(** X12 on three rows, two of them with the same amount left. *)
Lemma spendable_overviews_in_the_mail_witness :
  map SpendableOverview.category
    (Render.spendable_overviews_sorted
       (with_spendable_overviews Sample.summary
          [SpendableOverview.mk "Food" (F64.of_Z 10) (F64.of_Z 1) (F64.of_Z 3);
           SpendableOverview.mk "Fun" (F64.of_Z 5) (F64.of_Z 1) (F64.of_Z 7);
           SpendableOverview.mk "Gas" (F64.of_Z 5) (F64.of_Z 1) (F64.of_Z 3)]))
  = ["Fun"; "Food"; "Gas"]
  /\ StronglySorted not_less
       (Render.spendable_overviews_sorted
          (with_spendable_overviews Sample.summary
             [SpendableOverview.mk "Food" (F64.of_Z 10) (F64.of_Z 1) (F64.of_Z 3);
              SpendableOverview.mk "Fun" (F64.of_Z 5) (F64.of_Z 1) (F64.of_Z 7);
              SpendableOverview.mk "Gas" (F64.of_Z 5) (F64.of_Z 1) (F64.of_Z 3)])).
Proof.
  split; [reflexivity|].
  exact (proj1 (proj2 (proj2 (proj2
    (spendable_overviews_in_the_mail
       (with_spendable_overviews Sample.summary
          [SpendableOverview.mk "Food" (F64.of_Z 10) (F64.of_Z 1) (F64.of_Z 3);
           SpendableOverview.mk "Fun" (F64.of_Z 5) (F64.of_Z 1) (F64.of_Z 7);
           SpendableOverview.mk "Gas" (F64.of_Z 5) (F64.of_Z 1) (F64.of_Z 3)])
       sample_spendable_rows 1%positive eq_refl))))).
Defined.

(** ** primitives.py: the amounts the mappers read *)

Section Numbers.

Lemma collect_Forall {A B : Type} (f : A -> res (option B)) (P : B -> Prop)
    (xs : list A) :
  (forall x y, f x = Ok (Some y) -> P y) ->
  forall ys, collect f xs = Ok ys -> Forall P ys.
Proof.
  intros HP. induction xs as [|x xs IH]; simpl; intros ys H.
  - injection H as <-. constructor.
  - inv_binds H. injection H as <-.
    destruct a as [y|]; [constructor|]; eauto.
Qed.

Lemma parse_money_Ok_number (c : string) (x : F64.float) :
  Helpers.parse_money (Some c) = Ok x -> number x.
Proof. intros H. exact (proj1 (parse_money_number _ _ H)). Qed.

Lemma money_at_number (rows : rows_t) (i : nat) (x : F64.float) :
  BudgetStats.money_at rows i = Ok x -> number x.
Proof.
  unfold BudgetStats.money_at. intros H. inv_bind H.
  eapply parse_money_Ok_number. eassumption.
Qed.

Lemma normalize_number (m e : Z) (szero : bool) :
  number (binary_normalize F64.prec F64.emax m e szero).
Proof.
  unfold number, binary_normalize, binary_round.
  destruct m as [|p|p]; [reflexivity | |];
    destruct (shl_align _ _ _) as [mz ez];
    match goal with
    | |- F64.is_nan (binary_round_aux _ _ ?s ?m ?e ?l) = false =>
        pose proof (round_signed s m e l ltac:(lia)) as H;
        destruct (binary_round_aux _ _ s m e l); [reflexivity .. | destruct H | reflexivity]
    end.
Qed.

(** A difference of two numbers is a NaN only for two infinities of
    one sign. *)
Lemma sub_nan (x y : F64.float) :
  number x -> number y -> F64.is_nan (F64.sub x y) = true ->
  exists s, x = S754_infinity s /\ y = S754_infinity s.
Proof.
  unfold number, F64.sub.
  destruct x as [sx|sx| |sx mx ex], y as [sy|sy| |sy my ey];
    try discriminate; intros _ _;
    try (destruct sx, sy; simpl; try discriminate; eauto; fail).
  unfold SFsub. rewrite normalize_number. discriminate.
Qed.

Lemma pairs_numbers (n : nat) :
  forall rows out,
    (length rows <= n)%nat -> BssSpent.pairs rows = Ok out ->
    Forall (fun e => number (BssSpent.amount e)) out.
Proof.
  induction n as [|n IH]; intros rows out Hlen H.
  - destruct rows; [|simpl in Hlen; lia]. injection H as <-. constructor.
  - destruct rows as [|row rest]; [injection H as <-; constructor|].
    simpl in Hlen. cbn [BssSpent.pairs] in H.
    destruct (BssSpent.blank row); [apply (IH rest); [lia | exact H]|].
    inv_bind H. destruct rest as [|amount_row rest'].
    + injection H as <-. repeat constructor.
    + inv_binds H. injection H as <-. constructor.
      * cbn [BssSpent.amount]. eapply parse_money_Ok_number. eassumption.
      * apply (IH rest'); [simpl in Hlen; lia | assumption].
Qed.

End Numbers.

(** X13.  No amount that a mapper reads with [parse_money] is a NaN:
    not those of the overviews, of the account balances, of the
    budgets, of the categorized spend or of the statistics block; the
    amounts of the filtered overviews are moreover different from zero.
    The one derived amount, the difference of an account balance, is a
    NaN only when both of its amounts are infinities of one sign. *)
Theorem sheet_amounts_are_numbers :
  (forall rows out,
     PaymentsOverview.from_range rows = Ok out ->
     Forall (fun o => number (PaymentsOverview.amount o)
                      /\ F64.eqb (PaymentsOverview.amount o) F64.zero = false)
       out)
  /\ (forall rows out,
        SavingsOverview.from_range rows = Ok out ->
        Forall (fun o => number (SavingsOverview.amount o)
                         /\ F64.eqb (SavingsOverview.amount o) F64.zero = false)
          out)
  /\ (forall rows out,
        TransferOverview.from_range rows = Ok out ->
        Forall (fun o => number (TransferOverview.amount o)
                         /\ F64.eqb (TransferOverview.amount o) F64.zero = false)
          out)
  /\ (forall rows out,
        SpendableOverview.from_range rows = Ok out ->
        Forall (fun o => number (SpendableOverview.spendable_amount o)
                         /\ number (SpendableOverview.future_daily o)
                         /\ number (SpendableOverview.left_today o)) out)
  /\ (forall rows out,
        AccountBalance.from_rows rows = Ok out ->
        Forall (fun a =>
                  number (AccountBalance.amount_manual a)
                  /\ number (AccountBalance.amount_calc a)
                  /\ (F64.is_nan (AccountBalance.amount_diff a) = true ->
                      exists s,
                        AccountBalance.amount_manual a = S754_infinity s
                        /\ AccountBalance.amount_calc a = S754_infinity s))
          out)
  /\ (forall period_size rows out,
        Budget.from_manual_budget_range period_size rows = Ok out ->
        Forall (fun b => number (Budget.amount b)) out)
  /\ (forall py_float strptime_mdY cat2subcat rows out,
        Budget.from_recurring_budget_range py_float strptime_mdY cat2subcat rows
          = Ok out ->
        Forall (fun b => number (Budget.amount b)) out)
  /\ (forall rows out,
        BssSpent.from_rows rows = Some (Ok out) ->
        Forall (fun e => number (BssSpent.amount e)) out)
  /\ (forall rows stats,
        BudgetStats.from_rows rows = Ok stats ->
        Forall number (stats_amounts stats)).
Proof.
  repeat match goal with |- _ /\ _ => split end.
  - intros rows out. apply collect_Forall. intros row o H.
    unfold PaymentsOverview.from_row in H. inv_binds H.
    destruct (F64.eqb a0 F64.zero) eqn:E; [discriminate H|].
    inv_binds H. injection H as <-. cbn [PaymentsOverview.amount].
    split; [eapply parse_money_Ok_number; eassumption | exact E].
  - intros rows out. apply collect_Forall. intros row o H.
    unfold SavingsOverview.from_row in H. inv_binds H.
    destruct (F64.eqb a0 F64.zero) eqn:E; [discriminate H|].
    inv_binds H. injection H as <-. cbn [SavingsOverview.amount].
    split; [eapply parse_money_Ok_number; eassumption | exact E].
  - intros rows out. apply collect_Forall. intros row o H.
    unfold TransferOverview.from_row in H. inv_binds H.
    destruct (F64.eqb a0 F64.zero) eqn:E; [discriminate H|].
    inv_binds H. injection H as <-. cbn [TransferOverview.amount].
    split; [eapply parse_money_Ok_number; eassumption | exact E].
  - intros rows out. apply traverse_Forall. intros row o H.
    unfold SpendableOverview.from_row in H. inv_binds H. injection H as <-.
    cbn [SpendableOverview.spendable_amount SpendableOverview.future_daily
         SpendableOverview.left_today].
    repeat split; eapply parse_money_Ok_number; eassumption.
  - intros rows out. apply traverse_Forall. intros row a H.
    unfold AccountBalance.from_row in H. inv_binds H. injection H as <-.
    cbn [AccountBalance.amount_manual AccountBalance.amount_calc
         AccountBalance.amount_diff].
    assert (H4 : number a4) by (eapply parse_money_Ok_number; eassumption).
    assert (H2 : number a2) by (eapply parse_money_Ok_number; eassumption).
    split; [exact H4|]. split; [exact H2|]. apply sub_nan; assumption.
  - intros period_size rows out. apply traverse_Forall. intros row b H.
    unfold Budget.from_manual_budget_row in H. inv_binds H. injection H as <-.
    cbn [Budget.amount]. eapply parse_money_Ok_number; eassumption.
  - intros py_float strptime_mdY cat2subcat rows out. apply traverse_Forall.
    intros row b H. unfold Budget.from_recurring_budget_row in H. inv_binds H.
    destruct (Budget.find_category _ _) as [cat|]; [|discriminate H].
    destruct (negb (PyStr.truthy cat)); [discriminate H|].
    injection H as <-. cbn [Budget.amount].
    eapply parse_money_Ok_number; eassumption.
  - intros rows out H. rewrite from_rows_pairs in H. injection H as H.
    exact (pairs_numbers (length rows) rows out (le_n _) H).
  - intros rows stats H. unfold BudgetStats.from_rows in H. inv_binds H.
    injection H as <-. unfold stats_amounts.
    cbn [BudgetStats.total_budget BudgetStats.income_at_period_start
         BudgetStats.checking_amount_period_start
         BudgetStats.total_withheld_required_payments
         BudgetStats.total_withheld_savings BudgetStats.balance_after_withheld
         BudgetStats.budget_after_withheld BudgetStats.allocated_spending_budget
         BudgetStats.balance_after_withheld_and_spending
         BudgetStats.budget_after_withheld_and_spending
         BudgetStats.budget_after_withheld_and_spent BudgetStats.checking_floor
         BudgetStats.free_to_spend].
    repeat (constructor; [eapply money_at_number; eassumption|]).
    constructor.
Qed.

(** X13 on an account row. *)
Lemma sheet_amounts_are_numbers_witness :
  Forall (fun a =>
            number (AccountBalance.amount_manual a)
            /\ number (AccountBalance.amount_calc a)
            /\ (F64.is_nan (AccountBalance.amount_diff a) = true ->
                exists s,
                  AccountBalance.amount_manual a = S754_infinity s
                  /\ AccountBalance.amount_calc a = S754_infinity s))
    [AccountBalance.mk "Checking" (F64.of_Z 12) (F64.of_Z 10) (F64.of_Z 2)].
Proof.
  destruct sheet_amounts_are_numbers as (_ & _ & _ & _ & H & _).
  apply (H [[" Checking "; "$0"; "$10"; "$12"]]). reflexivity.
Defined.

(** ** primitives.py: rows that are too short *)

Lemma index_short {A : Type} (xs : list A) (i : nat) :
  (length xs <= i)%nat -> index xs i = Err IndexError.
Proof.
  intros H. unfold index. apply nth_error_None in H. rewrite H. reflexivity.
Qed.

Lemma index_Ok_or_short {A : Type} (xs : list A) (i : nat) :
  (exists x, index xs i = Ok x) \/ index xs i = Err IndexError.
Proof.
  unfold index. destruct (nth_error xs i); eauto.
Qed.

Lemma traverse_first_Err {A B : Type} (f : A -> res B) (pre : list A) :
  forall x post e,
    (forall r, In r pre -> exists y, f r = Ok y) -> f x = Err e ->
    traverse f (pre ++ x :: post)%list = Err e.
Proof.
  induction pre as [|r pre IH]; intros x post e Hpre Hx; simpl.
  - rewrite Hx. reflexivity.
  - destruct (Hpre r (or_introl eq_refl)) as [y ->]. cbn [bind].
    rewrite (IH x post e); [reflexivity | | exact Hx].
    intros r' Hr'. apply Hpre. right. exact Hr'.
Qed.

Lemma collect_first_Err {A B : Type} (f : A -> res (option B)) (pre : list A) :
  forall x post e,
    (forall r, In r pre -> exists y, f r = Ok y) -> f x = Err e ->
    collect f (pre ++ x :: post)%list = Err e.
Proof.
  induction pre as [|r pre IH]; intros x post e Hpre Hx; simpl.
  - rewrite Hx. reflexivity.
  - destruct (Hpre r (or_introl eq_refl)) as [y ->]. cbn [bind].
    rewrite (IH x post e); [reflexivity | | exact Hx].
    intros r' Hr'. apply Hpre. right. exact Hr'.
Qed.

(** X14.  Rows that are too short.  Each row mapper raises
    [IndexError] on a row that lacks the first cell it reads, whatever
    the row holds: fewer than two cells for the payments and the
    spendable overviews, fewer than three for the savings and transfer
    overviews, the account balances and the recurring budgets, fewer
    than four for the manual budgets, whose amount is parsed only after
    cell 3 has been read.  A range mapper raises the error of the first
    row that fails and returns nothing of the rows before it.  So a
    row of two cells that gives a payment makes the savings overviews,
    read from the same rows, fail. *)
Theorem short_rows_raise_IndexError :
  (forall row, (length row <= 1)%nat ->
     PaymentsOverview.from_row row = Err IndexError
     /\ SpendableOverview.from_row row = Err IndexError)
  /\ (forall row, (length row <= 2)%nat ->
        SavingsOverview.from_row row = Err IndexError
        /\ TransferOverview.from_row row = Err IndexError
        /\ AccountBalance.from_row row = Err IndexError
        /\ forall py_float strptime_mdY cat2subcat,
             Budget.from_recurring_budget_row py_float strptime_mdY cat2subcat row
             = Err IndexError)
  /\ (forall period_size row, (length row <= 3)%nat ->
        Budget.from_manual_budget_row period_size row = Err IndexError)
  /\ (forall pre row post e,
        (forall r, In r pre -> exists o, SavingsOverview.from_row r = Ok o) ->
        SavingsOverview.from_row row = Err e ->
        SavingsOverview.from_range (pre ++ row :: post)%list = Err e)
  /\ (forall pre row post e,
        (forall r, In r pre -> exists o, SpendableOverview.from_row r = Ok o) ->
        SpendableOverview.from_row row = Err e ->
        SpendableOverview.from_range (pre ++ row :: post)%list = Err e)
  /\ (forall c0 c1 a,
        Helpers.parse_money (Some c1) = Ok a -> F64.eqb a F64.zero = false ->
        PaymentsOverview.from_range [[c0; c1]] = Ok [PaymentsOverview.mk c0 a]
        /\ SavingsOverview.from_range [[c0; c1]] = Err IndexError)
  /\ SpendableOverview.from_row ["Food"; "1.2.3"] = Err ValueError
  /\ Budget.from_manual_budget_row F64.zero ["Food"; "1.2.3"; ""]
     = Err IndexError.
Proof.
  split; [|split; [|split; [|split; [|split; [|split; [|split]]]]]].
  - intros row H.
    destruct row as [|c0 [|c1 row]]; [split; reflexivity .. |].
    simpl in H. lia.
  - intros row H.
    destruct row as [|c0 [|c1 [|c2 row]]];
      [repeat split; reflexivity .. |].
    simpl in H. lia.
  - intros period_size row H.
    destruct row as [|c0 [|c1 [|c2 [|c3 row]]]]; try reflexivity.
    simpl in H. lia.
  - intros pre row post e. apply collect_first_Err.
  - intros pre row post e. apply traverse_first_Err.
  - intros c0 c1 a Ha Hz. split; [|reflexivity].
    unfold PaymentsOverview.from_range, PaymentsOverview.from_row.
    cbn [collect cell index nth_error bind]. rewrite Ha. cbn [bind].
    rewrite Hz. reflexivity.
  - reflexivity.
  - reflexivity.
Qed.

(** X14 on a row with a payment and no savings cell. *)
Lemma short_rows_raise_IndexError_witness :
  PaymentsOverview.from_range [["Rent"; "$900"]] =
    Ok [PaymentsOverview.mk "Rent" (F64.of_Z 900)]
  /\ SavingsOverview.from_range [["Rent"; "$900"]] = Err IndexError.
Proof.
  destruct short_rows_raise_IndexError as (_ & _ & _ & _ & _ & H & _).
  apply H; reflexivity.
Defined.

(** ** fetch_horoscope.py: what the polishing changes *)

Lemma length_append (a b : string) :
  String.length (a ++ b) = (String.length a + String.length b)%nat.
Proof. induction a as [|c a IH]; simpl; congruence. Qed.

Section SplitJoin.

Variable c0 : ascii.
Variable sep' : string.

Lemma split_go_skip (a : string) :
  forall s cur,
    PyText.split_go (String c0 sep') (a ++ s) (String.length a) cur =
    PyText.split_go (String c0 sep') s 0 cur.
Proof.
  induction a as [|c a IH]; intros s cur; [reflexivity|].
  cbn [append String.length PyText.split_go]. apply IH.
Qed.

Lemma split_go_nonempty (s : string) :
  forall skip cur, PyText.split_go (String c0 sep') s skip cur <> [].
Proof.
  induction s as [|c s IH]; intros skip cur; [discriminate|].
  cbn [PyText.split_go]. destruct skip as [|k]; [|apply IH].
  destruct (prefix (String c0 sep') (String c s)); [discriminate | apply IH].
Qed.

Lemma join_cons (x : string) (l : list string) :
  l <> [] ->
  PyText.join (String c0 sep') (x :: l) =
  x ++ String c0 sep' ++ PyText.join (String c0 sep') l.
Proof. destruct l; [congruence | reflexivity]. Qed.

(** Joining the parts with the separator gives the text back. *)
Lemma join_split_go (n : nat) :
  forall s cur,
    (String.length s <= n)%nat ->
    PyText.join (String c0 sep') (PyText.split_go (String c0 sep') s 0 cur) =
    cur ++ s.
Proof.
  induction n as [|n IH]; intros s cur Hlen.
  - destruct s; [|simpl in Hlen; lia]. simpl. rewrite append_empty_r.
    reflexivity.
  - destruct s as [|c s1]; [simpl; rewrite append_empty_r; reflexivity|].
    cbn [PyText.split_go].
    destruct (prefix (String c0 sep') (String c s1)) eqn:E.
    + assert (Hs : exists r, String c s1 = String c0 sep' ++ r)
        by (apply startswith_app; exact E).
      destruct Hs as [r Hs]. injection Hs as -> ->.
      replace (String.length (String c0 sep') - 1)%nat
        with (String.length sep') by (simpl; lia).
      rewrite split_go_skip.
      rewrite join_cons by apply split_go_nonempty.
      rewrite IH.
      * reflexivity.
      * simpl in Hlen. rewrite length_append in Hlen. lia.
    + rewrite IH by (simpl in Hlen; lia).
      rewrite append_assoc. reflexivity.
Qed.

End SplitJoin.

Lemma lower_app (a b : string) :
  PyStr.lower (a ++ b) = PyStr.lower a ++ PyStr.lower b.
Proof.
  unfold PyStr.lower. induction a as [|c a IH]; simpl; congruence.
Qed.

Lemma lower_upper_char (c : ascii) :
  PyStr.lower_char (PyStr.upper_char c) = PyStr.lower_char c.
Proof.
  destruct c as [[] [] [] [] [] [] [] []]; reflexivity.
Qed.

Lemma lower_upper_first (s : string) :
  PyStr.lower (PyText.upper_first s) = PyStr.lower s.
Proof.
  destruct s as [|c s]; [reflexivity|].
  unfold PyStr.lower. simpl. rewrite lower_upper_char. reflexivity.
Qed.

Lemma lower_join_upper_first (sep : string) (parts : list string) :
  PyStr.lower (PyText.join sep (map PyText.upper_first parts)) =
  PyStr.lower (PyText.join sep parts).
Proof.
  induction parts as [|x parts IH]; [reflexivity|].
  destruct parts as [|y parts].
  - apply lower_upper_first.
  - change (PyText.join sep (map PyText.upper_first (x :: y :: parts)))
      with (PyText.upper_first x ++ sep
            ++ PyText.join sep (map PyText.upper_first (y :: parts))).
    change (PyText.join sep (x :: y :: parts))
      with (x ++ sep ++ PyText.join sep (y :: parts)).
    rewrite !lower_app, IH, lower_upper_first. reflexivity.
Qed.

Lemma lower_length (s : string) :
  String.length (PyStr.lower s) = String.length s.
Proof.
  unfold PyStr.lower. induction s as [|c s IH]; simpl; congruence.
Qed.

Lemma replace_go_absent (old new : string) (s : string) :
  PyStr.contains old s = false -> PyText.replace_go old new s 0 = s.
Proof.
  induction s as [|c s IH]; intros H; [reflexivity|].
  cbn [PyStr.contains] in H. apply orb_false_iff in H. destruct H as [Hp Hc].
  cbn [PyText.replace_go]. rewrite Hp, IH by exact Hc. reflexivity.
Qed.

(** X15.  What the polishing of the horoscope changes in an ASCII
    text.  Apart from the replacement of [Astroyogi a] by [a], only the
    case of letters changes: the polished text and the replaced text
    are the same once both are put in lower case, and they have the
    same length.  A text without [Astroyogi a] is left as it is by the
    replacement. *)
Theorem polish_changes_case_only :
  (forall txt,
     PyStr.isascii txt = true ->
     PyStr.lower (FetchHoroscope.polish txt) =
     PyStr.lower (PyText.replace "Astroyogi a" "a" txt))
  /\ (forall txt,
        PyStr.isascii txt = true ->
        String.length (FetchHoroscope.polish txt) =
        String.length (PyText.replace "Astroyogi a" "a" txt))
  /\ (forall txt,
        PyStr.isascii txt = true ->
        PyStr.contains "Astroyogi a" txt = false ->
        PyText.replace "Astroyogi a" "a" txt = txt
        /\ PyStr.lower (FetchHoroscope.polish txt) = PyStr.lower txt)
  /\ FetchHoroscope.polish "Dear Leo, Astroyogi astrologers say go. be kind"
     = "Dear Leo, astrologers say go. Be kind".
Proof.
  assert (Hlow : forall txt,
            PyStr.lower (FetchHoroscope.polish txt) =
            PyStr.lower (PyText.replace "Astroyogi a" "a" txt)).
  { intros txt. unfold FetchHoroscope.polish.
    rewrite lower_join_upper_first. unfold PyText.split.
    rewrite (join_split_go "." " " _ _ "" (le_n _)). reflexivity. }
  split; [intros txt _; exact (Hlow txt)|]. split; [|split; [|reflexivity]].
  - intros txt _. rewrite <- (lower_length (FetchHoroscope.polish txt)), Hlow.
    apply lower_length.
  - intros txt _ H.
    assert (Hr : PyText.replace "Astroyogi a" "a" txt = txt)
      by (apply replace_go_absent; exact H).
    split; [exact Hr|]. rewrite Hlow, Hr. reflexivity.
Qed.

(** X15 on a text without the word, and on one with it. *)
Lemma polish_changes_case_only_witness :
  (PyText.replace "Astroyogi a" "a" "Dear Leo. go on" = "Dear Leo. go on"
   /\ PyStr.lower (FetchHoroscope.polish "Dear Leo. go on") =
      PyStr.lower "Dear Leo. go on")
  /\ PyStr.lower (FetchHoroscope.polish "Dear Leo, Astroyogi avers. go on") =
     PyStr.lower (PyText.replace "Astroyogi a" "a"
                    "Dear Leo, Astroyogi avers. go on")
  /\ String.length (FetchHoroscope.polish "Dear Leo, Astroyogi avers. go on") =
     String.length (PyText.replace "Astroyogi a" "a"
                      "Dear Leo, Astroyogi avers. go on").
Proof.
  destruct polish_changes_case_only as (Hlow & Hlen & Habsent & _).
  split; [|split].
  - apply Habsent; reflexivity.
  - apply Hlow. reflexivity.
  - apply Hlen. reflexivity.
Defined.
